(** * wikimedia_sync.py: a shallow embedding of the synchronisation engine

    The script copies pages from a source wiki to a destination wiki through
    pywikibot.  The embedding keeps the functions of the script
    ([modifyPage], [modifyPages], [syncPage], [uploadFiles], [syncPages],
    [getTemplatesFromPages], [getFilesFromPages], [exportPagesTitle],
    [syncPagesWithDependances], [syncAndModifyPages] and the option loop of
    [main]) and takes what the script imports (pywikibot, [re], [open], the
    iteration order of [set]) as interfaces.

    - The source wiki is read only: a [SrcSite] answers every call with a
      value or an exception.
    - The destination wiki is the mutable state ([Store]); the static part of
      its behaviour (which calls raise, which writes are accepted) is a
      [DstSite].
    - A Python call either returns, raises, or does not return at all: the
      three constructors of [outcome].  Recursion depth is the fuel of
      [syncPage]; the interpreter's own recursion limit is not modelled. *)

From stdpp Require Import base option list strings gmap.

Open Scope string_scope.
Open Scope list_scope.

(** ** Exceptions and results *)

(** What a library call can raise. *)
Inductive lib_error : Type :=
  | PywikibotError   (* any exception raised inside a pywikibot call *)
  | ReError          (* re.error *)
  | IOError          (* open() failed *).

(** What can leave a function of the script: the exception of a library
    call, or the read of a local that was never assigned. *)
Inductive exn : Type :=
  | Library (e : lib_error)
  | UnboundLocalError (name : string).

(** The answer of a library call. *)
Inductive result (A : Type) : Type :=
  | Ok (a : A)
  | Raise (e : lib_error).
Arguments Ok {A} a.
Arguments Raise {A} e.

(** ** The source wiki *)

(** What [Page(src, title)] answers once constructed.  Each attribute is a
    call to the API and may raise. *)
Record SrcPage : Type := {
  isRedirectPage : result bool;
  getRedirectTarget : result string;
  text : result string;
  templates : result (list string);      (* titles of [p.templates()] *)
  imagelinks : result (list string)      (* titles of [p.imagelinks()] *)
}.

(** [Category(src, title)]: its normalised title and its members. *)
Record Category : Type := {
  cat_title : string;
  articles : Z -> Z -> result (list string)   (* namespaces, recurse *)
}.

Record SrcSite : Type := {
  src_Page : string -> result SrcPage;
  src_Category : string -> result Category
}.

(** ** The destination wiki *)

(** The mutable part: the pages that exist with their text, the log of the
    writes accepted by [editpage] (oldest first), the uploaded files, and the
    title lists exported to the local directory. *)
Record Store : Type := {
  pages : gmap string string;
  writes : list (string * string);
  uploads : list string;
  exports : list (string * list string)
}.

(** What [Page(dst, title)] (or [FilePage(dst, title)]) answers once
    constructed: whether pywikibot resolved it on [dst] itself, and whether
    reading its existence or its text raises. *)
Record DstPage : Type := {
  site_is_dst : bool;
  exists_exn : option lib_error;
  text_exn : option lib_error
}.

Record DstSite : Type := {
  dst_Page : string -> result DstPage;
  dst_FilePage : string -> result DstPage;
  dst_login : result unit;
  editpage_result : Store -> string -> string -> result bool;
  get_file_url : string -> result string;
  upload_result : Store -> string -> result bool
}.

(** ** Outcomes of a call and the monad of the script *)

Inductive outcome (A : Type) : Type :=
  | Ret (a : A) (s : Store)     (* returns [a] *)
  | Exc (e : exn) (s : Store)   (* an exception leaves the call *)
  | Diverge.                    (* the call does not return *)
Arguments Ret {A} a s.
Arguments Exc {A} e s.
Arguments Diverge {A}.

Definition M (A : Type) : Type := Store -> outcome A.

Definition ret {A} (a : A) : M A := fun s => Ret a s.

Definition raise {A} (e : exn) : M A := fun s => Exc e s.

Definition bind {A B} (m : M A) (k : A -> M B) : M B := fun s =>
  match m s with
  | Ret a s' => k a s'
  | Exc e s' => Exc e s'
  | Diverge => Diverge
  end.

(** The store a call leaves behind, when it ends. *)
Definition final_store {A} (o : outcome A) : option Store :=
  match o with
  | Ret _ s => Some s
  | Exc _ s => Some s
  | Diverge => None
  end.

(** [raises_only Q m]: an exception that leaves [m] satisfies [Q];
    [never_diverges m]: [m] always ends. *)
Definition raises_only {A} (Q : exn -> Prop) (m : M A) : Prop :=
  forall s e s', m s = Exc e s' -> Q e.

Definition never_diverges {A} (m : M A) : Prop :=
  forall s, m s <> Diverge.

(** [ensures Q P m]: an exception that leaves [m] satisfies [Q] and a value
    that [m] returns satisfies [P]. *)
Definition ensures {A} (Q : exn -> Prop) (P : A -> Prop) (m : M A) : Prop :=
  forall s,
    match m s with
    | Ret a _ => P a
    | Exc e _ => Q e
    | Diverge => True
    end.

(** [try: m except Exception as e: h e] *)
Definition try_except {A} (m : M A) (h : exn -> M A) : M A := fun s =>
  match m s with
  | Ret a s' => Ret a s'
  | Exc e s' => h e s'
  | Diverge => Diverge
  end.

(** A call that touches no state. *)
Definition call {A} (r : result A) : M A :=
  match r with
  | Ok a => ret a
  | Raise e => raise (Library e)
  end.

(** Reading a local variable that an earlier branch may not have assigned. *)
Definition read_local {A} (name : string) (v : option A) : M A :=
  match v with
  | Some a => ret a
  | None => raise (UnboundLocalError name)
  end.

Notation "'let*' x ':=' m 'in' k" := (bind m (fun x => k))
  (at level 10, x name, m at level 100, k at level 200).
Notation "m ';;;' k" := (bind m (fun _ => k))
  (at level 100, k at level 200, right associativity).

(** ** Primitive operations on the destination *)

Definition record_write (t x : string) (s : Store) : Store :=
  {| pages := <[t := x]> (pages s);
     writes := writes s ++ [(t, x)];
     uploads := uploads s;
     exports := exports s |}.

(** [dst.editpage(page)] with [page.text = x]. *)
Definition editpage (dst : DstSite) (t x : string) : M bool := fun s =>
  match editpage_result dst s t x with
  | Ok true => Ret true (record_write t x s)
  | Ok false => Ret false s
  | Raise e => Exc (Library e) s
  end.

(** [page.exists()] on the destination. *)
Definition page_exists (pg : DstPage) (t : string) : M bool := fun s =>
  match exists_exn pg with
  | Some e => Exc (Library e) s
  | None => Ret (bool_decide (is_Some (pages s !! t))) s
  end.

(** [page.text] on the destination: the stored text, the empty string for a
    page that does not exist. *)
Definition page_text (pg : DstPage) (t : string) : M string := fun s =>
  match text_exn pg with
  | Some e => Exc (Library e) s
  | None => Ret (default "" (pages s !! t)) s
  end.

(** ** syncPage and syncPages *)

(** [syncPage(src, dst, pageTitle, force, checkRedirect)].  The two page
    objects are built before the [try]; the handler prints and returns
    [False].  The redirect target is passed on as the title of the target
    page. *)
Fixpoint syncPage (src : SrcSite) (dst : DstSite) (fuel : nat)
    (pageTitle : string) (force checkRedirect : bool) : M bool :=
  match fuel with
  | O => fun _ => Diverge
  | S fuel' =>
    let* p := call (src_Page src pageTitle) in
    let* newPage := call (dst_Page dst pageTitle) in
    try_except
      (let* skip := (if negb force then page_exists newPage pageTitle
                     else ret false) in
       if skip then ret false
       else if site_is_dst newPage then
         let* redirect := call (isRedirectPage p) in
         (if redirect then
            let* target := call (getRedirectTarget p) in
            syncPage src dst fuel' target force false ;;; ret tt
          else ret tt) ;;;
         let* x := call (text p) in
         editpage dst pageTitle x
       else ret false)
      (fun _ => ret false)
  end.

(** [syncPages(src, dst, pages, force)]: the loop with its counter. *)
Fixpoint syncPages_from (src : SrcSite) (dst : DstSite) (fuel : nat)
    (pages : list string) (force : bool) (nbSyncPage : nat) : M nat :=
  match pages with
  | [] => ret nbSyncPage
  | p :: rest =>
    let* ok := syncPage src dst fuel p force true in
    syncPages_from src dst fuel rest force
      (if ok then nbSyncPage + 1 else nbSyncPage)
  end.

Definition syncPages (src : SrcSite) (dst : DstSite) (fuel : nat)
    (pages : list string) (force : bool) : M nat :=
  syncPages_from src dst fuel pages force 0.

(** ** The Python runtime the script relies on *)

(** The [re] module, the order in which [list(set(l))] enumerates, and
    [open(path, 'w')].  A compiled pattern is identified with its source. *)
Record Python : Type := {
  re_valid : string -> bool;                       (* the pattern compiles *)
  re_match : string -> string -> bool;             (* [re.search] finds a match *)
  re_sub : string -> string -> string -> result string;
  list_of_set : list string -> list string;
  list_of_set_NoDup : forall l, NoDup (list_of_set l);
  list_of_set_elem : forall l x, x ∈ list_of_set l <-> x ∈ l;
  open_w : string -> result unit
}.

Definition re_search (py : Python) (pattern str : string) : result bool :=
  if re_valid py pattern then Ok (re_match py pattern str) else Raise ReError.

Definition re_compile (py : Python) (pattern : string) : result string :=
  if re_valid py pattern then Ok pattern else Raise ReError.

(** [Site(fam=.., code=..)]: one constructor; the script reads from the
    source through the first view and writes to the destination through the
    second. *)
Record Pywikibot : Type := {
  Site : string -> string -> result (SrcSite * DstSite)
}.

(** ** Configuration and options *)

Record Options : Type := {
  force : bool;
  templatesSync : bool;
  templatesDepSync : bool;
  filesUpload : bool;
  exportDir : string
}.

Definition DEFAULT_OPTIONS : Options :=
  {| force := false;
     templatesSync := true;
     templatesDepSync := true;
     filesUpload := true;
     exportDir := "." |}.

Record CategorySelector : Type := {
  c_title : string;
  c_namespace : Z;
  c_recurse : Z
}.

(** One entry of ["modifications"]: the page selector and the ordered
    substitutions [(pattern, repl)]. *)
Record Modification : Type := {
  m_pages : string;
  m_substitutions : list (string * string)
}.

(** ** modifyPage and modifyPages *)

(** The [for s in subs] loop of [modifyPage] on the text of the page. *)
Fixpoint substitute_all (py : Python) (subs : list (string * string))
    (x : string) : result string :=
  match subs with
  | [] => Ok x
  | (pattern, repl) :: rest =>
    match re_sub py pattern repl x with
    | Ok x' => substitute_all py rest x'
    | Raise e => Raise e
    end
  end.

Definition modifyPage (py : Python) (dst : DstSite) (pageTitle : string)
    (subs : list (string * string)) : M bool :=
  try_except
    (let* p := call (dst_Page dst pageTitle) in
     let* x := page_text p pageTitle in
     let* x' := call (substitute_all py subs x) in
     editpage dst pageTitle x')
    (fun _ => ret false).

Fixpoint modifyPages_from (py : Python) (dst : DstSite) (pages : list string)
    (subs : list (string * string)) (nbModPage : nat) : M nat :=
  match pages with
  | [] => ret nbModPage
  | pageTitle :: rest =>
    let* ok := modifyPage py dst pageTitle subs in
    modifyPages_from py dst rest subs
      (if ok then nbModPage + 1 else nbModPage)
  end.

Definition modifyPages (py : Python) (dst : DstSite) (pages : list string)
    (subs : list (string * string)) : M nat :=
  modifyPages_from py dst pages subs 0.

(** ** uploadFiles *)

Definition record_upload (t x : string) (s : Store) : Store :=
  {| pages := <[t := x]> (pages s);
     writes := writes s;
     uploads := uploads s ++ [t];
     exports := exports s |}.

(** [dst.upload(pageDst, ..., text=x)]: an accepted upload creates the file
    page. *)
Definition upload (dst : DstSite) (t x : string) : M unit := fun s =>
  match upload_result dst s t with
  | Ok true => Ret tt (record_upload t x s)
  | Ok false => Ret tt s
  | Raise e => Exc (Library e) s
  end.

(** The loop of [uploadFiles].  [f] is the local of that name: it is assigned
    inside the [try], after [pageDst], by the same constructor call, and the
    handler prints it; it keeps its value from one iteration to the next. *)
Fixpoint uploadFiles_from (dst : DstSite) (files : list string)
    (f : option DstPage) : M unit :=
  match files with
  | [] => ret tt
  | fileTitle :: rest =>
    match dst_FilePage dst fileTitle with
    | Raise _ =>
      read_local "f" f ;;;
      uploadFiles_from dst rest f
    | Ok pageDst =>
      try_except
        (let* e := page_exists pageDst fileTitle in
         if negb e then
           call (get_file_url dst fileTitle) ;;;
           let* x := page_text pageDst fileTitle in
           upload dst fileTitle x
         else ret tt)
        (fun _ => ret tt) ;;;
      uploadFiles_from dst rest (Some pageDst)
    end
  end.

(** [uploadFiles(src, dst, files)]; [src] is not used: both file pages are
    built on [dst]. *)
Definition uploadFiles (src : SrcSite) (dst : DstSite) (files : list string)
    : M unit :=
  uploadFiles_from dst files None.

(** ** Dependencies *)

Fixpoint getTemplatesFromPages_from (src : SrcSite) (pages : list string)
    (templates_acc : list string) : M (list string) :=
  match pages with
  | [] => ret templates_acc
  | p :: rest =>
    let* pg := call (src_Page src p) in
    let* tplt := call (templates pg) in
    getTemplatesFromPages_from src rest
      (if bool_decide (0 < length tplt) then templates_acc ++ tplt
       else templates_acc)
  end.

Definition getTemplatesFromPages (py : Python) (src : SrcSite)
    (pages : list string) : M (list string) :=
  let* l := getTemplatesFromPages_from src pages [] in
  ret (list_of_set py l).

Fixpoint getFilesFromPages_from (src : SrcSite) (pages : list string)
    (files_acc : list string) : M (list string) :=
  match pages with
  | [] => ret files_acc
  | p :: rest =>
    let* pg := call (src_Page src p) in
    let* f := call (imagelinks pg) in
    getFilesFromPages_from src rest
      (if bool_decide (0 < length f) then files_acc ++ f else files_acc)
  end.

Definition getFilesFromPages (py : Python) (src : SrcSite)
    (pages : list string) : M (list string) :=
  let* l := getFilesFromPages_from src pages [] in
  ret (list_of_set py l).

Definition record_export (path : string) (l : list string) (s : Store) : Store :=
  {| pages := pages s;
     writes := writes s;
     uploads := uploads s;
     exports := exports s ++ [(path, l)] |}.

Definition exportPagesTitle (py : Python) (pages : list string)
    (fileName directory : string) : M unit :=
  let path := directory +:+ "/mirroring_export_" +:+ fileName +:+ ".json" in
  call (open_w py path) ;;;
  fun s => Ret tt (record_export path pages s).

(** ** syncPagesWithDependances *)

(** The locals [files], [templates] and [dependances] are assigned under a
    condition and read under another one: each is an [option], and a read of
    an unassigned local raises [UnboundLocalError]. *)
Definition syncPagesWithDependances (py : Python) (src : SrcSite)
    (dst : DstSite) (fuel : nat) (pages : list string) (options : Options)
    : M nat :=
  exportPagesTitle py pages "pages" (exportDir options) ;;;
  let* files :=
    (if filesUpload options then
       let* l := getFilesFromPages py src pages in
       exportPagesTitle py l "files" (exportDir options) ;;;
       ret (Some l)
     else ret None) in
  let* templates :=
    (if templatesSync options then
       let* l := getTemplatesFromPages py src pages in
       exportPagesTitle py l "templates" (exportDir options) ;;;
       ret (Some l)
     else ret None) in
  let* dependances :=
    (if templatesDepSync options then
       let* tp := read_local "templates" templates in
       let* l := getTemplatesFromPages py src tp in
       exportPagesTitle py l "dependances" (exportDir options) ;;;
       ret (Some l)
     else ret None) in
  let nbPageSync := 0 in
  let* nbPageSync :=
    (if templatesDepSync options then
       let* l := read_local "dependances" dependances in
       let* n := syncPages src dst fuel l (force options) in
       ret (nbPageSync + n)
     else ret nbPageSync) in
  let* nbPageSync :=
    (if templatesSync options then
       let* l := read_local "templates" templates in
       let* n := syncPages src dst fuel l (force options) in
       ret (nbPageSync + n)
     else ret nbPageSync) in
  let* n := syncPages src dst fuel pages (force options) in
  let nbPageSync := nbPageSync + n in
  (if filesUpload options then
     let* l := read_local "files" files in
     uploadFiles src dst l
   else ret tt) ;;;
  ret nbPageSync.

(** The locals of [syncPagesWithDependances] that are assigned under a
    condition. *)
Definition own_locals : list string := ["files"; "templates"; "dependances"].

Definition is_library_error (e : exn) : Prop := exists l, e = Library l.

Definition not_own_local (e : exn) : Prop :=
  forall name, name ∈ own_locals -> e <> UnboundLocalError name.

(** The file that [exportPagesTitle] writes for a phase, with its content. *)
Definition export_entry (options : Options) (name : string) (l : list string)
    : string * list string :=
  (exportDir options +:+ "/mirroring_export_" +:+ name +:+ ".json", l).

(** Two stores with the same wiki: the same pages, edits and uploads. *)
Definition same_wiki (s s' : Store) : Prop :=
  pages s' = pages s /\ writes s' = writes s /\ uploads s' = uploads s.

(** ** syncAndModifyPages *)

(** The comprehension that builds [cats]: every [Category] object is
    constructed before any member is listed. *)
Fixpoint build_cats (src : SrcSite) (categories : list CategorySelector)
    : M (list (Category * Z * Z)) :=
  match categories with
  | [] => ret []
  | c :: rest =>
    let* cat := call (src_Category src (c_title c)) in
    let* cats := build_cats src rest in
    ret ((cat, c_namespace c, c_recurse c) :: cats)
  end.

(** The loop over [cats]: the title of the category, then its members, are
    appended to [pages]. *)
Fixpoint retrieve_pages (cats : list (Category * Z * Z)) (pages : list string)
    : M (list string) :=
  match cats with
  | [] => ret pages
  | (cat, ns, r) :: rest =>
    let pages := pages ++ [cat_title cat] in
    let* members := call (articles cat ns r) in
    retrieve_pages rest (pages ++ members)
  end.

(** [filter(lambda p: re.search(mod['pages'], p), pages)], forced by [set]. *)
Fixpoint filter_pages (py : Python) (selector : string) (pages : list string)
    : M (list string) :=
  match pages with
  | [] => ret []
  | p :: rest =>
    let* found := call (re_search py selector p) in
    let* l := filter_pages py selector rest in
    ret (if found then p :: l else l)
  end.

(** [map(lambda s: (re.compile(s['pattern']), s['repl']), ...)], forced by
    [list]. *)
Fixpoint compile_subs (py : Python) (substitutions : list (string * string))
    : M (list (string * string)) :=
  match substitutions with
  | [] => ret []
  | (pattern, repl) :: rest =>
    let* c := call (re_compile py pattern) in
    let* l := compile_subs py rest in
    ret ((c, repl) :: l)
  end.

(** The body of [for mod in modifications]. *)
Definition apply_modification (py : Python) (dst : DstSite)
    (pages : list string) (mod_ : Modification) : M nat :=
  let* pageMods := filter_pages py (m_pages mod_) pages in
  let* subs := compile_subs py (m_substitutions mod_) in
  modifyPages py dst (list_of_set py pageMods) subs.

Fixpoint apply_modifications (py : Python) (dst : DstSite)
    (pages : list string) (modifications : list Modification) (nbMods : nat)
    : M nat :=
  match modifications with
  | [] => ret nbMods
  | mod_ :: rest =>
    let* nbMods := apply_modification py dst pages mod_ in
    apply_modifications py dst pages rest nbMods
  end.

(** [pages = pagesName], extended [if categories]. *)
Definition collect_pages (siteSrc : SrcSite) (pagesName : list string)
    (categories : list CategorySelector) : M (list string) :=
  let pages := pagesName in
  match categories with
  | [] => ret pages
  | _ :: _ =>
    let* cats := build_cats siteSrc categories in
    retrieve_pages cats pages
  end.

Definition syncAndModifyPages (py : Python) (bot : Pywikibot) (fuel : nat)
    (srcFam srcCode dstFam dstCode : string)
    (pagesName : list string) (categories : list CategorySelector)
    (modifications : list Modification) (options : Options)
    : M (nat * nat) :=
  let* s1 := call (Site bot srcFam srcCode) in
  let siteSrc := fst s1 in
  let* s2 := call (Site bot dstFam dstCode) in
  let siteDst := snd s2 in
  call (dst_login siteDst) ;;;
  let* pages := collect_pages siteSrc pagesName categories in
  let* nbPages :=
    syncPagesWithDependances py siteSrc siteDst fuel pages options in
  let nbMods := 0 in
  let* nbMods := apply_modifications py siteDst pages modifications nbMods in
  ret (nbPages, nbMods).

(** ** The option loop of main *)

(** [opts] is what [getopt.getopt] returns: the options with their
    arguments, in the order of the command line.  [None] is [sys.exit(0)]
    after [--help]. *)
Definition is_opt (opt short long : string) : bool :=
  bool_decide (opt = short) || bool_decide (opt = long).

Definition set_option (options : Options) (opt arg : string) : Options :=
  let options :=
    if is_opt opt "-f" "--force" then
      {| force := true;
         templatesSync := templatesSync options;
         templatesDepSync := templatesDepSync options;
         filesUpload := filesUpload options;
         exportDir := exportDir options |}
    else options in
  let options :=
    if is_opt opt "-t" "--no-sync-templates" then
      {| force := force options;
         templatesSync := false;
         templatesDepSync := templatesDepSync options;
         filesUpload := filesUpload options;
         exportDir := exportDir options |}
    else options in
  let options :=
    if is_opt opt "-d" "--no-sync-dependances-templates" then
      {| force := force options;
         templatesSync := templatesSync options;
         templatesDepSync := false;
         filesUpload := filesUpload options;
         exportDir := exportDir options |}
    else options in
  let options :=
    if is_opt opt "-u" "--no-upload-files" then
      {| force := force options;
         templatesSync := templatesSync options;
         templatesDepSync := templatesDepSync options;
         filesUpload := false;
         exportDir := exportDir options |}
    else options in
  if is_opt opt "-e" "--export-dir" then
    {| force := force options;
       templatesSync := templatesSync options;
       templatesDepSync := templatesDepSync options;
       filesUpload := filesUpload options;
       exportDir := arg |}
  else options.

Fixpoint parse_args (opts : list (string * string)) (options : Options)
    : option Options :=
  match opts with
  | [] => Some options
  | (opt, arg) :: rest =>
    if is_opt opt "-h" "--help" then None
    else parse_args rest (set_option options opt arg)
  end.

(** "check coherence, fix if needed" *)
Definition check_coherence (options : Options) : Options :=
  if templatesDepSync options && negb (templatesSync options) then
    {| force := force options;
       templatesSync := true;
       templatesDepSync := templatesDepSync options;
       filesUpload := filesUpload options;
       exportDir := exportDir options |}
  else options.

(** The options [main] hands to [processFromJSONFile]. *)
Definition main_options (opts : list (string * string)) : option Options :=
  check_coherence <$> parse_args opts DEFAULT_OPTIONS.

(** ** processFromJSONFile and the loop of main *)

(** The configuration as [json.load] returns it.  A key may be missing; the
    value of a key that is present has the shape the script expects. *)
Record SiteConfig : Type := {
  fam : option string;
  code : option string
}.

Record SitesConfig : Type := {
  cfg_src : option SiteConfig;
  cfg_dst : option SiteConfig
}.

Record Config : Type := {
  cfg_sites : option SitesConfig;
  cfg_pages : option (list string);
  cfg_categories : option (list CategorySelector);
  cfg_modifications : option (list Modification)
}.

(** What [open(fileconfig, 'r')] and [json.load] give for a file name: the
    file cannot be opened, its content is not JSON, or it is parsed. *)
Inductive config_file : Type :=
  | Unreadable (e : lib_error)
  | Malformed
  | Parsed (cfg : Config).

(** The arguments of the call to [syncAndModifyPages], in the order in
    which the script reads the keys; [None] when a key is missing
    ([KeyError]). *)
Definition read_keys (cfg : Config)
    : option (string * string * string * string *
              list string * list CategorySelector * list Modification) :=
  sites ← cfg_sites cfg;
  src ← cfg_src sites;
  dst ← cfg_dst sites;
  pages ← cfg_pages cfg;
  cats ← cfg_categories cfg;
  mods ← cfg_modifications cfg;
  srcFam ← fam src;
  srcCode ← code src;
  dstFam ← fam dst;
  dstCode ← code dst;
  Some (srcFam, srcCode, dstFam, dstCode, pages, cats, mods).

(** [processFromJSONFile(fileconfig, options)].  The file is opened before
    the [try]; the three handlers ([JSONDecodeError], [KeyError],
    [Exception]) print a message and the function returns. *)
Definition processFromJSONFile (files : string -> config_file) (py : Python)
    (bot : Pywikibot) (fuel : nat) (fileconfig : string) (options : Options)
    : M unit :=
  match files fileconfig with
  | Unreadable e => raise (Library e)
  | Malformed => ret tt
  | Parsed cfg =>
    match read_keys cfg with
    | None => ret tt
    | Some (srcFam, srcCode, dstFam, dstCode, pages, cats, mods) =>
      try_except
        (syncAndModifyPages py bot fuel srcFam srcCode dstFam dstCode
           pages cats mods options ;;;
         ret tt)
        (fun _ => ret tt)
    end
  end.

(** [for arg in args: processFromJSONFile(arg, options)] *)
Fixpoint process_args (files : string -> config_file) (py : Python)
    (bot : Pywikibot) (fuel : nat) (options : Options) (args : list string)
    : M unit :=
  match args with
  | [] => ret tt
  | arg :: rest =>
    processFromJSONFile files py bot fuel arg options ;;;
    process_args files py bot fuel options rest
  end.

(** [main()] after [getopt]: [opts] and [args] are what [getopt.getopt]
    returns.  With [--help] the script exits before any file is read. *)
Definition main (files : string -> config_file) (py : Python)
    (bot : Pywikibot) (fuel : nat) (opts : list (string * string))
    (args : list string) : M unit :=
  match main_options opts with
  | None => ret tt
  | Some options => process_args files py bot fuel options args
  end.

(** ** Notions used to state the properties of a run *)

(** No page that exists is changed. *)
Definition pages_kept (s s' : Store) : Prop :=
  forall (y x : string), pages s !! y = Some x -> pages s' !! y = Some x.

Definition keeps_pages {A} (m : M A) : Prop :=
  forall s s', final_store (m s) = Some s' -> pages_kept s s'.

(** An option, under its short or its long name, is on the command line. *)
Definition has_opt (short long : string) (opts : list (string * string))
    : bool :=
  existsb (fun oa => is_opt oa.1 short long) opts.

(** The arguments given to [-e] or [--export-dir], in the order of the
    command line. *)
Definition export_dir_args (opts : list (string * string)) : list string :=
  omap (fun oa => if is_opt oa.1 "-e" "--export-dir" then Some oa.2 else None)
       opts.

(** What a category adds to the list of pages: its title, then its
    members; [None] when the constructor or the listing raises. *)
Definition category_block (src : SrcSite) (c : CategorySelector)
    : option (list string) :=
  match src_Category src (c_title c) with
  | Ok cat =>
    match articles cat (c_namespace c) (c_recurse c) with
    | Ok members => Some (cat_title cat :: members)
    | Raise _ => None
    end
  | Raise _ => None
  end.

(** A configuration file that [open] can open. *)
Definition readable (files : string -> config_file) (name : string) : Prop :=
  forall e, files name <> Unreadable e.

(** ** The decision taken by one call of syncPage

    What [syncPage] does before it recurses depends on the store only through
    the existence of the page.  [plan_of] is that decision and [finish] the
    end of the [try] block (the copy and the commit); [syncPage_plan] below
    relates them to [syncPage]. *)

Inductive plan : Type :=
  | Propagate (e : lib_error)         (* a constructor raised, outside the [try] *)
  | Skip                              (* [False] without any effect *)
  | Copy (p : SrcPage)                (* not a redirect: copy the content *)
  | Follow (u : string) (p : SrcPage) (* a redirect to [u]: sync [u], then copy *).

Definition plan_of (src : SrcSite) (dst : DstSite) (pageTitle : string)
    (force : bool) (s : Store) : plan :=
  match src_Page src pageTitle with
  | Raise e => Propagate e
  | Ok p =>
    match dst_Page dst pageTitle with
    | Raise e => Propagate e
    | Ok newPage =>
      let enters :=
        (force ||
         match exists_exn newPage with
         | Some _ => false
         | None => negb (bool_decide (is_Some (pages s !! pageTitle)))
         end) && site_is_dst newPage in
      if enters then
        match isRedirectPage p with
        | Ok true =>
          match getRedirectTarget p with
          | Ok u => Follow u p
          | Raise _ => Skip
          end
        | Ok false => Copy p
        | Raise _ => Skip
        end
      else Skip
    end
  end.

Definition finish (dst : DstSite) (p : SrcPage) (pageTitle : string) : M bool :=
  try_except
    (let* x := call (text p) in editpage dst pageTitle x)
    (fun _ => ret false).

(** The store after a list of accepted writes. *)
Definition apply_writes (ws : list (string * string)) (s : Store) : Store :=
  foldl (fun s w => record_write w.1 w.2 s) s ws.

(** The target of the redirect at [t], when the source answers with one. *)
Definition redirect_target (src : SrcSite) (t : string) : option string :=
  match src_Page src t with
  | Ok p =>
    match isRedirectPage p, getRedirectTarget p with
    | Ok true, Ok u => Some u
    | _, _ => None
    end
  | Raise _ => None
  end.

(** The text of [t] on the source, when the source answers with one. *)
Definition source_text (src : SrcSite) (t : string) : option string :=
  match src_Page src t with
  | Ok p => match text p with Ok x => Some x | Raise _ => None end
  | Raise _ => None
  end.

(** [chain src t n]: following the redirects from [t] ends after [n] steps. *)
Inductive chain (src : SrcSite) : string -> nat -> Prop :=
  | chain_end t : redirect_target src t = None -> chain src t 0
  | chain_step t u n :
      redirect_target src t = Some u -> chain src u n -> chain src t (S n).


(** What the writes [ws] of a call [syncPage src dst n t force _ s] that
    returns [b] satisfy: each one copies the text of the source, belongs to
    a call that returns from the same store, created its page when [force]
    is off, and the last one is the write of [t] itself when the call
    returns [True]. *)
Record call_writes (src : SrcSite) (dst : DstSite) (n : nat) (t : string)
    (force : bool) (s : Store) (b : bool) (ws : list (string * string))
    : Prop := {
  cw_text : forall y x, (y, x) ∈ ws -> source_text src y = Some x;
  cw_returns : forall y, y ∈ ws.*1 ->
    syncPage src dst n y force false s <> Diverge;
  cw_absent : force = false -> forall y, y ∈ ws.*1 -> pages s !! y = None;
  cw_last : b = true -> exists x ws', ws = ws' ++ [(t, x)]
}.

(** [enters dst force s t]: a call on [t] from the store [s] builds the
    destination page, passes the test on existence and finds the page on
    [dst]: it goes on to read the source page. *)
Definition enters (dst : DstSite) (force : bool) (s : Store) (t : string)
    : Prop :=
  exists q, dst_Page dst t = Ok q /\ site_is_dst q = true /\
    (force = true \/ (exists_exn q = None /\ pages s !! t = None)).

(** A source and a destination on which no call fails. *)
Definition healthy_src (src : SrcSite) : Prop :=
  forall t, exists p b x,
    src_Page src t = Ok p /\ isRedirectPage p = Ok b /\ text p = Ok x /\
    (b = true -> exists u, getRedirectTarget p = Ok u).

Definition healthy_dst (dst : DstSite) : Prop :=
  (forall t, dst_Page dst t =
     Ok {| site_is_dst := true; exists_exn := None; text_exn := None |}) /\
  (forall s t x, editpage_result dst s t x = Ok true).

(** ** A small wiki to run the script on *)

Module Demo.

(** A stand-in for [re] on patterns and replacements without special
    characters: a pattern matches where it occurs literally. *)
Fixpoint is_prefix (p s : string) : bool :=
  match p, s with
  | EmptyString, _ => true
  | String a p', String b s' => bool_decide (a = b) && is_prefix p' s'
  | String _ _, EmptyString => false
  end.

Fixpoint occurs (p s : string) : bool :=
  is_prefix p s ||
  match s with
  | EmptyString => false
  | String _ s' => occurs p s'
  end.

Fixpoint replace_from (p r s : string) (skip : nat) : string :=
  match s with
  | EmptyString => match p with EmptyString => r | _ => EmptyString end
  | String c s' =>
    match skip with
    | S k => replace_from p r s' k
    | O =>
      match p with
      | EmptyString => r +:+ String c (replace_from p r s' 0)
      | String _ p' =>
        if is_prefix p s then r +:+ replace_from p r s' (String.length p')
        else String c (replace_from p r s' 0)
      end
    end
  end.

Definition py : Python :=
  {| re_valid := fun _ => true;
     re_match := occurs;
     re_sub := fun p r s => Ok (replace_from p r s 0);
     list_of_set := remove_dups;
     list_of_set_NoDup := NoDup_remove_dups;
     list_of_set_elem := elem_of_remove_dups;
     open_w := fun _ => Ok tt |}.

Definition plain (x : string) (tpl : list string) : SrcPage :=
  {| isRedirectPage := Ok false;
     getRedirectTarget := Raise PywikibotError;
     text := Ok x;
     templates := Ok tpl;
     imagelinks := Ok [] |}.

Definition redirect (u : string) : SrcPage :=
  {| isRedirectPage := Ok true;
     getRedirectTarget := Ok u;
     text := Ok ("#REDIRECT [[" +:+ u +:+ "]]");
     templates := Ok [];
     imagelinks := Ok [] |}.

(** The source: [A] redirects to [B]; [P] transcludes the template [T];
    [X] and [Y] redirect to each other; any other title is a page without
    content. *)
Definition wiki_Page (t : string) : result SrcPage :=
  if bool_decide (t = "A") then Ok (redirect "B")
  else if bool_decide (t = "B") then Ok (plain "text of B" [])
  else if bool_decide (t = "P") then Ok (plain "see {{T}}" ["T"])
  else if bool_decide (t = "T") then Ok (plain "foo" [])
  else if bool_decide (t = "X") then Ok (redirect "Y")
  else if bool_decide (t = "Y") then Ok (redirect "X")
  else Ok (plain "" []).

Definition src : SrcSite :=
  {| src_Page := wiki_Page;
     src_Category := fun _ => Raise PywikibotError |}.

(** The same source behind a constructor that rejects the empty title. *)
Definition strict_src : SrcSite :=
  {| src_Page := fun t =>
       if bool_decide (t = "") then Raise PywikibotError else wiki_Page t;
     src_Category := fun _ => Raise PywikibotError |}.

Definition good_page : DstPage :=
  {| site_is_dst := true; exists_exn := None; text_exn := None |}.

(** A destination that accepts every write. *)
Definition dst : DstSite :=
  {| dst_Page := fun _ => Ok good_page;
     dst_FilePage := fun _ => Ok good_page;
     dst_login := Ok tt;
     editpage_result := fun _ _ _ => Ok true;
     get_file_url := fun _ => Ok "";
     upload_result := fun _ _ => Ok true |}.

Definition bot : Pywikibot :=
  {| Site := fun _ _ => Ok (src, dst) |}.

Definition empty : Store :=
  {| pages := ∅; writes := []; uploads := []; exports := [] |}.

(** A destination store that already holds the pages of [l]. *)
Definition holding (l : list (string * string)) : Store :=
  {| pages := list_to_map l; writes := []; uploads := []; exports := [] |}.

(** A destination that refuses to create [B] as long as [T] is missing. *)
Definition moody_dst : DstSite :=
  {| dst_Page := fun _ => Ok good_page;
     dst_FilePage := fun _ => Ok good_page;
     dst_login := Ok tt;
     editpage_result := fun s t _ =>
       Ok (negb (bool_decide (t = "B")) ||
           bool_decide (is_Some (pages s !! "T")));
     get_file_url := fun _ => Ok "";
     upload_result := fun _ _ => Ok true |}.

(** Options that leave only the pages phase. *)
Definition pages_only (force : bool) : Options :=
  {| force := force;
     templatesSync := false;
     templatesDepSync := false;
     filesUpload := false;
     exportDir := "." |}.

(** Options that break the coherence of the two template flags. *)
Definition incoherent : Options :=
  {| force := false;
     templatesSync := false;
     templatesDepSync := true;
     filesUpload := true;
     exportDir := "." |}.

(** Two rules: the first selects every page, the second the pages whose
    title contains [T]. *)
Definition rule_all : Modification :=
  {| m_pages := ""; m_substitutions := [("e", "E")] |}.

Definition rule_T : Modification :=
  {| m_pages := "T"; m_substitutions := [("foo", "bar")] |}.

(** The same runtime, in which the pattern [(] does not compile. *)
Definition strict_py : Python :=
  {| re_valid := fun p => negb (bool_decide (p = "("));
     re_match := occurs;
     re_sub := fun p r s => Ok (replace_from p r s 0);
     list_of_set := remove_dups;
     list_of_set_NoDup := NoDup_remove_dups;
     list_of_set_elem := elem_of_remove_dups;
     open_w := fun _ => Ok tt |}.

(** A destination whose [FilePage] constructor rejects the title [bad]. *)
Definition picky_dst : DstSite :=
  {| dst_Page := fun _ => Ok good_page;
     dst_FilePage := fun t =>
       if bool_decide (t = "bad") then Raise PywikibotError else Ok good_page;
     dst_login := Ok tt;
     editpage_result := fun _ _ _ => Ok true;
     get_file_url := fun _ => Ok "";
     upload_result := fun _ _ => Ok true |}.

(** Configuration files: [good.json] lists the page [B], [nokey.json] has
    no ["pages"], [bad.json] is not JSON, any other file cannot be opened. *)
Definition site_cfg (f c : string) : SiteConfig :=
  {| fam := Some f; code := Some c |}.

Definition good_cfg : Config :=
  {| cfg_sites := Some {| cfg_src := Some (site_cfg "wikipedia" "en");
                          cfg_dst := Some (site_cfg "kiwix" "en") |};
     cfg_pages := Some ["B"];
     cfg_categories := Some [];
     cfg_modifications := Some [] |}.

Definition nokey_cfg : Config :=
  {| cfg_sites := cfg_sites good_cfg;
     cfg_pages := None;
     cfg_categories := Some [];
     cfg_modifications := Some [] |}.

Definition files (name : string) : config_file :=
  if bool_decide (name = "good.json") then Parsed good_cfg
  else if bool_decide (name = "nokey.json") then Parsed nokey_cfg
  else if bool_decide (name = "bad.json") then Malformed
  else Unreadable IOError.

(** A source with one category, [Cat], whose members are [B] and [P]. *)
Definition cat_src : SrcSite :=
  {| src_Page := wiki_Page;
     src_Category := fun t =>
       if bool_decide (t = "Cat")
       then Ok {| cat_title := "Category:Cat";
                  articles := fun _ _ => Ok ["B"; "P"] |}
       else Raise PywikibotError |}.

Definition cat_selector (t : string) : CategorySelector :=
  {| c_title := t; c_namespace := 0%Z; c_recurse := 0%Z |}.

End Demo.

(** * Properties *)

(** ** The store after a list of writes *)

Lemma apply_writes_nil s : apply_writes [] s = s.
Proof. reflexivity. Qed.

Lemma apply_writes_app ws1 ws2 s :
  apply_writes (ws1 ++ ws2) s = apply_writes ws2 (apply_writes ws1 s).
Proof. unfold apply_writes. by rewrite foldl_app. Qed.

Lemma apply_writes_snoc ws t x s :
  apply_writes (ws ++ [(t, x)]) s = record_write t x (apply_writes ws s).
Proof. by rewrite apply_writes_app. Qed.

Lemma writes_apply_writes ws s :
  writes (apply_writes ws s) = writes s ++ ws.
Proof.
  revert s. induction ws as [|[t x] ws IH]; intros s; simpl.
  - by rewrite app_nil_r.
  - change (apply_writes ((t, x) :: ws) s)
      with (apply_writes ws (record_write t x s)).
    rewrite IH. simpl. by rewrite <- app_assoc.
Qed.

Lemma uploads_apply_writes ws s : uploads (apply_writes ws s) = uploads s.
Proof.
  revert s. induction ws as [|[t x] ws IH]; intros s; [done|].
  change (apply_writes ((t, x) :: ws) s)
    with (apply_writes ws (record_write t x s)).
  by rewrite IH.
Qed.

Lemma exports_apply_writes ws s : exports (apply_writes ws s) = exports s.
Proof.
  revert s. induction ws as [|[t x] ws IH]; intros s; [done|].
  change (apply_writes ((t, x) :: ws) s)
    with (apply_writes ws (record_write t x s)).
  by rewrite IH.
Qed.

Lemma apply_writes_inj ws1 ws2 s :
  apply_writes ws1 s = apply_writes ws2 s -> ws1 = ws2.
Proof.
  intros H. apply (f_equal writes) in H.
  rewrite !writes_apply_writes in H. by apply app_inv_head in H.
Qed.

(** A title that is not written keeps its page. *)
Lemma pages_apply_writes_notin ws s (y : string) :
  y ∉ ws.*1 -> pages (apply_writes ws s) !! y = pages s !! y.
Proof.
  revert s. induction ws as [|[t x] ws IH]; intros s Hy; [done|].
  change (apply_writes ((t, x) :: ws) s)
    with (apply_writes ws (record_write t x s)).
  rewrite fmap_cons in Hy. apply not_elem_of_cons in Hy as [Hne Hy].
  rewrite IH by done. simpl. by rewrite lookup_insert_ne.
Qed.

(** A written title exists afterwards, with a text that was written. *)
Lemma pages_apply_writes_in ws s (y : string) :
  y ∈ ws.*1 -> exists x, (y, x) ∈ ws /\ pages (apply_writes ws s) !! y = Some x.
Proof.
  induction ws as [|[t x] ws IH] using rev_ind; intros Hy.
  - by apply elem_of_nil in Hy.
  - rewrite apply_writes_snoc. simpl.
    destruct (decide (t = y)) as [->|Hne].
    + exists x. split; [apply elem_of_app; right; constructor|].
      by rewrite lookup_insert_eq.
    + rewrite fmap_app in Hy. apply elem_of_app in Hy as [Hy|Hy].
      * destruct (IH Hy) as (x' & Hin & Hl). exists x'.
        split; [apply elem_of_app; by left|]. by rewrite lookup_insert_ne.
      * simpl in Hy. apply list_elem_of_singleton in Hy. congruence.
Qed.

(** Pages are never removed. *)
Lemma pages_apply_writes_mono ws s (y : string) :
  is_Some (pages s !! y) -> is_Some (pages (apply_writes ws s) !! y).
Proof.
  intros Hs. destruct (decide (y ∈ ws.*1)) as [Hin|Hnin].
  - destruct (pages_apply_writes_in ws s y Hin) as (x & _ & ->). eauto.
  - by rewrite pages_apply_writes_notin.
Qed.

(** ** One call of syncPage *)

Section SyncPage.
Context (src : SrcSite) (dst : DstSite).

Lemma syncPage_plan n t force c s :
  syncPage src dst (S n) t force c s =
  match plan_of src dst t force s with
  | Propagate e => Exc (Library e) s
  | Skip => Ret false s
  | Copy p => finish dst p t s
  | Follow u p =>
    match syncPage src dst n u force false s with
    | Ret _ s' => finish dst p t s'
    | Exc _ s' => Ret false s'
    | Diverge => Diverge
    end
  end.
Proof.
  simpl. unfold plan_of, finish, bind, try_except, call, ret, raise,
    page_exists.
  destruct (src_Page src t) as [p|e]; [|done].
  destruct (dst_Page dst t) as [q|e]; [|done].
  destruct force; simpl.
  - destruct (site_is_dst q); [|done].
    destruct (isRedirectPage p) as [[|]|]; try done.
    destruct (getRedirectTarget p) as [u|]; [|done].
    by destruct (syncPage src dst n u true false s).
  - destruct (exists_exn q); [done|].
    destruct (bool_decide (is_Some (pages s !! t))); [done|]. simpl.
    destruct (site_is_dst q); [|done].
    destruct (isRedirectPage p) as [[|]|]; try done.
    destruct (getRedirectTarget p) as [u|]; [|done].
    by destruct (syncPage src dst n u false false s).
Qed.

(** The end of the [try] block either commits one write or changes
    nothing. *)
Lemma finish_cases p t s :
  (exists x, text p = Ok x /\ editpage_result dst s t x = Ok true /\
             finish dst p t s = Ret true (record_write t x s)) \/
  finish dst p t s = Ret false s.
Proof.
  unfold finish, try_except, bind, call, ret, raise, editpage.
  destruct (text p) as [x|e]; [|by right].
  destruct (editpage_result dst s t x) as [[|]|e] eqn:He; [|by right..].
  left. by exists x.
Qed.


(** More fuel does not change the outcome of a call that returns. *)
Lemma syncPage_fuel_S n t force c s :
  syncPage src dst n t force c s <> Diverge ->
  syncPage src dst (S n) t force c s = syncPage src dst n t force c s.
Proof.
  revert t c. induction n as [|n IH]; intros t c Hn; [done|].
  rewrite (syncPage_plan (S n)). rewrite syncPage_plan in Hn |- *.
  destruct (plan_of src dst t force s) as [e| |p|u p]; try done.
  rewrite IH; [done|]. intros Hd. by rewrite Hd in Hn.
Qed.

Lemma syncPage_fuel_le n m t force c s :
  n <= m ->
  syncPage src dst n t force c s <> Diverge ->
  syncPage src dst m t force c s = syncPage src dst n t force c s.
Proof.
  induction 1 as [|m Hle IH]; intros Hn; [done|].
  rewrite syncPage_fuel_S; [by apply IH|]. by rewrite IH.
Qed.

(** What the decision says about the source and the store. *)
Lemma plan_of_Copy t force s p :
  plan_of src dst t force s = Copy p ->
  src_Page src t = Ok p /\ redirect_target src t = None /\
  (force = false -> pages s !! t = None).
Proof.
  unfold plan_of, redirect_target. intros H.
  destruct (src_Page src t) as [p'|]; [|done].
  destruct (dst_Page dst t) as [q|]; [|done].
  destruct ((force || _) && _) eqn:Hen; [|done].
  destruct (isRedirectPage p') as [[|]|]; try done;
    [by destruct (getRedirectTarget p')|].
  injection H as ->. split_and!; [done..|].
  intros ->. simpl in Hen.
  destruct (exists_exn q); [done|].
  apply andb_prop in Hen as [Hen _]. apply negb_true_iff in Hen.
  apply bool_decide_eq_false in Hen.
  by apply eq_None_not_Some.
Qed.

Lemma plan_of_Follow t force s u p :
  plan_of src dst t force s = Follow u p ->
  src_Page src t = Ok p /\ redirect_target src t = Some u /\
  (force = false -> pages s !! t = None).
Proof.
  unfold plan_of, redirect_target. intros H.
  destruct (src_Page src t) as [p'|]; [|done].
  destruct (dst_Page dst t) as [q|]; [|done].
  destruct ((force || _) && _) eqn:Hen; [|done].
  destruct (isRedirectPage p') as [[|]|]; try done.
  destruct (getRedirectTarget p') as [u'|]; [|done].
  injection H as -> ->. split_and!; [done..|].
  intros ->. simpl in Hen.
  destruct (exists_exn q); [done|].
  apply andb_prop in Hen as [Hen _]. apply negb_true_iff in Hen.
  apply bool_decide_eq_false in Hen.
  by apply eq_None_not_Some.
Qed.

Lemma finish_returns p t s : finish dst p t s <> Diverge.
Proof.
  destruct (finish_cases p t s) as [(x & _ & _ & ->)| ->]; done.
Qed.

(** The effect of one call: it does not return, or a constructor raised
    and nothing happened, or it returns after a list of writes. *)
Lemma syncPage_effect n t force c s :
  syncPage src dst n t force c s = Diverge \/
  (exists e, syncPage src dst n t force c s = Exc (Library e) s /\
             plan_of src dst t force s = Propagate e) \/
  (exists b ws, syncPage src dst n t force c s = Ret b (apply_writes ws s) /\
                call_writes src dst n t force s b ws).
Proof.
  revert t c. induction n as [|n IH]; intros t c; [by left|].
  assert (Hempty : forall m y, call_writes src dst m y force s false []).
  { intros m y. split; [intros y' x Hy|intros y' Hy|intros _ y' Hy|done];
      by apply elem_of_nil in Hy. }
  rewrite syncPage_plan.
  destruct (plan_of src dst t force s) as [e| |p|u p] eqn:Hplan.
  - right; left. by exists e.
  - right; right. exists false, []. by split.
  - right; right.
    apply plan_of_Copy in Hplan as Hc. destruct Hc as (Hp & _ & Habs).
    destruct (finish_cases p t s) as [(x & Hx & _ & Hf)|Hf].
    + exists true, [(t, x)]. split; [done|]. split.
      * intros y x' Hy. apply list_elem_of_singleton in Hy.
        injection Hy as -> ->. unfold source_text. by rewrite Hp, Hx.
      * intros y Hy. apply list_elem_of_singleton in Hy. simpl in Hy.
        subst y. rewrite syncPage_plan, Hplan. apply finish_returns.
      * intros Hforce y Hy. apply list_elem_of_singleton in Hy.
        simpl in Hy. subst y. by apply Habs.
      * intros _. by exists x, [].
    + exists false, []. by split.
  - apply plan_of_Follow in Hplan as Hc. destruct Hc as (Hp & _ & Habs).
    destruct (IH u false) as [Hd|[(e & He & _)|(b' & ws' & Hr & Hcw)]].
    + left. by rewrite Hd.
    + right; right. rewrite He. exists false, []. by split.
    + right; right. rewrite Hr.
      assert (Hmono : forall y, y ∈ ws'.*1 ->
                syncPage src dst (S n) y force false s <> Diverge).
      { intros y Hy. rewrite syncPage_fuel_S; by apply (cw_returns _ _ _ _ _ _ _ _ Hcw). }
      destruct (finish_cases p t (apply_writes ws' s))
        as [(x & Hx & _ & Hf)|Hf].
      * exists true, (ws' ++ [(t, x)]).
        rewrite apply_writes_snoc. split; [done|]. split.
        -- intros y x' Hy. apply elem_of_app in Hy as [Hy|Hy].
           ++ by apply (cw_text _ _ _ _ _ _ _ _ Hcw).
           ++ apply list_elem_of_singleton in Hy. injection Hy as -> ->.
              unfold source_text. by rewrite Hp, Hx.
        -- intros y Hy. rewrite fmap_app in Hy.
           apply elem_of_app in Hy as [Hy|Hy]; [by apply Hmono|].
           apply list_elem_of_singleton in Hy. simpl in Hy. subst y.
           rewrite syncPage_plan, Hplan, Hr. apply finish_returns.
        -- intros Hforce y Hy. rewrite fmap_app in Hy.
           apply elem_of_app in Hy as [Hy|Hy].
           ++ by apply (cw_absent _ _ _ _ _ _ _ _ Hcw).
           ++ apply list_elem_of_singleton in Hy. simpl in Hy. subst y.
              by apply Habs.
        -- intros _. by exists x, ws'.
      * exists false, ws'. split; [done|]. split.
        -- apply (cw_text _ _ _ _ _ _ _ _ Hcw).
        -- done.
        -- apply (cw_absent _ _ _ _ _ _ _ _ Hcw).
        -- done.
Qed.

(** A redirect target that is synced from the same store does not write
    the page that redirects to it: otherwise the chain would loop and the
    call would not return. *)
Lemma no_self_write n t force s u p b ws :
  plan_of src dst t force s = Follow u p ->
  syncPage src dst n u force false s = Ret b (apply_writes ws s) ->
  t ∉ ws.*1.
Proof.
  intros Hplan. revert b ws.
  induction n as [n IH] using lt_wf_ind. intros b ws Hr Hin.
  destruct (syncPage_effect n u force false s)
    as [Hd|[(e & He & _)|(b0 & ws0 & Hr0 & Hcw)]]; [congruence..|].
  rewrite Hr in Hr0. injection Hr0 as -> Heq.
  apply apply_writes_inj in Heq as ->.
  pose proof (cw_returns _ _ _ _ _ _ _ _ Hcw t Hin) as Hret.
  destruct n as [|m]; [done|].
  rewrite syncPage_plan, Hplan in Hret.
  assert (Hm : syncPage src dst m u force false s <> Diverge).
  { intros Hd. by rewrite Hd in Hret. }
  rewrite syncPage_fuel_S in Hr by done.
  by apply (IH m (Nat.lt_succ_diag_r m) b0 ws0).
Qed.

(** Within one call no title is written twice. *)
Lemma syncPage_writes_NoDup n t force c s b ws :
  syncPage src dst n t force c s = Ret b (apply_writes ws s) ->
  NoDup ws.*1.
Proof.
  revert t c b ws. induction n as [|n IH]; intros t c b ws; [done|].
  rewrite syncPage_plan.
  destruct (plan_of src dst t force s) as [e| |p|u p] eqn:Hplan; [done|..].
  - intros [= _ Heq]. apply (apply_writes_inj [] ws) in Heq as <-.
    constructor.
  - destruct (finish_cases p t s) as [(x & _ & _ & ->)| ->];
      intros [= _ Heq].
    + apply (apply_writes_inj [(t, x)] ws) in Heq as <-.
      apply NoDup_singleton.
    + apply (apply_writes_inj [] ws) in Heq as <-. constructor.
  - destruct (syncPage_effect n u force false s)
      as [Hd|[(e & He & _)|(b' & ws' & Hr & _)]].
    + by rewrite Hd.
    + rewrite He. intros [= _ Heq].
      apply (apply_writes_inj [] ws) in Heq as <-. constructor.
    + rewrite Hr.
      pose proof (IH _ _ _ _ Hr) as Hnd.
      pose proof (no_self_write _ _ _ _ _ _ _ _ Hplan Hr) as Hself.
      destruct (finish_cases p t (apply_writes ws' s))
        as [(x & _ & _ & ->)| ->]; intros [= _ Heq].
      * rewrite <- apply_writes_snoc in Heq.
        apply apply_writes_inj in Heq as <-.
        rewrite fmap_app. apply NoDup_app. split_and!; [done| |].
        -- intros y Hy Hy'. apply list_elem_of_singleton in Hy'.
           simpl in Hy'. by subst y.
        -- apply NoDup_singleton.
      * by apply apply_writes_inj in Heq as <-.
Qed.

(** Inside the [try] block nothing escapes: once both page objects are
    built, the call returns or does not end, it never raises. *)
Lemma syncPage_no_exception n t force c s p q e s' :
  src_Page src t = Ok p -> dst_Page dst t = Ok q ->
  syncPage src dst n t force c s <> Exc e s'.
Proof.
  intros Hp Hq.
  destruct (syncPage_effect n t force c s)
    as [Hd|[(e0 & He & Hplan)|(b & ws & Hr & _)]]; [congruence| |congruence].
  unfold plan_of in Hplan. rewrite Hp, Hq in Hplan.
  by repeat case_match.
Qed.

End SyncPage.

(** ** Termination of syncPage *)

Section Termination.
Context (src : SrcSite) (dst : DstSite).

Lemma plan_of_enters t force s u :
  redirect_target src t = Some u -> enters dst force s t ->
  exists p, plan_of src dst t force s = Follow u p.
Proof.
  unfold redirect_target, plan_of. intros Ht (q & Hq & Hsite & Hguard).
  destruct (src_Page src t) as [p|]; [|done]. exists p.
  rewrite Hq, Hsite.
  assert ((force ||
           match exists_exn q with
           | Some _ => false
           | None => negb (bool_decide (is_Some (pages s !! t)))
           end) && true = true) as ->.
  { destruct Hguard as [->|[-> Hnone]]; [done|].
    rewrite Hnone. rewrite bool_decide_eq_false_2 by (by intros [? ?]).
    by destruct force. }
  destruct (isRedirectPage p) as [[|]|]; try done.
  destruct (getRedirectTarget p); by simplify_eq.
Qed.

Lemma chain_returns n : forall t fuel force c s,
  chain src t n -> n < fuel ->
  syncPage src dst fuel t force c s <> Diverge.
Proof.
  induction n as [|n IH]; intros t fuel force c s Hch Hlt;
    (destruct fuel as [|fuel]; [lia|]); rewrite syncPage_plan;
    destruct (plan_of src dst t force s) as [e| |p|u p] eqn:Hplan;
    try done; try apply finish_returns;
    apply plan_of_Follow in Hplan as (_ & Hu & _); inversion Hch; simplify_eq.
  assert (syncPage src dst fuel u force false s <> Diverge) as Hrec.
  { apply IH; [done|lia]. }
  destruct (syncPage src dst fuel u force false s); try done.
  apply finish_returns.
Qed.


End Termination.




(** C3 (not met by the code).  The page objects are built before the [try]
    of [syncPage]: when the constructor of the source page or of the
    destination page raises, the exception leaves [syncPage], and
    [syncPages], which has no handler, stops there without looking at the
    remaining titles. *)
Theorem syncPages_aborted_by_constructor
    (src : SrcSite) (dst : DstSite) (fuel : nat) (t : string)
    (rest : list string) (force : bool) (s : Store) (e : lib_error) :
  src_Page src t = Raise e \/
    (exists p, src_Page src t = Ok p /\ dst_Page dst t = Raise e) ->
  syncPage src dst (S fuel) t force true s = Exc (Library e) s /\
  syncPages src dst (S fuel) (t :: rest) force s = Exc (Library e) s.
Proof.
  intros H.
  assert (syncPage src dst (S fuel) t force true s = Exc (Library e) s) as He.
  { rewrite syncPage_plan. unfold plan_of.
    destruct H as [->|(p & -> & ->)]; done. }
  split; [done|].
  unfold syncPages. cbn [syncPages_from]. unfold bind. by rewrite He.
Qed.

Lemma syncPages_aborted_by_constructor_witness :
  syncPage Demo.strict_src Demo.dst 5 "" false true Demo.empty
    = Exc (Library PywikibotError) Demo.empty /\
  syncPages Demo.strict_src Demo.dst 5 [""; "B"] false Demo.empty
    = Exc (Library PywikibotError) Demo.empty.
Proof.
  apply (syncPages_aborted_by_constructor Demo.strict_src Demo.dst 4 ""
           ["B"] false Demo.empty PywikibotError).
  left. reflexivity.
Defined.

(** ** The options of main *)

Lemma set_option_templatesDepSync options opt arg :
  templatesDepSync (set_option options opt arg) =
  templatesDepSync options &&
  negb (is_opt opt "-d" "--no-sync-dependances-templates").
Proof.
  unfold set_option.
  destruct (is_opt opt "-f" "--force"),
    (is_opt opt "-t" "--no-sync-templates"),
    (is_opt opt "-d" "--no-sync-dependances-templates"),
    (is_opt opt "-u" "--no-upload-files"),
    (is_opt opt "-e" "--export-dir"); simpl;
    by destruct (templatesDepSync options).
Qed.

Lemma parse_args_templatesDepSync opts options o :
  parse_args opts options = Some o ->
  (forall opt arg, (opt, arg) ∈ opts ->
     is_opt opt "-d" "--no-sync-dependances-templates" = false) ->
  templatesDepSync o = templatesDepSync options.
Proof.
  revert options. induction opts as [|[opt arg] opts IH]; intros options.
  - by intros [= ->].
  - simpl. destruct (is_opt opt "-h" "--help"); [done|].
    intros Ho Hd. rewrite (IH _ Ho).
    + rewrite set_option_templatesDepSync, (Hd opt arg) by constructor.
      by destruct (templatesDepSync options).
    + intros opt' arg' Hin. apply (Hd opt' arg'). by constructor.
Qed.

(** Whatever the command line, the options [main] passes on satisfy
    [templatesDepSync -> templatesSync]. *)
Lemma main_options_coherent opts o :
  main_options opts = Some o ->
  templatesDepSync o = true -> templatesSync o = true.
Proof.
  unfold main_options. destruct (parse_args opts DEFAULT_OPTIONS) as [o'|];
    [|done].
  simpl. intros [= <-]. unfold check_coherence.
  destruct (templatesDepSync o') eqn:Hd, (templatesSync o') eqn:Ht; simpl;
    congruence.
Qed.

(** C4 (not met by the code).  [-t] alone does not disable anything: as long
    as [-d] is not given as well, [templatesDepSync] keeps its default
    [True], and the coherence check of [main] then sets [templatesSync] back
    to [True]. *)
Theorem no_sync_templates_is_undone
    (opts : list (string * string)) (o : Options) :
  main_options opts = Some o ->
  (forall opt arg, (opt, arg) ∈ opts ->
     is_opt opt "-d" "--no-sync-dependances-templates" = false) ->
  templatesSync o = true /\ templatesDepSync o = true.
Proof.
  intros Ho Hd.
  assert (templatesDepSync o = true) as Hdep.
  { unfold main_options in Ho.
    destruct (parse_args opts DEFAULT_OPTIONS) as [o'|] eqn:Hp; [|done].
    simpl in Ho. injection Ho as <-.
    apply parse_args_templatesDepSync in Hp; [|done].
    unfold check_coherence. by destruct (_ && _). }
  split; [|done]. by apply (main_options_coherent opts).
Qed.

Lemma no_sync_templates_is_undone_witness :
  main_options [("-t", "")] = Some DEFAULT_OPTIONS /\
  templatesSync DEFAULT_OPTIONS = true /\
  templatesDepSync DEFAULT_OPTIONS = true.
Proof.
  split; [reflexivity|].
  apply (no_sync_templates_is_undone [("-t", "")] DEFAULT_OPTIONS).
  - reflexivity.
  - intros opt arg Hin. apply list_elem_of_singleton in Hin.
    injection Hin as -> ->. reflexivity.
Defined.

(** ** A batch of syncPage calls *)

Section SyncPages.
Context (src : SrcSite) (dst : DstSite).

Lemma pages_apply_writes_None ws s (y : string) :
  pages (apply_writes ws s) !! y = None -> pages s !! y = None.
Proof.
  intros Hn. destruct (pages s !! y) as [x|] eqn:Hy; [|done].
  destruct (pages_apply_writes_mono ws s y) as [x' Hx']; [by eexists|].
  congruence.
Qed.

(** The effect of the loop of [syncPages]: when it ends, the store has
    received a list of writes [ws], each the copy of a source text; without
    [force] they created pairwise distinct pages; the counter grew by at
    most the number of writes and of titles. *)
Lemma syncPages_from_effect fuel force P : forall k s,
  syncPages_from src dst fuel P force k s = Diverge \/
  exists ws,
    final_store (syncPages_from src dst fuel P force k s)
      = Some (apply_writes ws s) /\
    (forall y x, (y, x) ∈ ws -> source_text src y = Some x) /\
    (force = false ->
       NoDup ws.*1 /\ forall y, y ∈ ws.*1 -> pages s !! y = None) /\
    (forall n s', syncPages_from src dst fuel P force k s = Ret n s' ->
       k <= n /\ n - k <= length ws /\ n - k <= length P).
Proof.
  induction P as [|p P IH]; intros k s.
  - right. exists []. simpl. split_and!; try done.
    + intros y x Hy. by apply elem_of_nil in Hy.
    + intros _. split; [constructor|]. intros y Hy. by apply elem_of_nil in Hy.
    + intros n s' [= <- _]. lia.
  - cbn [syncPages_from]. unfold bind at 1 2 3.
    destruct (syncPage_effect src dst fuel p force true s)
      as [Hd|[(e & He & _)|(b & ws1 & Hr & Hcw)]].
    + left. by rewrite Hd.
    + right. rewrite He. exists []. simpl. split_and!; try done.
      * intros y x Hy. by apply elem_of_nil in Hy.
      * intros _. split; [constructor|].
        intros y Hy. by apply elem_of_nil in Hy.
    + rewrite Hr.
      destruct (IH (if b then k + 1 else k) (apply_writes ws1 s))
        as [Hd|(ws2 & Hfin & Htext & Hfresh & Hcount)]; [by left|].
      right. exists (ws1 ++ ws2). rewrite apply_writes_app. split_and!.
      * done.
      * intros y x Hy. apply elem_of_app in Hy as [Hy|Hy].
        -- by apply (cw_text _ _ _ _ _ _ _ _ Hcw).
        -- by apply Htext.
      * intros Hforce. destruct (Hfresh Hforce) as [Hnd2 Habs2].
        rewrite fmap_app. split.
        -- apply NoDup_app. split_and!; [|intros y Hy1 Hy2|done].
           ++ subst force. by apply (syncPage_writes_NoDup _ _ _ _ _ _ _ _ _ Hr).
           ++ destruct (pages_apply_writes_in ws1 s y Hy1) as (x & _ & Hx).
              rewrite (Habs2 y Hy2) in Hx. done.
        -- intros y Hy. apply elem_of_app in Hy as [Hy|Hy].
           ++ by apply (cw_absent _ _ _ _ _ _ _ _ Hcw).
           ++ apply (pages_apply_writes_None ws1). by apply Habs2.
      * intros n s' Hn. destruct (Hcount n s' Hn) as (Hk & Hws & HP).
        rewrite length_app. simpl.
        destruct b; [|lia].
        destruct (cw_last _ _ _ _ _ _ _ _ Hcw eq_refl) as (x & ws' & ->).
        rewrite length_app. simpl. lia.
Qed.

(** Titles that are skipped leave the store as it is and are not counted. *)
Lemma syncPages_from_all_skipped fuel force P : forall k s,
  (forall t, t ∈ P -> plan_of src dst t force s = Skip) ->
  syncPages_from src dst (S fuel) P force k s = Ret k s.
Proof.
  induction P as [|p P IH]; intros k s Hskip; [done|].
  cbn [syncPages_from]. unfold bind.
  rewrite syncPage_plan, (Hskip p) by constructor.
  apply IH. intros t Ht. apply Hskip. by constructor.
Qed.

End SyncPages.

(** ** When no call fails *)

Section Healthy.
Context (src : SrcSite) (dst : DstSite).
Context (Hsrc : healthy_src src) (Hdst : healthy_dst dst).

Lemma healthy_plan_of t force s :
  exists p x, src_Page src t = Ok p /\ text p = Ok x /\
    plan_of src dst t force s =
    if force || bool_decide (pages s !! t = None) then
      match redirect_target src t with
      | Some u => Follow u p
      | None => Copy p
      end
    else Skip.
Proof.
  destruct (Hsrc t) as (p & b & x & Hp & Hb & Hx & Hu).
  destruct Hdst as [Hq _].
  exists p, x. split_and!; [done..|].
  unfold plan_of, redirect_target. rewrite Hp, Hq, Hb. simpl.
  rewrite andb_true_r.
  assert (negb (bool_decide (is_Some (pages s !! t)))
          = bool_decide (pages s !! t = None)) as ->.
  { destruct (pages s !! t) eqn:E.
    - rewrite bool_decide_eq_true_2 by eauto.
      by rewrite bool_decide_eq_false_2.
    - rewrite bool_decide_eq_false_2 by (by intros [? ?]).
      by rewrite bool_decide_eq_true_2. }
  destruct (force || bool_decide (pages s !! t = None)); [|done].
  destruct b; [|done].
  destruct (Hu eq_refl) as [u ->]. done.
Qed.

Lemma healthy_finish p t x s :
  text p = Ok x -> finish dst p t s = Ret true (record_write t x s).
Proof.
  intros Hx. destruct Hdst as [_ He].
  unfold finish, try_except, bind, call, ret, editpage. by rewrite Hx, He.
Qed.

(** A call that returns reports a write exactly when [force] is set or the
    page was missing, and has then written the page.  The redirect target of
    a written page was written by the same call, or was on the destination
    before it. *)
Lemma healthy_syncPage_Ret fuel : forall t force c s b s',
  syncPage src dst fuel t force c s = Ret b s' ->
  exists ws,
    s' = apply_writes ws s /\
    b = (force || bool_decide (pages s !! t = None)) /\
    (b = true -> t ∈ ws.*1) /\
    (forall y u, y ∈ ws.*1 -> redirect_target src y = Some u ->
       u ∈ ws.*1 \/ (force = false /\ is_Some (pages s !! u))).
Proof.
  induction fuel as [|fuel IH]; intros t force c s b s'; [done|].
  rewrite syncPage_plan.
  destruct (healthy_plan_of t force s) as (p & x & Hp & Hx & ->).
  destruct (force || bool_decide (pages s !! t = None)) eqn:Hen.
  2: { intros [= <- <-]. exists []. split_and!; [done..|].
       intros y u Hy. by apply elem_of_nil in Hy. }
  destruct (redirect_target src t) as [u|] eqn:Hu.
  - (* a redirect to [u] *)
    destruct (syncPage src dst fuel u force false s) as [b' s1|e s1|] eqn:Hr;
      [|exfalso|done].
    2: { destruct (Hsrc u) as (pu & _ & _ & Hpu & _).
         destruct Hdst as [Hq _].
         by apply (syncPage_no_exception src dst fuel u force false s
                     _ _ e s1 Hpu (Hq u)). }
    destruct (IH _ _ _ _ _ _ Hr) as (ws' & -> & Hb' & Hown & Hclosed).
    rewrite (healthy_finish _ _ x) by done. intros [= <- <-].
    exists (ws' ++ [(t, x)]). rewrite apply_writes_snoc. split_and!.
    + done.
    + done.
    + intros _. rewrite fmap_app. apply elem_of_app. right. constructor.
    + intros y u' Hy Hu'. rewrite fmap_app in Hy |- *.
      rewrite elem_of_app.
      apply elem_of_app in Hy as [Hy|Hy].
      * destruct (Hclosed y u' Hy Hu') as [Hin|Hold]; [left; by left|by right].
      * apply list_elem_of_singleton in Hy. simpl in Hy. subst y.
        assert (u' = u) as -> by congruence.
        destruct b'.
        -- left. left. by apply Hown.
        -- right. symmetry in Hb'.
           apply orb_false_elim in Hb' as [-> Habs]. split; [done|].
           apply bool_decide_eq_false in Habs.
           by apply not_eq_None_Some in Habs.
  - (* no redirect *)
    rewrite (healthy_finish _ _ x) by done. intros [= <- <-].
    exists [(t, x)]. split_and!.
    + done.
    + done.
    + intros _. simpl. constructor.
    + intros y u Hy. apply list_elem_of_singleton in Hy. simpl in Hy.
      subst y. congruence.
Qed.

(** The same for a batch. *)
Lemma healthy_syncPages_from_Ret fuel force P : forall k s n s',
  syncPages_from src dst fuel P force k s = Ret n s' ->
  exists ws,
    s' = apply_writes ws s /\
    (forall t, t ∈ P ->
       t ∈ ws.*1 \/ (force = false /\ is_Some (pages s !! t))) /\
    (forall y u, y ∈ ws.*1 -> redirect_target src y = Some u ->
       u ∈ ws.*1 \/ (force = false /\ is_Some (pages s !! u))).
Proof.
  induction P as [|p P IH]; intros k s n s'.
  - intros [= _ <-]. exists []. split_and!; [done|..].
    + intros t Ht. by apply elem_of_nil in Ht.
    + intros y u Hy. by apply elem_of_nil in Hy.
  - cbn [syncPages_from]. unfold bind.
    destruct (syncPage src dst fuel p force true s) as [b s1|e s1|] eqn:Hr;
      [|done..].
    destruct (healthy_syncPage_Ret _ _ _ _ _ _ _ Hr)
      as (ws1 & -> & Hb & Hown & Hclosed).
    intros Hrest.
    destruct (IH _ _ _ _ Hrest) as (ws2 & -> & Hin2 & Hclosed2).
    assert (Hold : forall y : string,
              is_Some (pages (apply_writes ws1 s) !! y) ->
              y ∈ ws1.*1 \/ is_Some (pages s !! y)).
    { intros y Hy. destruct (decide (y ∈ ws1.*1)); [by left|right].
      by rewrite pages_apply_writes_notin in Hy. }
    exists (ws1 ++ ws2). rewrite apply_writes_app. split_and!.
    + done.
    + intros t Ht. rewrite fmap_app, elem_of_app.
      apply elem_of_cons in Ht as [->|Ht].
      * destruct b; [left; left; by apply Hown|].
        right. symmetry in Hb. apply orb_false_elim in Hb as [-> Habs].
        split; [done|]. apply bool_decide_eq_false in Habs.
        by apply not_eq_None_Some in Habs.
      * destruct (Hin2 t Ht) as [Hw|[Hf Hs]]; [left; by right|].
        destruct (Hold t Hs); [left; by left|by right].
    + intros y u Hy Hu. rewrite fmap_app, elem_of_app.
      rewrite fmap_app in Hy. apply elem_of_app in Hy as [Hy|Hy].
      * destruct (Hclosed y u Hy Hu); [left; by left|by right].
      * destruct (Hclosed2 y u Hy Hu) as [Hw|[Hf Hs]]; [left; by right|].
        destruct (Hold u Hs); [left; by left|by right].
Qed.

(** With redirect chains that end, the batch returns. *)
Lemma healthy_syncPages_from_returns fuel force P : forall k s,
  (forall t, t ∈ P -> exists n, chain src t n /\ n < fuel) ->
  exists n s', syncPages_from src dst fuel P force k s = Ret n s'.
Proof.
  induction P as [|p P IH]; intros k s Hch; [by exists k, s|].
  cbn [syncPages_from]. unfold bind.
  destruct (Hch p ltac:(constructor)) as (n & Hn & Hlt).
  pose proof (chain_returns src dst n p fuel force true s Hn Hlt) as Hret.
  destruct (syncPage src dst fuel p force true s) as [b s1|e s1|] eqn:Hr;
    [|exfalso|done].
  - apply IH. intros t Ht. apply Hch. by constructor.
  - destruct (Hsrc p) as (pp & _ & _ & Hpp & _). destruct Hdst as [Hq _].
    by apply (syncPage_no_exception src dst fuel p force true s
                _ _ e s1 Hpp (Hq p)).
Qed.

Lemma healthy_syncPages_from fuel force P k s :
  (forall t, t ∈ P -> exists n, chain src t n /\ n < fuel) ->
  exists n ws,
    syncPages_from src dst fuel P force k s = Ret n (apply_writes ws s) /\
    (forall t, t ∈ P ->
       t ∈ ws.*1 \/ (force = false /\ is_Some (pages s !! t))) /\
    (forall y u, y ∈ ws.*1 -> redirect_target src y = Some u ->
       u ∈ ws.*1 \/ (force = false /\ is_Some (pages s !! u))).
Proof.
  intros Hch.
  destruct (healthy_syncPages_from_returns fuel force P k s Hch)
    as (n & s' & Hr).
  destruct (healthy_syncPages_from_Ret _ _ _ _ _ _ _ Hr) as (ws & -> & H).
  by exists n, ws.
Qed.

(** In a batch that returns, the target of a redirect of the batch holds the
    text of the source, provided [force] is set or neither page was on the
    destination. *)
Lemma healthy_redirect_target fuel force P s n s' A B :
  syncPages src dst fuel P force s = Ret n s' ->
  A ∈ P -> redirect_target src A = Some B ->
  force = true \/ (pages s !! A = None /\ pages s !! B = None) ->
  exists x, source_text src B = Some x /\ pages s' !! B = Some x.
Proof.
  unfold syncPages. intros Hrun HA HAB Hguard.
  destruct (healthy_syncPages_from_Ret _ _ _ _ _ _ _ Hrun)
    as (ws & -> & Hin & Hclosed).
  destruct (syncPages_from_effect src dst fuel force P 0 s)
    as [Hd|(ws' & Hfin & Htext & _)]; [congruence|].
  rewrite Hrun in Hfin. simpl in Hfin. injection Hfin as Hfin.
  apply apply_writes_inj in Hfin as <-.
  assert (A ∈ ws.*1) as HAw.
  { destruct (Hin A HA) as [Hw|[Hf [z Hz]]]; [done|].
    destruct Hguard as [?|[HnA _]]; congruence. }
  assert (B ∈ ws.*1) as HBw.
  { destruct (Hclosed A B HAw HAB) as [Hw|[Hf [z Hz]]]; [done|].
    destruct Hguard as [?|[_ HnB]]; congruence. }
  destruct (pages_apply_writes_in ws s B HBw) as (x & Hx & Hl).
  exists x. split; [by apply Htext|done].
Qed.

(** Without redirects among the titles, every counted title is one write. *)
Lemma healthy_syncPages_from_count fuel P : forall k s n ws,
  (forall t, t ∈ P -> redirect_target src t = None) ->
  syncPages_from src dst (S fuel) P false k s = Ret n (apply_writes ws s) ->
  n = k + length ws.
Proof.
  induction P as [|p P IH]; intros k s n ws Hno.
  - intros [= <- Heq]. apply (apply_writes_inj [] ws) in Heq as <-.
    simpl. lia.
  - cbn [syncPages_from]. unfold bind. rewrite syncPage_plan.
    destruct (healthy_plan_of p false s) as (q & x & Hq & Hx & ->).
    rewrite (Hno p) by constructor.
    assert (HnoP : forall t, t ∈ P -> redirect_target src t = None).
    { intros t Ht. apply Hno. by constructor. }
    destruct (false || bool_decide (pages s !! p = None)).
    + rewrite (healthy_finish _ _ x) by done. intros Hrun.
      destruct (syncPages_from_effect src dst (S fuel) false P (k + 1)
                  (record_write p x s)) as [Hd|(ws2 & Hfin & _)];
        [congruence|].
      rewrite Hrun in Hfin. simpl in Hfin. injection Hfin as Hfin.
      change (record_write p x s) with (apply_writes [(p, x)] s) in Hfin.
      rewrite <- apply_writes_app in Hfin.
      apply apply_writes_inj in Hfin as ->.
      change (apply_writes ([(p, x)] ++ ws2) s)
        with (apply_writes ws2 (record_write p x s)) in Hrun.
      rewrite (IH _ _ _ _ HnoP Hrun), length_app. simpl. lia.
    + apply IH, HnoP.
Qed.

End Healthy.

(** ** The demo wiki is healthy *)

Lemma demo_healthy_src : healthy_src Demo.src.
Proof.
  intros t. unfold Demo.src, Demo.wiki_Page. simpl.
  repeat case_bool_decide;
    (eexists _, _, _; split_and!; [reflexivity..|]);
    simpl; intros; try done; by eexists.
Qed.

Lemma demo_healthy_dst : healthy_dst Demo.dst.
Proof. split; reflexivity. Qed.

Lemma demo_chain_B : chain Demo.src "B" 0.
Proof. by apply chain_end. Qed.

Lemma demo_chain_A : chain Demo.src "A" 1.
Proof. apply (chain_step _ "A" "B"); [done|]. apply demo_chain_B. Qed.

(** ** Running syncPages twice *)

(** C2 (amended).  On a source and a destination where no call fails, and
    with redirect chains that end, the first run of [syncPages] without
    [force] returns a count that is at most the number of pages written (a
    page written as the redirect target of another is not counted) and equal
    to it when no title of the batch is a redirect; every title of the batch
    then exists on the destination, and a second run returns exactly 0 and
    writes nothing. *)
Theorem syncPages_twice
    (src : SrcSite) (dst : DstSite) (fuel : nat) (P : list string)
    (s : Store) :
  healthy_src src -> healthy_dst dst ->
  (forall t, t ∈ P -> exists n, chain src t n /\ n < fuel) ->
  exists n1 ws,
    syncPages src dst fuel P false s = Ret n1 (apply_writes ws s) /\
    n1 <= length ws /\
    ((forall t, t ∈ P -> redirect_target src t = None) -> n1 = length ws) /\
    (forall t, t ∈ P -> is_Some (pages (apply_writes ws s) !! t)) /\
    syncPages src dst fuel P false (apply_writes ws s)
      = Ret 0 (apply_writes ws s).
Proof.
  intros Hsrc Hdst Hch. unfold syncPages.
  destruct (healthy_syncPages_from src dst Hsrc Hdst fuel false P 0 s Hch)
    as (n1 & ws & Hrun & Hin & _).
  assert (Hpresent : forall t, t ∈ P ->
            is_Some (pages (apply_writes ws s) !! t)).
  { intros t Ht. destruct (Hin t Ht) as [Hw|[_ Hs]].
    - destruct (pages_apply_writes_in ws s t Hw) as (x & _ & ->). eauto.
    - by apply pages_apply_writes_mono. }
  exists n1, ws. split_and!; [done| | |done|].
  - destruct (syncPages_from_effect src dst fuel false P 0 s)
      as [Hd|(ws' & Hfin & _ & _ & Hcount)]; [congruence|].
    rewrite Hrun in Hfin. simpl in Hfin. injection Hfin as Hfin.
    apply apply_writes_inj in Hfin as <-.
    destruct (Hcount _ _ Hrun) as (_ & Hle & _). lia.
  - intros Hno. destruct fuel as [|fuel].
    + destruct P as [|p P]; [|destruct (Hch p) as (? & _ & ?);
                               [constructor|lia]].
      injection Hrun as <- Heq.
      by apply (apply_writes_inj [] ws) in Heq as <-.
    + by rewrite (healthy_syncPages_from_count src dst Hsrc Hdst
                    fuel P 0 s n1 ws Hno Hrun).
  - destruct fuel as [|fuel].
    + destruct P as [|p P]; [done|].
      destruct (Hch p) as (? & _ & ?); [constructor|lia].
    + apply syncPages_from_all_skipped. intros t Ht.
      destruct (healthy_plan_of src dst Hsrc Hdst t false
                  (apply_writes ws s)) as (p & x & _ & _ & ->).
      destruct (Hpresent t Ht) as [z Hz]. by rewrite Hz.
Qed.

Lemma syncPages_twice_witness :
  exists n1 ws,
    syncPages Demo.src Demo.dst 5 ["A"; "B"] false Demo.empty
      = Ret n1 (apply_writes ws Demo.empty) /\
    n1 <= length ws /\
    ((forall t, t ∈ ["A"; "B"] -> redirect_target Demo.src t = None) ->
     n1 = length ws) /\
    (forall t, t ∈ ["A"; "B"] ->
       is_Some (pages (apply_writes ws Demo.empty) !! t)) /\
    syncPages Demo.src Demo.dst 5 ["A"; "B"] false (apply_writes ws Demo.empty)
      = Ret 0 (apply_writes ws Demo.empty).
Proof.
  apply (syncPages_twice Demo.src Demo.dst 5 ["A"; "B"] Demo.empty
           demo_healthy_src demo_healthy_dst).
  intros t Ht.
  apply elem_of_cons in Ht as [->|Ht].
  - exists 1. split; [apply demo_chain_A|lia].
  - apply list_elem_of_singleton in Ht as ->.
    exists 0. split; [apply demo_chain_B|lia].
Defined.

(** C2 as stated fails.  With [A] a redirect to [B] and both in the batch,
    the first run writes two pages and returns 1: [B] is written by the
    recursive call made for [A], whose result is dropped, and is skipped
    when its own turn comes.  And when a write is refused in the first run,
    the page is still missing afterwards and the second run may write it:
    it then returns 1, not 0. *)
Lemma syncPages_count_misses_redirect_target :
  syncPages Demo.src Demo.dst 5 ["A"; "B"] false Demo.empty
    = Ret 1 (apply_writes [("B", "text of B"); ("A", "#REDIRECT [[B]]")]
               Demo.empty) /\
  syncPages Demo.src Demo.moody_dst 5 ["B"; "T"] false Demo.empty
    = Ret 1 (apply_writes [("T", "foo")] Demo.empty) /\
  syncPages Demo.src Demo.moody_dst 5 ["B"; "T"] false
      (apply_writes [("T", "foo")] Demo.empty)
    = Ret 1 (apply_writes [("T", "foo"); ("B", "text of B")] Demo.empty).
Proof. split_and!; vm_compute; reflexivity. Qed.

(** ** Duplicates in the pages phase *)

Lemma retrieve_pages_prefix cats : forall pages s l s',
  retrieve_pages cats pages s = Ret l s' -> s' = s /\ pages `prefix_of` l.
Proof.
  induction cats as [|[[cat ns] r] cats IH]; intros pages s l s'.
  - intros [= <- <-]. by split.
  - cbn [retrieve_pages]. unfold bind, call.
    destruct (articles cat ns r) as [members|e]; [|done]. simpl.
    intros Hr. apply IH in Hr as [-> Hpre]. split; [done|].
    etrans; [|exact Hpre]. rewrite <- app_assoc. by apply prefix_app_r.
Qed.

Lemma build_cats_store src categories : forall s cats s',
  build_cats src categories s = Ret cats s' -> s' = s.
Proof.
  induction categories as [|c categories IH]; intros s cats s'.
  - by intros [= _ <-].
  - cbn [build_cats]. unfold bind, call, ret.
    destruct (src_Category src (c_title c)) as [cat|e]; [|done]. simpl.
    destruct (build_cats src categories s) as [l s1|e s1|] eqn:Hb; [|done..].
    intros [= _ <-]. by apply (IH s l).
Qed.

Lemma collect_pages_prefix src pagesName categories s pages s' :
  collect_pages src pagesName categories s = Ret pages s' ->
  s' = s /\ pagesName `prefix_of` pages.
Proof.
  unfold collect_pages. destruct categories as [|c categories].
  - by intros [= <- <-].
  - unfold bind.
    destruct (build_cats src (c :: categories) s) as [cats s1|e s1|] eqn:Hb;
      [|done..].
    apply build_cats_store in Hb as ->. apply retrieve_pages_prefix.
Qed.




(** ** Modifications *)

Section Modifications.
Context (py : Python) (dst : DstSite).

(** One page: a write of the substituted text, or nothing. *)
Lemma modifyPage_cases t subs s :
  (exists q x,
     dst_Page dst t = Ok q /\ text_exn q = None /\
     substitute_all py subs (default "" (pages s !! t)) = Ok x /\
     editpage_result dst s t x = Ok true /\
     modifyPage py dst t subs s = Ret true (record_write t x s)) \/
  modifyPage py dst t subs s = Ret false s.
Proof.
  unfold modifyPage, try_except, bind, call, ret, raise, page_text, editpage.
  destruct (dst_Page dst t) as [q|e]; [|by right]. simpl.
  destruct (text_exn q) eqn:Hq; [by right|].
  destruct (substitute_all py subs (default "" (pages s !! t)))
    as [x|e] eqn:Hx; [|by right]. simpl.
  destruct (editpage_result dst s t x) as [[|]|e] eqn:He; [|by right..].
  left. by exists q, x.
Qed.

(** The loop of [modifyPages] returns; the counter grows by the number of
    writes, all of them on titles of the list. *)
Lemma modifyPages_from_effect subs P : forall k s,
  exists ws,
    modifyPages_from py dst P subs k s
      = Ret (k + length ws) (apply_writes ws s) /\
    forall y, y ∈ ws.*1 -> y ∈ P.
Proof.
  induction P as [|p P IH]; intros k s.
  - exists []. simpl. split; [by rewrite Nat.add_0_r|].
    intros y Hy. by apply elem_of_nil in Hy.
  - cbn [modifyPages_from]. unfold bind.
    destruct (modifyPage_cases p subs s) as [(q & x & _ & _ & _ & _ & ->)| ->].
    + destruct (IH (k + 1) (record_write p x s)) as (ws & -> & Hin).
      exists ((p, x) :: ws). split.
      * simpl. f_equal. lia.
      * intros y Hy. rewrite fmap_cons in Hy.
        apply elem_of_cons in Hy as [->|Hy]; [constructor|].
        constructor. by apply Hin.
    + destruct (IH k s) as (ws & -> & Hin).
      exists ws. split; [done|]. intros y Hy. constructor. by apply Hin.
Qed.

(** Selecting the pages and compiling the patterns do not touch the store. *)
Lemma filter_pages_spec selector P : forall s,
  (exists e, filter_pages py selector P s = Exc e s) \/
  (exists l, filter_pages py selector P s = Ret l s /\
     forall y, y ∈ l <-> y ∈ P /\ re_match py selector y = true).
Proof.
  induction P as [|p P IH]; intros s.
  - right. exists []. split; [done|]. intros y. split.
    + intros Hy. by apply elem_of_nil in Hy.
    + intros [Hy _]. by apply elem_of_nil in Hy.
  - cbn [filter_pages]. unfold bind, call, ret, raise, re_search.
    destruct (re_valid py selector); [|left; by eexists]. simpl.
    destruct (IH s) as [[e ->]|(l & -> & Hl)]; [left; by eexists|].
    right. destruct (re_match py selector p) eqn:Hm.
    + exists (p :: l). split; [done|]. intros y.
      rewrite !elem_of_cons, Hl. split.
      * intros [->|[? ?]]; (split; [|done]); [by left|by right].
      * intros [[->|?] ?]; [by left|right; by split].
    + exists l. split; [done|]. intros y.
      rewrite elem_of_cons, Hl. split.
      * intros [? ?]. split; [by right|done].
      * intros [[->|?] ?]; [congruence|by split].
Qed.

(** With a selector that compiles, the selection does not raise. *)
Lemma filter_pages_valid selector P :
  re_valid py selector = true -> forall s,
  exists l, filter_pages py selector P s = Ret l s /\
    forall y, y ∈ l <-> y ∈ P /\ re_match py selector y = true.
Proof.
  intros Hvalid s. induction P as [|p P IH].
  - destruct (filter_pages_spec selector [] s) as [[e He]|Hl]; done.
  - destruct (filter_pages_spec selector (p :: P) s) as [[e He]|Hl]; [|done].
    exfalso. destruct IH as (l & Hl & _).
    cbn [filter_pages] in He. unfold bind, call, re_search in He.
    rewrite Hvalid in He. simpl in He. by rewrite Hl in He.
Qed.

Lemma compile_subs_spec substitutions : forall s,
  (exists e, compile_subs py substitutions s = Exc e s) \/
  compile_subs py substitutions s = Ret substitutions s.
Proof.
  induction substitutions as [|[pattern repl] l IH]; intros s; [by right|].
  cbn [compile_subs]. unfold bind, call, ret, raise, re_compile.
  destruct (re_valid py pattern); [|left; by eexists]. simpl.
  destruct (IH s) as [[e ->]| ->]; [left; by eexists|by right].
Qed.

(** One rule: an exception of [re] before anything is written, or a list of
    writes as long as the count returned, on titles of [pages] that match
    the selector of the rule. *)
Lemma apply_modification_effect P m s :
  (exists e, apply_modification py dst P m s = Exc e s) \/
  (exists ws,
     apply_modification py dst P m s
       = Ret (length ws) (apply_writes ws s) /\
     forall y, y ∈ ws.*1 -> y ∈ P /\ re_match py (m_pages m) y = true).
Proof.
  unfold apply_modification, bind.
  destruct (filter_pages_spec (m_pages m) P s) as [[e ->]|(l & -> & Hl)];
    [left; by eexists|].
  destruct (compile_subs_spec (m_substitutions m) s) as [[e ->]| ->];
    [left; by eexists|].
  right. unfold modifyPages.
  destruct (modifyPages_from_effect (m_substitutions m)
              (list_of_set py l) 0 s) as (ws & -> & Hin).
  exists ws. split; [done|]. intros y Hy.
  apply Hl, (list_of_set_elem py), Hin, Hy.
Qed.

(** The rules one after the other. *)
Lemma apply_modifications_snoc P ms m : forall k s,
  apply_modifications py dst P (ms ++ [m]) k s =
  match apply_modifications py dst P ms k s with
  | Ret _ s1 => apply_modification py dst P m s1
  | Exc e s1 => Exc e s1
  | Diverge => Diverge
  end.
Proof.
  induction ms as [|m0 ms IH]; intros k s.
  - simpl. unfold bind, ret.
    by destruct (apply_modification py dst P m s).
  - cbn [app apply_modifications]. unfold bind.
    destruct (apply_modification py dst P m0 s) as [n s1|e s1|]; [|done..].
    apply IH.
Qed.

Lemma apply_modifications_effect P ms : forall k s,
  exists ws,
    final_store (apply_modifications py dst P ms k s)
      = Some (apply_writes ws s) /\
    forall y, y ∈ ws.*1 ->
      y ∈ P /\ exists m, m ∈ ms /\ re_match py (m_pages m) y = true.
Proof.
  induction ms as [|m ms IH]; intros k s.
  - exists []. split; [done|]. intros y Hy. by apply elem_of_nil in Hy.
  - cbn [apply_modifications]. unfold bind.
    destruct (apply_modification_effect P m s) as [[e ->]|(ws1 & -> & H1)].
    + exists []. split; [done|]. intros y Hy. by apply elem_of_nil in Hy.
    + destruct (IH (length ws1) (apply_writes ws1 s)) as (ws2 & Hfin & H2).
      exists (ws1 ++ ws2). rewrite apply_writes_app. split; [done|].
      intros y Hy. rewrite fmap_app in Hy.
      apply elem_of_app in Hy as [Hy|Hy].
      * destruct (H1 y Hy) as [HP Hm]. split; [done|].
        exists m. split; [constructor|done].
      * destruct (H2 y Hy) as (HP & m' & Hm' & Hmatch). split; [done|].
        exists m'. split; [by constructor|done].
Qed.

End Modifications.

(** C8.  With two substitutions [(p1, r1)] and [(p2, r2)], [modifyPage] reads
    the text [T] of the destination page and submits
    [re_sub p2 r2 (re_sub p1 r1 T)]: the second substitution works on the
    output of the first.  The page is written with that text when the write
    is accepted; when a substitution raises or the write is not accepted,
    nothing is written and the result is [False]. *)
Theorem modifyPage_substitutes_in_order
    (py : Python) (dst : DstSite) (t p1 r1 p2 r2 : string) (s : Store)
    (q : DstPage) :
  dst_Page dst t = Ok q -> text_exn q = None ->
  modifyPage py dst t [(p1, r1); (p2, r2)] s =
  match re_sub py p1 r1 (default "" (pages s !! t)) with
  | Ok T1 =>
    match re_sub py p2 r2 T1 with
    | Ok T2 =>
      match editpage_result dst s t T2 with
      | Ok true => Ret true (record_write t T2 s)
      | _ => Ret false s
      end
    | Raise _ => Ret false s
    end
  | Raise _ => Ret false s
  end.
Proof.
  intros Hq Hx.
  unfold modifyPage, try_except, bind, call, ret, raise, page_text, editpage.
  rewrite Hq. simpl. rewrite Hx.
  destruct (re_sub py p1 r1 (default "" (pages s !! t))) as [T1|]; [|done].
  destruct (re_sub py p2 r2 T1) as [T2|]; [|done]. simpl.
  by destruct (editpage_result dst s t T2) as [[|]|].
Qed.

Lemma modifyPage_substitutes_in_order_witness :
  modifyPage Demo.py Demo.dst "T" [("foo", "bar"); ("bar", "baz")]
    (Demo.holding [("T", "foo bar")])
  = Ret true (record_write "T" "baz baz" (Demo.holding [("T", "foo bar")])).
Proof.
  rewrite (modifyPage_substitutes_in_order Demo.py Demo.dst "T"
             "foo" "bar" "bar" "baz" (Demo.holding [("T", "foo bar")])
             Demo.good_page); reflexivity.
Defined.

(** ** The whole run *)

(** What a run that returns went through. *)
Lemma syncAndModifyPages_Ret py bot fuel srcFam srcCode dstFam dstCode
    pagesName categories modifications options s nbPages nbMods s' :
  syncAndModifyPages py bot fuel srcFam srcCode dstFam dstCode pagesName
    categories modifications options s = Ret (nbPages, nbMods) s' <->
  exists siteSrc d0 s0 siteDst pages s1,
    Site bot srcFam srcCode = Ok (siteSrc, d0) /\
    Site bot dstFam dstCode = Ok (s0, siteDst) /\
    dst_login siteDst = Ok tt /\
    collect_pages siteSrc pagesName categories s = Ret pages s /\
    syncPagesWithDependances py siteSrc siteDst fuel pages options s
      = Ret nbPages s1 /\
    apply_modifications py siteDst pages modifications 0 s1 = Ret nbMods s'.
Proof.
  unfold syncAndModifyPages, bind, call, ret, raise. split.
  - destruct (Site bot srcFam srcCode) as [[siteSrc d0]|]; [|done].
    destruct (Site bot dstFam dstCode) as [[s0 siteDst]|]; [|done]. simpl.
    destruct (dst_login siteDst) as [[]|] eqn:Hlogin; [|done].
    destruct (collect_pages siteSrc pagesName categories s)
      as [pages s2|e s2|] eqn:Hc; [|done..].
    apply collect_pages_prefix in Hc as Hs. destruct Hs as [-> _].
    destruct (syncPagesWithDependances py siteSrc siteDst fuel pages options s)
      as [n s1|e s1|] eqn:Hsync; [|done..].
    destruct (apply_modifications py siteDst pages modifications 0 s1)
      as [m s3|e s3|] eqn:Hmod; [|done..].
    intros [= <- <- <-]. by exists siteSrc, d0, s0, siteDst, pages, s1.
  - intros (siteSrc & d0 & s0 & siteDst & pages & s1
            & -> & -> & Hl & Hc & Hsync & Hmod).
    simpl. by rewrite Hl, Hc, Hsync, Hmod.
Qed.

(** C5.  When the list of rules is not empty, the count of modified pages
    that the run returns is the number of writes made for the last rule:
    the run with all the rules ends in the store that the run with the
    earlier rules alone reaches, extended by exactly that many writes. *)
Theorem pagesModified_counts_last_rule
    (py : Python) (bot : Pywikibot) (fuel : nat)
    (srcFam srcCode dstFam dstCode : string) (pagesName : list string)
    (categories : list CategorySelector) (earlier : list Modification)
    (last_rule : Modification) (options : Options) (s s' : Store)
    (nbPages nbMods : nat) :
  syncAndModifyPages py bot fuel srcFam srcCode dstFam dstCode pagesName
    categories (earlier ++ [last_rule]) options s
    = Ret (nbPages, nbMods) s' ->
  exists k s1 ws,
    syncAndModifyPages py bot fuel srcFam srcCode dstFam dstCode pagesName
      categories earlier options s = Ret (nbPages, k) s1 /\
    s' = apply_writes ws s1 /\
    nbMods = length ws.
Proof.
  intros Hrun. apply syncAndModifyPages_Ret in Hrun
    as (siteSrc & d0 & s0 & siteDst & pages & s1
        & HS1 & HS2 & Hl & Hc & Hsync & Hmod).
  rewrite apply_modifications_snoc in Hmod.
  destruct (apply_modifications py siteDst pages earlier 0 s1)
    as [k s2|e s2|] eqn:Hearlier; [|done..].
  destruct (apply_modification_effect py siteDst pages last_rule s2)
    as [[e He]|(ws & Hws & _)]; [congruence|].
  rewrite Hmod in Hws. injection Hws as -> ->.
  exists k, s2, ws. split_and!; [|done..].
  apply syncAndModifyPages_Ret.
  by exists siteSrc, d0, s0, siteDst, pages, s1.
Qed.

Lemma pagesModified_counts_last_rule_witness :
  exists k s1 ws,
    syncAndModifyPages Demo.py Demo.bot 5 "wikipedia" "en" "kiwix" "en"
      ["P"; "T"] [] [Demo.rule_all] (Demo.pages_only false) Demo.empty
      = Ret (2, k) s1 /\
    record_export "./mirroring_export_pages.json" ["P"; "T"]
      (apply_writes
         [("P", "see {{T}}"); ("T", "foo"); ("P", "sEE {{T}}"); ("T", "foo");
          ("T", "bar")] Demo.empty)
      = apply_writes ws s1 /\
    1 = length ws.
Proof.
  apply (pagesModified_counts_last_rule Demo.py Demo.bot 5
           "wikipedia" "en" "kiwix" "en" ["P"; "T"] []
           [Demo.rule_all] Demo.rule_T (Demo.pages_only false) Demo.empty).
  vm_compute. reflexivity.
Defined.

(** C1 (amended).  The rules are applied over the list [pages] of the pages
    phase only: the configured list extended by the categories.  For a rule
    whose selector compiles, the titles handed to [modifyPages] are exactly
    the titles of that list that match the selector, each once; in a run
    that returns, every write of the modification phase is on such a title.
    A title synced as a template or as a dependency is modified only if it
    is in that list as well. *)
Theorem modifications_range_over_pages
    (py : Python) (bot : Pywikibot) (fuel : nat)
    (srcFam srcCode dstFam dstCode : string) (pagesName : list string)
    (categories : list CategorySelector) (modifications : list Modification)
    (options : Options) (s s' : Store) (nbPages nbMods : nat) :
  syncAndModifyPages py bot fuel srcFam srcCode dstFam dstCode pagesName
    categories modifications options s = Ret (nbPages, nbMods) s' ->
  exists siteSrc d0 s0 siteDst pages s1 ws,
    Site bot srcFam srcCode = Ok (siteSrc, d0) /\
    Site bot dstFam dstCode = Ok (s0, siteDst) /\
    collect_pages siteSrc pagesName categories s = Ret pages s /\
    syncPagesWithDependances py siteSrc siteDst fuel pages options s
      = Ret nbPages s1 /\
    (forall m s2, re_valid py (m_pages m) = true ->
       exists pageMods,
         filter_pages py (m_pages m) pages s2 = Ret pageMods s2 /\
         NoDup (list_of_set py pageMods) /\
         forall y, y ∈ list_of_set py pageMods <->
                   y ∈ pages /\ re_match py (m_pages m) y = true) /\
    s' = apply_writes ws s1 /\
    forall y, y ∈ ws.*1 ->
      y ∈ pages /\
      exists m, m ∈ modifications /\ re_match py (m_pages m) y = true.
Proof.
  intros Hrun. apply syncAndModifyPages_Ret in Hrun
    as (siteSrc & d0 & s0 & siteDst & pages & s1
        & HS1 & HS2 & Hl & Hc & Hsync & Hmod).
  destruct (apply_modifications_effect py siteDst pages modifications 0 s1)
    as (ws & Hfin & Hws).
  rewrite Hmod in Hfin. simpl in Hfin. injection Hfin as ->.
  exists siteSrc, d0, s0, siteDst, pages, s1, ws.
  split_and!; [done..| |done|done].
  intros m s2 Hvalid.
  destruct (filter_pages_valid py (m_pages m) pages Hvalid s2)
    as (l & Hfilter & Hl').
  exists l. split_and!; [done|apply list_of_set_NoDup|].
  intros y. by rewrite (list_of_set_elem py).
Qed.

Lemma modifications_range_over_pages_witness :
  exists siteSrc d0 s0 siteDst pages s1 ws,
    Site Demo.bot "wikipedia" "en" = Ok (siteSrc, d0) /\
    Site Demo.bot "kiwix" "en" = Ok (s0, siteDst) /\
    collect_pages siteSrc ["P"; "T"] [] Demo.empty = Ret pages Demo.empty /\
    syncPagesWithDependances Demo.py siteSrc siteDst 5 pages DEFAULT_OPTIONS
      Demo.empty = Ret 2 s1 /\
    (forall m s2, re_valid Demo.py (m_pages m) = true ->
       exists pageMods,
         filter_pages Demo.py (m_pages m) pages s2 = Ret pageMods s2 /\
         NoDup (list_of_set Demo.py pageMods) /\
         forall y, y ∈ list_of_set Demo.py pageMods <->
                   y ∈ pages /\ re_match Demo.py (m_pages m) y = true) /\
    apply_writes [("T", "bar")]
      (record_export "./mirroring_export_dependances.json" []
         (record_export "./mirroring_export_templates.json" ["T"]
            (record_export "./mirroring_export_files.json" []
               (record_export "./mirroring_export_pages.json" ["P"; "T"]
                  (apply_writes [("T", "foo"); ("P", "see {{T}}")]
                     Demo.empty)))))
      = apply_writes ws s1 /\
    forall y, y ∈ ws.*1 ->
      y ∈ pages /\
      exists m, m ∈ [Demo.rule_T] /\ re_match Demo.py (m_pages m) y = true.
Proof.
  apply (modifications_range_over_pages Demo.py Demo.bot 5
           "wikipedia" "en" "kiwix" "en" ["P"; "T"] [] [Demo.rule_T]
           DEFAULT_OPTIONS Demo.empty _ 2 1).
  vm_compute. reflexivity.
Defined.

(** C1 as stated fails.  With [pages = ["P"]], the template [T] that [P]
    transcludes is synced in the templates phase and its title matches the
    selector of the rule, whose substitution would turn its text into
    ["bar"]; the run modifies nothing and leaves [T] with the text of the
    source.  With [T] in [pages] the same rule modifies it. *)
Lemma template_title_not_selected :
  re_match Demo.py (m_pages Demo.rule_T) "T" = true /\
  (exists s',
     syncAndModifyPages Demo.py Demo.bot 5 "wikipedia" "en" "kiwix" "en"
       ["P"] [] [Demo.rule_T] DEFAULT_OPTIONS Demo.empty = Ret (2, 0) s' /\
     writes s' = [("T", "foo"); ("P", "see {{T}}")] /\
     pages s' !! "T" = Some "foo") /\
  (exists s',
     syncAndModifyPages Demo.py Demo.bot 5 "wikipedia" "en" "kiwix" "en"
       ["P"; "T"] [] [Demo.rule_T] DEFAULT_OPTIONS Demo.empty
       = Ret (2, 1) s' /\
     pages s' !! "T" = Some "bar").
Proof.
  split_and!.
  - reflexivity.
  - eexists. split_and!; [vm_compute; reflexivity|reflexivity..].
  - eexists. split; [vm_compute; reflexivity|reflexivity].
Qed.

(** ** Exceptions that leave the phases *)

Section Exceptions.
Context {A B : Type} (Q : exn -> Prop).

Lemma raises_only_ret (a : A) : raises_only Q (ret a).
Proof. by intros s e s'. Qed.

Lemma raises_only_call (r : result A) :
  (forall l, Q (Library l)) -> raises_only Q (call r).
Proof. intros HQ s e s'. destruct r; [done|]. intros [= <- _]. apply HQ. Qed.

Lemma raises_only_bind (m : M A) (k : A -> M B) :
  raises_only Q m -> (forall a, raises_only Q (k a)) ->
  raises_only Q (bind m k).
Proof.
  intros Hm Hk s e s'. unfold bind.
  destruct (m s) as [a s1|e1 s1|] eqn:Hms; [|intros [= <- _]|done].
  - apply Hk.
  - by apply (Hm s e1 s1).
Qed.

Lemma raises_only_try (m : M A) (h : exn -> M A) :
  (forall e, raises_only Q (h e)) -> raises_only Q (try_except m h).
Proof.
  intros Hh s e s'. unfold try_except.
  destruct (m s) as [a s1|e1 s1|]; [done| |done]. apply Hh.
Qed.

Lemma raises_only_weaken (Q' : exn -> Prop) (m : M A) :
  (forall e, Q' e -> Q e) -> raises_only Q' m -> raises_only Q m.
Proof. intros HQ Hm s e s' He. by apply HQ, (Hm s e s'). Qed.

Lemma never_diverges_ret (a : A) : never_diverges (ret a).
Proof. by intros s. Qed.

Lemma never_diverges_call (r : result A) : never_diverges (call r).
Proof. intros s. by destruct r. Qed.

Lemma never_diverges_bind (m : M A) (k : A -> M B) :
  never_diverges m -> (forall a, never_diverges (k a)) ->
  never_diverges (bind m k).
Proof.
  intros Hm Hk s. unfold bind. specialize (Hm s).
  destruct (m s) as [a s1|e1 s1|]; [apply Hk|done..].
Qed.

End Exceptions.

Lemma library_error_not_own_local e : is_library_error e -> not_own_local e.
Proof. intros [l ->] name _. done. Qed.

Section Ensures.
Context {A B : Type} (Q : exn -> Prop).

Lemma ensures_raises_only (m : M A) :
  raises_only Q m -> ensures Q (fun _ => True) m.
Proof.
  intros Hm s. destruct (m s) as [a s1|e s1|] eqn:Hms; [done| |done].
  by apply (Hm s e s1).
Qed.

Lemma ensures_ret (a : A) : ensures Q (fun _ => True) (ret a).
Proof. by intros s. Qed.

Lemma ensures_ret_Some (a : A) : ensures Q is_Some (ret (Some a)).
Proof. intros s. simpl. by eexists. Qed.

Lemma ensures_bind (P : A -> Prop) (P' : B -> Prop) (m : M A)
    (k : A -> M B) :
  ensures Q P m -> (forall a, P a -> ensures Q P' (k a)) ->
  ensures Q P' (bind m k).
Proof.
  intros Hm Hk s. unfold bind. specialize (Hm s).
  destruct (m s) as [a s1|e s1|]; [|done..].
  by apply Hk.
Qed.

End Ensures.

Lemma syncPages_from_raises src dst fuel force P : forall k,
  raises_only is_library_error (syncPages_from src dst fuel P force k).
Proof.
  induction P as [|p P IH]; intros k; [apply raises_only_ret|].
  cbn [syncPages_from]. apply raises_only_bind; [|intros b; apply IH].
  intros s e s' He.
  destruct (syncPage_effect src dst fuel p force true s)
    as [Hd|[(l & Hl & _)|(b & ws & Hr & _)]]; [congruence| |congruence].
  rewrite He in Hl. injection Hl as -> _. by exists l.
Qed.

Lemma exportPagesTitle_raises py l fileName directory :
  raises_only is_library_error (exportPagesTitle py l fileName directory).
Proof.
  unfold exportPagesTitle. apply raises_only_bind.
  - apply raises_only_call. by eexists.
  - by intros _ s e s'.
Qed.

Lemma exportPagesTitle_ends py l fileName directory :
  never_diverges (exportPagesTitle py l fileName directory).
Proof.
  unfold exportPagesTitle. apply never_diverges_bind.
  - apply never_diverges_call.
  - by intros _ s.
Qed.

Lemma getTemplatesFromPages_raises py src P :
  raises_only is_library_error (getTemplatesFromPages py src P).
Proof.
  unfold getTemplatesFromPages.
  apply raises_only_bind; [|intros l; apply raises_only_ret].
  generalize (@nil string).
  induction P as [|p P IH]; intros acc; [apply raises_only_ret|].
  cbn [getTemplatesFromPages_from].
  apply raises_only_bind; [apply raises_only_call; by eexists|intros pg].
  apply raises_only_bind; [apply raises_only_call; by eexists|intros tplt].
  apply IH.
Qed.

Lemma getFilesFromPages_raises py src P :
  raises_only is_library_error (getFilesFromPages py src P).
Proof.
  unfold getFilesFromPages.
  apply raises_only_bind; [|intros l; apply raises_only_ret].
  generalize (@nil string).
  induction P as [|p P IH]; intros acc; [apply raises_only_ret|].
  cbn [getFilesFromPages_from].
  apply raises_only_bind; [apply raises_only_call; by eexists|intros pg].
  apply raises_only_bind; [apply raises_only_call; by eexists|intros f].
  apply IH.
Qed.

Lemma getFilesFromPages_ends py src P :
  never_diverges (getFilesFromPages py src P).
Proof.
  unfold getFilesFromPages.
  apply never_diverges_bind; [|intros l; apply never_diverges_ret].
  generalize (@nil string).
  induction P as [|p P IH]; intros acc; [apply never_diverges_ret|].
  cbn [getFilesFromPages_from].
  apply never_diverges_bind; [apply never_diverges_call|intros pg].
  apply never_diverges_bind; [apply never_diverges_call|intros f].
  apply IH.
Qed.

(** [uploadFiles] lets one exception out: the read of its own local [f] by
    the handler, when the first constructor of the loop raises. *)
Lemma uploadFiles_from_raises dst files : forall f,
  raises_only not_own_local (uploadFiles_from dst files f).
Proof.
  induction files as [|fileTitle files IH]; intros f;
    [apply raises_only_ret|].
  cbn [uploadFiles_from].
  destruct (dst_FilePage dst fileTitle) as [pageDst|e].
  - apply raises_only_bind; [|intros _; apply IH].
    apply raises_only_try. intros e. apply raises_only_ret.
  - apply raises_only_bind; [|intros _; apply IH].
    destruct f as [pg|]; [apply raises_only_ret|].
    intros s e' s' [= <- _] name Hname [= <-].
    unfold own_locals in Hname.
    repeat (apply elem_of_cons in Hname as [Hname|Hname]; [done|]).
    by apply elem_of_nil in Hname.
Qed.

Ltac ensures_leaf lem :=
  apply ensures_raises_only;
  apply (raises_only_weaken _ is_library_error);
  [apply library_error_not_own_local|apply lem].

(** Walks through a sequence of phases, keeping track of the locals that
    are assigned. *)
Ltac ensures_tac :=
  lazymatch goal with
  | |- ensures _ _ (ret (Some _)) => apply ensures_ret_Some
  | |- ensures _ _ (ret _) => apply ensures_ret
  | |- ensures _ _ (read_local _ (Some _)) => apply ensures_ret
  | |- ensures _ _ (bind _ _) =>
    eapply ensures_bind;
    [ensures_tac
    |let a := fresh "a" in
     let Ha := fresh "Ha" in
     intros a Ha;
     lazymatch type of Ha with
     | is_Some _ => destruct Ha as [? ->]
     | _ => idtac
     end;
     ensures_tac]
  | |- ensures _ _ (exportPagesTitle _ _ _ _) =>
    ensures_leaf exportPagesTitle_raises
  | |- ensures _ _ (getFilesFromPages _ _ _) =>
    ensures_leaf getFilesFromPages_raises
  | |- ensures _ _ (getTemplatesFromPages _ _ _) =>
    ensures_leaf getTemplatesFromPages_raises
  | |- ensures _ _ (syncPages _ _ _ _ _) =>
    ensures_leaf syncPages_from_raises
  | |- ensures _ _ (uploadFiles _ _ _) =>
    apply ensures_raises_only, uploadFiles_from_raises
  end.

(** C9.  When [templatesDepSync] implies [templatesSync],
    [syncPagesWithDependances] never reads one of its locals [files],
    [templates] and [dependances] before it is assigned: no
    [UnboundLocalError] on these names leaves it.  When [templatesDepSync]
    is set and [templatesSync] is not, the run always ends with an
    exception: the one of a library call made before the dependency phase,
    or else the [UnboundLocalError] of the read of [templates] in that
    phase. *)
Theorem syncPagesWithDependances_locals
    (py : Python) (src : SrcSite) (dst : DstSite) (fuel : nat)
    (pages : list string) (options : Options) (s : Store) :
  ((templatesDepSync options = true -> templatesSync options = true) ->
   forall name s', name ∈ own_locals ->
     syncPagesWithDependances py src dst fuel pages options s
       <> Exc (UnboundLocalError name) s') /\
  (templatesDepSync options = true -> templatesSync options = false ->
   exists e s',
     syncPagesWithDependances py src dst fuel pages options s = Exc e s' /\
     (e = UnboundLocalError "templates" \/ is_library_error e)).
Proof.
  split.
  - intros Hinv name s' Hname Hrun.
    assert (ensures not_own_local (fun _ => True)
              (syncPagesWithDependances py src dst fuel pages options))
      as Hen.
    2: { specialize (Hen s). rewrite Hrun in Hen. by apply (Hen name). }
    unfold syncPagesWithDependances.
    destruct (templatesDepSync options) eqn:Hdep;
      [rewrite Hinv by done|destruct (templatesSync options)];
      destruct (filesUpload options); ensures_tac.
  - intros Hdep Htpl. unfold syncPagesWithDependances.
    rewrite Hdep, Htpl. unfold bind at 1.
    pose proof (exportPagesTitle_ends py pages "pages" (exportDir options) s)
      as Hends.
    destruct (exportPagesTitle py pages "pages" (exportDir options) s)
      as [[] s1|e s1|] eqn:Hexp; [|exists e, s1; split; [done|right]|done].
    2: by apply (exportPagesTitle_raises _ _ _ _ _ _ _ Hexp).
    destruct (filesUpload options).
    + unfold bind at 1. unfold bind at 1.
      pose proof (getFilesFromPages_ends py src pages s1) as Hends1.
      destruct (getFilesFromPages py src pages s1)
        as [l s2|e s2|] eqn:Hfiles; [|exists e, s2; split; [done|right]|done].
      2: by apply (getFilesFromPages_raises _ _ _ _ _ _ Hfiles).
      unfold bind at 1.
      pose proof (exportPagesTitle_ends py l "files" (exportDir options) s2)
        as Hends2.
      destruct (exportPagesTitle py l "files" (exportDir options) s2)
        as [[] s3|e s3|] eqn:Hexp2; [|exists e, s3; split; [done|right]|done].
      2: by apply (exportPagesTitle_raises _ _ _ _ _ _ _ Hexp2).
      exists (UnboundLocalError "templates"), s3. by split; [|left].
    + exists (UnboundLocalError "templates"), s1. by split; [|left].
Qed.

Lemma syncPagesWithDependances_locals_witness :
  (forall name s', name ∈ own_locals ->
     syncPagesWithDependances Demo.py Demo.src Demo.dst 5 ["P"]
       DEFAULT_OPTIONS Demo.empty <> Exc (UnboundLocalError name) s') /\
  (exists e s',
     syncPagesWithDependances Demo.py Demo.src Demo.dst 5 ["P"]
       Demo.incoherent Demo.empty = Exc e s' /\
     (e = UnboundLocalError "templates" \/ is_library_error e)) /\
  syncPagesWithDependances Demo.py Demo.src Demo.dst 5 ["P"]
    Demo.incoherent Demo.empty
  = Exc (UnboundLocalError "templates")
      (record_export "./mirroring_export_files.json" []
         (record_export "./mirroring_export_pages.json" ["P"] Demo.empty)).
Proof.
  split_and!.
  - apply (syncPagesWithDependances_locals Demo.py Demo.src Demo.dst 5 ["P"]
             DEFAULT_OPTIONS Demo.empty).
    reflexivity.
  - apply (syncPagesWithDependances_locals Demo.py Demo.src Demo.dst 5 ["P"]
             Demo.incoherent Demo.empty); reflexivity.
  - vm_compute. reflexivity.
Defined.

(** ** Redirect targets *)

Lemma syncPages_from_app src dst fuel force P1 P2 : forall k s,
  syncPages_from src dst fuel (P1 ++ P2) force k s =
  match syncPages_from src dst fuel P1 force k s with
  | Ret k' s1 => syncPages_from src dst fuel P2 force k' s1
  | Exc e s1 => Exc e s1
  | Diverge => Diverge
  end.
Proof.
  induction P1 as [|p P1 IH]; intros k s; [done|].
  cbn [app syncPages_from]. unfold bind.
  destruct (syncPage src dst fuel p force true s) as [b s1|e s1|]; [|done..].
  apply IH.
Qed.

Lemma exportPagesTitle_Ret py l fileName directory s u s' :
  exportPagesTitle py l fileName directory s = Ret u s' ->
  pages s' = pages s /\ writes s' = writes s.
Proof.
  unfold exportPagesTitle, bind, call, ret, raise.
  destruct (open_w py _); [|done]. by intros [= _ <-].
Qed.

Lemma getTemplatesFromPages_Ret py src P s l s' :
  getTemplatesFromPages py src P s = Ret l s' -> s' = s.
Proof.
  unfold getTemplatesFromPages, bind, ret.
  generalize (@nil string). intros acc.
  destruct (getTemplatesFromPages_from src P acc s) as [l0 s0|e s0|] eqn:E;
    [|done..].
  intros [= _ <-]. revert acc l0 E.
  induction P as [|p P IH]; intros acc l0; [by intros [= _ <-]|].
  cbn [getTemplatesFromPages_from]. unfold bind, call, ret, raise.
  destruct (src_Page src p) as [pg|]; [|done]. simpl.
  destruct (templates pg) as [tplt|]; [|done]. simpl. apply IH.
Qed.

Lemma getFilesFromPages_Ret py src P s l s' :
  getFilesFromPages py src P s = Ret l s' -> s' = s.
Proof.
  unfold getFilesFromPages, bind, ret.
  generalize (@nil string). intros acc.
  destruct (getFilesFromPages_from src P acc s) as [l0 s0|e s0|] eqn:E;
    [|done..].
  intros [= _ <-]. revert acc l0 E.
  induction P as [|p P IH]; intros acc l0; [by intros [= _ <-]|].
  cbn [getFilesFromPages_from]. unfold bind, call, ret, raise.
  destruct (src_Page src p) as [pg|]; [|done]. simpl.
  destruct (imagelinks pg) as [f|]; [|done]. simpl. apply IH.
Qed.

Lemma uploadFiles_from_keeps dst files : forall f s u s',
  uploadFiles_from dst files f s = Ret u s' ->
  writes s' = writes s /\
  forall y : string, is_Some (pages s !! y) -> pages s' !! y = pages s !! y.
Proof.
  induction files as [|t files IH]; intros f s u s'.
  - by intros [= _ <-].
  - cbn [uploadFiles_from].
    destruct (dst_FilePage dst t) as [pageDst|e].
    + unfold bind at 1.
      assert (exists s1,
        try_except
          (let* e := page_exists pageDst t in
           if negb e then
             call (get_file_url dst t) ;;;
             let* x := page_text pageDst t in
             upload dst t x
           else ret tt) (fun _ => ret tt) s = Ret tt s1 /\
        writes s1 = writes s /\
        forall y : string, is_Some (pages s !! y) ->
                           pages s1 !! y = pages s !! y) as (s1 & -> & Hw & Hk).
      { unfold try_except, bind, page_exists, call, ret, raise, page_text,
          upload.
        destruct (exists_exn pageDst); [by exists s|].
        destruct (bool_decide (is_Some (pages s !! t))) eqn:Hex;
          [by exists s|]. simpl.
        destruct (get_file_url dst t); [|by exists s]. simpl.
        destruct (text_exn pageDst); [by exists s|].
        destruct (upload_result dst s t) as [[|]|]; [|by exists s..].
        eexists. split; [done|]. split; [done|].
        intros y Hy. simpl. rewrite lookup_insert_ne; [done|].
        intros ->. apply bool_decide_eq_false in Hex. done. }
      intros Hrest. apply IH in Hrest as [Hw' Hk']. split; [congruence|].
      intros y Hy. rewrite Hk'; [by apply Hk|]. by rewrite Hk.
    + unfold bind at 1. destruct f as [pg|]; [|done]. simpl. apply IH.
Qed.

Lemma syncPages_from_counter src dst fuel force P : forall k s,
  syncPages_from src dst fuel P force k s =
  match syncPages_from src dst fuel P force 0 s with
  | Ret n s' => Ret (k + n) s'
  | Exc e s' => Exc e s'
  | Diverge => Diverge
  end.
Proof.
  induction P as [|p P IH]; intros k s.
  - simpl. unfold ret. by rewrite Nat.add_0_r.
  - cbn [syncPages_from]. unfold bind.
    destruct (syncPage src dst fuel p force true s) as [b s1|e s1|]; [|done..].
    rewrite (IH (if b then k + 1 else k)), (IH (if b then 0 + 1 else 0)).
    destruct (syncPages_from src dst fuel P force 0 s1) as [n s2|e s2|];
      [|done..].
    f_equal. destruct b; lia.
Qed.

(** Two batches in sequence are one batch over the concatenation. *)
Lemma syncPages_then src dst fuel force P1 P2 s n1 s1 n2 s2 :
  syncPages src dst fuel P1 force s = Ret n1 s1 ->
  syncPages src dst fuel P2 force s1 = Ret n2 s2 ->
  syncPages src dst fuel (P1 ++ P2) force s = Ret (n1 + n2) s2.
Proof.
  unfold syncPages. intros H1 H2.
  by rewrite syncPages_from_app, H1, syncPages_from_counter, H2.
Qed.

(** One step through a sequence of phases that returns. *)
Tactic Notation "step" hyp(H) "as" ident(E) ident(a) ident(s1) :=
  match type of H with
  | bind ?m ?k ?s = Ret _ _ =>
    unfold bind at 1 in H;
    destruct (m s) as [a s1|? ?|] eqn:E; [|done..]
  end.

(** What the sync phases of a run that returns amount to: exports, which
    leave the pages alone; one batch of [syncPage] calls over the
    dependencies, the templates and the pages, in this order; uploads, which
    leave the existing pages alone. *)
Lemma syncPagesWithDependances_Ret py src dst fuel P options s n s' :
  syncPagesWithDependances py src dst fuel P options s = Ret n s' ->
  exists deps tpls sa k sb,
    pages sa = pages s /\ writes sa = writes s /\
    syncPages src dst fuel (deps ++ tpls ++ P) (force options) sa = Ret k sb /\
    writes s' = writes sb /\
    forall y : string,
      is_Some (pages sb !! y) -> pages s' !! y = pages sb !! y.
Proof.
  unfold syncPagesWithDependances. intros H.
  step H as E0 u0 s0. apply exportPagesTitle_Ret in E0 as [Hp0 Hw0].
  step H as E1 files s1.
  assert (pages s1 = pages s /\ writes s1 = writes s /\
          (filesUpload options = true -> is_Some files)) as (Hp1 & Hw1 & Hfl).
  { destruct (filesUpload options); [|injection E1 as _ <-; by split_and!].
    step E1 as E l sx. apply getFilesFromPages_Ret in E as ->.
    step E1 as E u sy. apply exportPagesTitle_Ret in E as [? ?].
    injection E1 as <- <-. split_and!; [congruence..|by eexists]. }
  clear E1.
  step H as E2 tplv s2.
  assert (pages s2 = pages s /\ writes s2 = writes s /\
          (templatesSync options = true -> is_Some tplv)) as (Hp2 & Hw2 & Htp).
  { destruct (templatesSync options); [|injection E2 as _ <-; by split_and!].
    step E2 as E l sx. apply getTemplatesFromPages_Ret in E as ->.
    step E2 as E u sy. apply exportPagesTitle_Ret in E as [? ?].
    injection E2 as <- <-. split_and!; [congruence..|by eexists]. }
  clear E2.
  step H as E3 depv s3.
  assert (pages s3 = pages s /\ writes s3 = writes s /\
          (templatesDepSync options = true -> is_Some depv))
    as (Hp3 & Hw3 & Hdp).
  { destruct (templatesDepSync options); [|injection E3 as _ <-; by split_and!].
    step E3 as E tl sw. destruct tplv as [tl'|]; [|done]. injection E as -> ->.
    step E3 as E l sx. apply getTemplatesFromPages_Ret in E as ->.
    step E3 as E u sy. apply exportPagesTitle_Ret in E as [? ?].
    injection E3 as <- <-. split_and!; [congruence..|by eexists]. }
  clear E3.
  step H as E4 n4 s4. step H as E5 n5 s5. step H as E6 n6 s6.
  step H as E7 u7 s7. injection H as <- <-.
  set (deps := if templatesDepSync options then default [] depv else []).
  set (tpls := if templatesSync options then default [] tplv else []).
  assert (exists k4, syncPages src dst fuel deps (force options) s3 = Ret k4 s4)
    as [k4 H4].
  { subst deps. destruct (templatesDepSync options).
    - destruct (Hdp eq_refl) as [dl ->]. simpl in E4 |- *.
      step E4 as E l sx. injection E as -> ->.
      step E4 as E k sy. exists k. by injection E4 as _ <-.
    - injection E4 as _ <-. by exists 0. }
  assert (exists k5, syncPages src dst fuel tpls (force options) s4 = Ret k5 s5)
    as [k5 H5].
  { subst tpls. destruct (templatesSync options).
    - destruct (Htp eq_refl) as [tl ->]. simpl in E5 |- *.
      step E5 as E l sx. injection E as -> ->.
      step E5 as E k sy. exists k. by injection E5 as _ <-.
    - injection E5 as _ <-. by exists 0. }
  exists deps, tpls, s3, (k4 + (k5 + n6)), s6. split_and!; [done..| | |].
  - apply (syncPages_then _ _ _ _ _ _ _ _ s4); [done|].
    by apply (syncPages_then _ _ _ _ _ _ _ _ s5).
  - destruct (filesUpload options); [|by injection E7 as _ <-].
    destruct (Hfl eq_refl) as [fl ->]. simpl in E7.
    by apply uploadFiles_from_keeps in E7 as [? ?].
  - destruct (filesUpload options); [|by injection E7 as _ <-].
    destruct (Hfl eq_refl) as [fl ->]. simpl in E7.
    by apply uploadFiles_from_keeps in E7 as [? ?].
Qed.

(** C7 (amended).  Let [A] be a redirect to [B] on the source.  A call of
    [syncPage] on [A] that goes on to read the source first runs [syncPage]
    on [B] with the same [force], then copies and commits [A].  Let no call
    of the source or of the destination fail, and let either [force] be set
    or neither [A] nor [B] be on the destination.  Then [syncPages] over a
    batch that contains [A] and whose redirect chains end returns, and [B]
    is on the destination with the text it has on the source.  And after a
    whole run that returns, with [A] among the configured pages, [B] is on
    the destination; it has the text of the source when it is not in the
    list of pages, the only titles that the modifications can rewrite. *)
Theorem redirect_target_is_synced
    (py : Python) (bot : Pywikibot) (src : SrcSite) (dst : DstSite)
    (fuel : nat) (flag : bool) (A B : string) :
  redirect_target src A = Some B ->
  (forall n c s0, enters dst flag s0 A ->
     exists p, src_Page src A = Ok p /\
       syncPage src dst (S n) A flag c s0 =
       match syncPage src dst n B flag false s0 with
       | Ret _ s1 => finish dst p A s1
       | Exc _ s1 => Ret false s1
       | Diverge => Diverge
       end) /\
  (healthy_src src -> healthy_dst dst ->
   (forall P s,
      (forall t, t ∈ P -> exists n, chain src t n /\ n < fuel) ->
      A ∈ P ->
      flag = true \/ (pages s !! A = None /\ pages s !! B = None) ->
      exists n s' x,
        syncPages src dst fuel P flag s = Ret n s' /\
        source_text src B = Some x /\ pages s' !! B = Some x) /\
   (forall srcFam srcCode dstFam dstCode d0 s0 pagesName categories
           modifications options s r s',
      Site bot srcFam srcCode = Ok (src, d0) ->
      Site bot dstFam dstCode = Ok (s0, dst) ->
      force options = flag ->
      syncAndModifyPages py bot fuel srcFam srcCode dstFam dstCode pagesName
        categories modifications options s = Ret r s' ->
      A ∈ pagesName ->
      flag = true \/ (pages s !! A = None /\ pages s !! B = None) ->
      exists x pageList,
        source_text src B = Some x /\
        collect_pages src pagesName categories s = Ret pageList s /\
        is_Some (pages s' !! B) /\
        (B ∉ pageList -> pages s' !! B = Some x))).
Proof.
  intros HAB. split.
  - intros n c s0 Hen.
    destruct (plan_of_enters src dst A flag s0 B HAB Hen) as [p Hplan].
    exists p. split.
    + by apply plan_of_Follow in Hplan as (Hp & _).
    + by rewrite syncPage_plan, Hplan.
  - intros Hsrc Hdst. split.
    + intros P s Hch HA Hguard.
      destruct (healthy_syncPages_from_returns src dst Hsrc Hdst fuel flag
                  P 0 s Hch) as (n & s' & Hrun).
      destruct (healthy_redirect_target src dst Hsrc Hdst fuel flag P s n s'
                  A B Hrun HA HAB Hguard) as (x & Hx & Hl).
      by exists n, s', x.
    + intros srcFam srcCode dstFam dstCode d0 s0 pagesName categories
        modifications options s [nbPages nbMods] s' HS1 HS2 Hforce Hrun HA
        Hguard.
      apply syncAndModifyPages_Ret in Hrun
        as (siteSrc & d1 & s2 & siteDst & pageList & s1
            & HS1' & HS2' & _ & Hc & Hsync & Hmod).
      rewrite HS1 in HS1'. injection HS1' as <- <-.
      rewrite HS2 in HS2'. injection HS2' as <- <-.
      apply syncPagesWithDependances_Ret in Hsync
        as (deps & tpls & sa & k & sb & Hpa & _ & Hbatch & _ & Hkeep).
      rewrite Hforce in Hbatch.
      destruct (collect_pages_prefix _ _ _ _ _ _ Hc) as [_ [l ->]].
      destruct (healthy_redirect_target src dst Hsrc Hdst fuel flag _ sa k sb
                  A B Hbatch) as (x & Hx & Hl); [|done|by rewrite Hpa|].
      { rewrite !elem_of_app. right. right. by left. }
      assert (pages s1 !! B = Some x) as Hl1.
      { rewrite Hkeep; [done|]. rewrite Hl. by eexists. }
      destruct (apply_modifications_effect py dst (pagesName ++ l)
                  modifications 0 s1) as (ws & Hfin & Hws).
      rewrite Hmod in Hfin. simpl in Hfin. injection Hfin as ->.
      exists x, (pagesName ++ l). split_and!; [done..| |].
      * apply pages_apply_writes_mono. rewrite Hl1. by eexists.
      * intros HB. rewrite pages_apply_writes_notin; [done|].
        intros Hin. by destruct (Hws B Hin) as [? _].
Qed.

Lemma redirect_target_is_synced_witness :
  (exists n s' x,
     syncPages Demo.src Demo.dst 5 ["A"] false Demo.empty = Ret n s' /\
     source_text Demo.src "B" = Some x /\ pages s' !! "B" = Some x) /\
  (exists x pageList,
     source_text Demo.src "B" = Some x /\
     collect_pages Demo.src ["A"] [] Demo.empty = Ret pageList Demo.empty /\
     is_Some
       (pages
          (record_export "./mirroring_export_dependances.json" []
             (record_export "./mirroring_export_templates.json" []
                (record_export "./mirroring_export_files.json" []
                   (record_export "./mirroring_export_pages.json" ["A"]
                      (apply_writes
                         [("B", "text of B"); ("A", "#REDIRECT [[B]]")]
                         Demo.empty))))) !! "B") /\
     (("B" : string) ∉ pageList ->
      pages
          (record_export "./mirroring_export_dependances.json" []
             (record_export "./mirroring_export_templates.json" []
                (record_export "./mirroring_export_files.json" []
                   (record_export "./mirroring_export_pages.json" ["A"]
                      (apply_writes
                         [("B", "text of B"); ("A", "#REDIRECT [[B]]")]
                         Demo.empty))))) !! "B" = Some x)).
Proof.
  destruct (redirect_target_is_synced Demo.py Demo.bot Demo.src Demo.dst 5
              false "A" "B") as [_ H]; [reflexivity|].
  destruct (H demo_healthy_src demo_healthy_dst) as [Hbatch Hrun].
  split.
  - apply Hbatch.
    + intros t Ht. apply list_elem_of_singleton in Ht as ->.
      exists 1. split; [apply demo_chain_A|lia].
    + constructor.
    + right. split; reflexivity.
  - apply (Hrun "wikipedia" "en" "kiwix" "en" Demo.dst Demo.src ["A"] []
             [Demo.rule_T] DEFAULT_OPTIONS Demo.empty (1, 0)).
    + reflexivity.
    + reflexivity.
    + reflexivity.
    + vm_compute. reflexivity.
    + constructor.
    + right. split; reflexivity.
Defined.

(** C7 as stated fails.  Without [force], a redirect [A] that is already on
    the destination is skipped, and its target [B] is not created; and a
    target [B] that is already there keeps the text it had. *)
Lemma redirect_target_not_synced :
  (exists s',
     syncPages Demo.src Demo.dst 5 ["A"] false (Demo.holding [("A", "old")])
       = Ret 0 s' /\
     pages s' !! "B" = None) /\
  (exists s',
     syncPages Demo.src Demo.dst 5 ["A"] false (Demo.holding [("B", "old")])
       = Ret 1 s' /\
     pages s' !! "B" = Some "old" /\
     source_text Demo.src "B" = Some "text of B").
Proof.
  split.
  - eexists. split; [vm_compute; reflexivity|]. reflexivity.
  - eexists. split; [vm_compute; reflexivity|]. split; reflexivity.
Qed.

(** * Further properties of the script *)

(** ** What syncPage and syncPages write *)

(** X1.  When [syncPage] returns [True], the last write of the call is the
    page itself, and the page holds on the destination the text that the
    source has for it. *)
Theorem syncPage_true_copies_source
    (src : SrcSite) (dst : DstSite) (fuel : nat) (t : string)
    (force c : bool) (s s' : Store) :
  syncPage src dst fuel t force c s = Ret true s' ->
  exists x, source_text src t = Some x /\
            pages s' !! t = Some x /\
            last (writes s') = Some (t, x).
Proof.
  intros Hr.
  destruct (syncPage_effect src dst fuel t force c s)
    as [Hd|[(e & He & _)|(b & ws & Hr' & Hcw)]]; [congruence..|].
  rewrite Hr in Hr'. injection Hr' as <- ->.
  destruct (cw_last _ _ _ _ _ _ _ _ Hcw eq_refl) as (x & ws' & ->).
  exists x. split_and!.
  - apply (cw_text _ _ _ _ _ _ _ _ Hcw). apply elem_of_app. right.
    constructor.
  - rewrite apply_writes_snoc. simpl. by rewrite lookup_insert_eq.
  - rewrite writes_apply_writes, app_assoc. by rewrite last_snoc.
Qed.

Lemma syncPage_true_copies_source_witness :
  exists x, source_text Demo.src "B" = Some x /\
            pages (apply_writes [("B", "text of B")] Demo.empty) !! "B"
              = Some x /\
            last (writes (apply_writes [("B", "text of B")] Demo.empty))
              = Some ("B", x).
Proof.
  apply (syncPage_true_copies_source Demo.src Demo.dst 3 "B" false true
           Demo.empty).
  vm_compute. reflexivity.
Defined.

Section WritesOnDst.
Context (src : SrcSite) (dst : DstSite).

Lemma plan_of_site t force s :
  match plan_of src dst t force s with
  | Copy _ | Follow _ _ =>
    exists q, dst_Page dst t = Ok q /\ site_is_dst q = true
  | _ => True
  end.
Proof.
  unfold plan_of.
  destruct (src_Page src t) as [p|]; [|done].
  destruct (dst_Page dst t) as [q|]; [|done].
  destruct (site_is_dst q) eqn:Hsite.
  - destruct ((force || _) && true); [|done].
    destruct (isRedirectPage p) as [[|]|]; try done; [|by exists q].
    destruct (getRedirectTarget p); [by exists q|done].
  - by rewrite andb_false_r.
Qed.

Lemma syncPage_writes_on_dst n : forall t force c s b ws,
  syncPage src dst n t force c s = Ret b (apply_writes ws s) ->
  forall y, y ∈ ws.*1 ->
    exists q, dst_Page dst y = Ok q /\ site_is_dst q = true.
Proof.
  induction n as [|n IH]; intros t force c s b ws; [done|].
  rewrite syncPage_plan. pose proof (plan_of_site t force s) as Hsite.
  destruct (plan_of src dst t force s) as [e| |p|u p]; [done|..].
  - intros [= _ Heq]. apply (apply_writes_inj [] ws) in Heq as <-.
    intros y Hy. by apply elem_of_nil in Hy.
  - destruct (finish_cases dst p t s) as [(x & _ & _ & ->)| ->];
      intros [= _ Heq].
    + apply (apply_writes_inj [(t, x)] ws) in Heq as <-.
      intros y Hy. apply list_elem_of_singleton in Hy. simpl in Hy.
      by subst y.
    + apply (apply_writes_inj [] ws) in Heq as <-.
      intros y Hy. by apply elem_of_nil in Hy.
  - destruct (syncPage_effect src dst n u force false s)
      as [Hd|[(e & He & _)|(b' & ws' & Hr & _)]].
    + by rewrite Hd.
    + rewrite He. intros [= _ Heq].
      apply (apply_writes_inj [] ws) in Heq as <-.
      intros y Hy. by apply elem_of_nil in Hy.
    + rewrite Hr. pose proof (IH _ _ _ _ _ _ Hr) as Hrec.
      destruct (finish_cases dst p t (apply_writes ws' s))
        as [(x & _ & _ & ->)| ->]; intros [= _ Heq].
      * rewrite <- apply_writes_snoc in Heq.
        apply apply_writes_inj in Heq as <-.
        intros y Hy. rewrite fmap_app in Hy.
        apply elem_of_app in Hy as [Hy|Hy]; [by apply Hrec|].
        apply list_elem_of_singleton in Hy. simpl in Hy. by subst y.
      * by apply apply_writes_inj in Heq as <-.
Qed.

Lemma syncPages_from_writes_on_dst fuel force P : forall k s,
  syncPages_from src dst fuel P force k s = Diverge \/
  exists ws,
    final_store (syncPages_from src dst fuel P force k s)
      = Some (apply_writes ws s) /\
    forall y, y ∈ ws.*1 ->
      exists q, dst_Page dst y = Ok q /\ site_is_dst q = true.
Proof.
  induction P as [|p P IH]; intros k s.
  - right. exists []. split; [done|].
    intros y Hy. by apply elem_of_nil in Hy.
  - cbn [syncPages_from]. unfold bind at 1 2.
    destruct (syncPage_effect src dst fuel p force true s)
      as [Hd|[(e & He & _)|(b & ws1 & Hr & _)]].
    + left. by rewrite Hd.
    + right. rewrite He. exists []. split; [done|].
      intros y Hy. by apply elem_of_nil in Hy.
    + rewrite Hr. pose proof (syncPage_writes_on_dst _ _ _ _ _ _ _ Hr) as H1.
      destruct (IH (if b then k + 1 else k) (apply_writes ws1 s))
        as [Hd|(ws2 & Hfin & H2)]; [by left|].
      right. exists (ws1 ++ ws2). rewrite apply_writes_app. split; [done|].
      intros y Hy. rewrite fmap_app in Hy.
      apply elem_of_app in Hy as [Hy|Hy]; [by apply H1|by apply H2].
Qed.

End WritesOnDst.

(** X2.  Whatever the batch and the failures met, every write made by
    [syncPages] is the copy of the text of a source page under its own
    title, and the page object of that title was resolved by pywikibot on
    the destination site itself. *)
Theorem syncPages_writes_are_copies_on_dst
    (src : SrcSite) (dst : DstSite) (fuel : nat) (P : list string)
    (force : bool) (s s' : Store) :
  final_store (syncPages src dst fuel P force s) = Some s' ->
  exists ws,
    s' = apply_writes ws s /\
    forall y x, (y, x) ∈ ws ->
      source_text src y = Some x /\
      exists q, dst_Page dst y = Ok q /\ site_is_dst q = true.
Proof.
  unfold syncPages. intros Hfin.
  destruct (syncPages_from_effect src dst fuel force P 0 s)
    as [Hd|(ws & Hfin1 & Htext & _)]; [by rewrite Hd in Hfin|].
  destruct (syncPages_from_writes_on_dst src dst fuel force P 0 s)
    as [Hd|(ws' & Hfin2 & Hsite)]; [by rewrite Hd in Hfin|].
  rewrite Hfin in Hfin1, Hfin2. injection Hfin1 as ->.
  injection Hfin2 as Heq. apply apply_writes_inj in Heq as <-.
  exists ws. split; [done|]. intros y x Hy. split; [by apply Htext|].
  apply Hsite. apply list_elem_of_fmap. by exists (y, x).
Qed.

Lemma syncPages_writes_are_copies_on_dst_witness :
  exists ws,
    apply_writes [("B", "text of B"); ("A", "#REDIRECT [[B]]")] Demo.empty
      = apply_writes ws Demo.empty /\
    forall y x, (y, x) ∈ ws ->
      source_text Demo.src y = Some x /\
      exists q, dst_Page Demo.dst y = Ok q /\ site_is_dst q = true.
Proof.
  apply (syncPages_writes_are_copies_on_dst Demo.src Demo.dst 5 ["A"; "B"]
           false Demo.empty).
  vm_compute. reflexivity.
Defined.

(** X3.  Without [force], [syncPages] leaves every page that exists on the
    destination as it is, whether it returns or is stopped by an
    exception, and it returns a count that is at most the number of titles
    it was given. *)
Theorem syncPages_keeps_existing_pages
    (src : SrcSite) (dst : DstSite) (fuel : nat) (P : list string)
    (s : Store) :
  (forall s', final_store (syncPages src dst fuel P false s) = Some s' ->
     forall y x, pages s !! y = Some x -> pages s' !! y = Some x) /\
  (forall force n s', syncPages src dst fuel P force s = Ret n s' ->
     n <= length P).
Proof.
  unfold syncPages. split.
  - intros s' Hfin y x Hy.
    destruct (syncPages_from_effect src dst fuel false P 0 s)
      as [Hd|(ws & Hfin' & _ & Hfresh & _)]; [by rewrite Hd in Hfin|].
    rewrite Hfin in Hfin'. injection Hfin' as ->.
    destruct (Hfresh eq_refl) as [_ Habs].
    rewrite pages_apply_writes_notin; [done|].
    intros Hin. apply Habs in Hin. congruence.
  - intros force n s' Hrun.
    destruct (syncPages_from_effect src dst fuel force P 0 s)
      as [Hd|(ws & _ & _ & _ & Hcount)]; [congruence|].
    destruct (Hcount n s' Hrun) as (_ & _ & ?). lia.
Qed.

Lemma syncPages_keeps_existing_pages_witness :
  pages (apply_writes [("A", "#REDIRECT [[B]]")]
           (Demo.holding [("B", "old")])) !! "B" = Some "old" /\
  1 <= length ["A"].
Proof.
  destruct (syncPages_keeps_existing_pages Demo.src Demo.dst 5 ["A"]
              (Demo.holding [("B", "old")])) as [Hkeep Hcount].
  split.
  - apply Hkeep; [vm_compute; reflexivity|reflexivity].
  - apply (Hcount false 1
             (apply_writes [("A", "#REDIRECT [[B]]")]
                (Demo.holding [("B", "old")]))).
    vm_compute. reflexivity.
Defined.

(** ** What the rules write *)

Section RuleWrites.
Context (py : Python) (dst : DstSite).

Lemma modifyPages_from_writes subs P : forall k s,
  exists ws,
    modifyPages_from py dst P subs k s
      = Ret (k + length ws) (apply_writes ws s) /\
    ws.*1 `sublist_of` P /\
    (NoDup P -> forall y x, (y, x) ∈ ws ->
       substitute_all py subs (default "" (pages s !! y)) = Ok x).
Proof.
  induction P as [|p P IH]; intros k s.
  - exists []. simpl. split_and!; [by rewrite Nat.add_0_r|done|].
    intros _ y x Hy. by apply elem_of_nil in Hy.
  - cbn [modifyPages_from]. unfold bind.
    destruct (modifyPage_cases py dst p subs s)
      as [(q & x & _ & _ & Hx & _ & ->)| ->].
    + destruct (IH (k + 1) (record_write p x s)) as (ws & -> & Hsub & Htxt).
      exists ((p, x) :: ws). split_and!.
      * simpl. f_equal. lia.
      * simpl. by apply sublist_skip.
      * intros Hnd y x' Hy. apply NoDup_cons in Hnd as [Hp Hnd].
        apply elem_of_cons in Hy as [[= -> ->]|Hy]; [done|].
        rewrite <- (Htxt Hnd y x' Hy). simpl.
        rewrite lookup_insert_ne; [done|]. intros ->. apply Hp.
        apply (elem_of_sublist ws.*1); [|done].
        apply list_elem_of_fmap. by exists (y, x').
    + destruct (IH k s) as (ws & -> & Hsub & Htxt).
      exists ws. split_and!; [done|by apply sublist_cons|].
      intros Hnd. apply Htxt. by apply NoDup_cons in Hnd as [_ ?].
Qed.

End RuleWrites.

(** X4.  [modifyPages] always returns: a page whose modification fails (its
    page object cannot be built, its text cannot be read, a substitution
    raises, the write is refused) is skipped and the loop goes on.  The
    count returned is the number of writes made, and the pages written are
    titles of the list, in the order of the list. *)
Theorem modifyPages_always_returns
    (py : Python) (dst : DstSite) (P : list string)
    (subs : list (string * string)) (s : Store) :
  exists ws,
    modifyPages py dst P subs s = Ret (length ws) (apply_writes ws s) /\
    ws.*1 `sublist_of` P.
Proof.
  unfold modifyPages.
  destruct (modifyPages_from_writes py dst subs P 0 s) as (ws & Hr & Hsub & _).
  by exists ws.
Qed.

(** X5.  One rule applied by [syncAndModifyPages] modifies each page at most
    once, even when [pages] lists a title several times, and the text it
    writes is the result of the substitutions on the text the page had
    before the rule; the pages written are titles of [pages] that match the
    selector, and the count is the number of writes. *)
Theorem rule_modifies_each_page_once
    (py : Python) (dst : DstSite) (pagesList : list string)
    (rule : Modification) (s s' : Store) (n : nat) :
  apply_modification py dst pagesList rule s = Ret n s' ->
  exists ws,
    s' = apply_writes ws s /\ n = length ws /\ NoDup ws.*1 /\
    forall y x, (y, x) ∈ ws ->
      y ∈ pagesList /\ re_match py (m_pages rule) y = true /\
      substitute_all py (m_substitutions rule) (default "" (pages s !! y))
        = Ok x.
Proof.
  unfold apply_modification, bind. intros Hrun.
  destruct (filter_pages_spec py (m_pages rule) pagesList s)
    as [[e He]|(l & Hl & Hmem)]; [by rewrite He in Hrun|].
  rewrite Hl in Hrun.
  destruct (compile_subs_spec py (m_substitutions rule) s) as [[e He]|Hc];
    [by rewrite He in Hrun|].
  rewrite Hc in Hrun. unfold modifyPages in Hrun.
  destruct (modifyPages_from_writes py dst (m_substitutions rule)
              (list_of_set py l) 0 s) as (ws & Hr & Hsub & Htxt).
  rewrite Hr in Hrun. injection Hrun as <- <-.
  exists ws. split_and!; [done..| |].
  - eapply sublist_NoDup; [apply list_of_set_NoDup|exact Hsub].
  - intros y x Hy.
    assert (y ∈ list_of_set py l) as Hin.
    { apply (elem_of_sublist ws.*1); [|done].
      apply list_elem_of_fmap. by exists (y, x). }
    apply (list_of_set_elem py), Hmem in Hin as [? ?].
    split_and!; [done..|].
    apply (Htxt (list_of_set_NoDup py l) y x Hy).
Qed.

Lemma rule_modifies_each_page_once_witness :
  exists ws,
    apply_writes [("T", "bar")] (Demo.holding [("T", "foo")])
      = apply_writes ws (Demo.holding [("T", "foo")]) /\
    1 = length ws /\ NoDup ws.*1 /\
    forall y x, (y, x) ∈ ws ->
      y ∈ ["T"; "P"; "T"] /\ re_match Demo.py (m_pages Demo.rule_T) y = true /\
      substitute_all Demo.py (m_substitutions Demo.rule_T)
        (default "" (pages (Demo.holding [("T", "foo")]) !! y)) = Ok x.
Proof.
  apply (rule_modifies_each_page_once Demo.py Demo.dst ["T"; "P"; "T"]
           Demo.rule_T (Demo.holding [("T", "foo")])).
  vm_compute. reflexivity.
Defined.

(** X6.  A rule whose selector does not compile (with at least one page to
    test) or one of whose substitution patterns does not compile raises
    [re.error] out of the modification phase before it modifies anything,
    and the rules after it are not applied. *)
Theorem bad_pattern_stops_the_rules
    (py : Python) (dst : DstSite) (pagesList : list string)
    (rule : Modification) (rest : list Modification) (k : nat) (s : Store) :
  (pagesList <> [] /\ re_valid py (m_pages rule) = false) \/
  (re_valid py (m_pages rule) = true /\
   exists pattern repl, (pattern, repl) ∈ m_substitutions rule /\
                        re_valid py pattern = false) ->
  apply_modifications py dst pagesList (rule :: rest) k s
    = Exc (Library ReError) s.
Proof.
  intros H. cbn [apply_modifications]. unfold bind at 1.
  assert (apply_modification py dst pagesList rule s = Exc (Library ReError) s)
    as ->; [|done].
  unfold apply_modification. unfold bind at 1.
  destruct H as [[Hne Hsel]|(Hsel & pattern & repl & Hin & Hbad)].
  - destruct pagesList as [|p l]; [done|].
    cbn [filter_pages]. unfold bind, call, re_search. by rewrite Hsel.
  - destruct (filter_pages_valid py (m_pages rule) pagesList Hsel s)
      as (l & -> & _).
    unfold bind at 1.
    assert (compile_subs py (m_substitutions rule) s
            = Exc (Library ReError) s) as ->; [|done].
    induction (m_substitutions rule) as [|[pat r] subs IH];
      [by apply elem_of_nil in Hin|].
    cbn [compile_subs]. unfold bind, call, re_compile.
    destruct (re_valid py pat) eqn:Hpat; [|done]. simpl.
    apply elem_of_cons in Hin as [[= <- <-]|Hin]; [congruence|].
    by rewrite (IH Hin).
Qed.

Lemma bad_pattern_stops_the_rules_witness :
  apply_modifications Demo.strict_py Demo.dst ["T"]
    [ {| m_pages := "T"; m_substitutions := [("(", "x")] |}; Demo.rule_T ]
    0 (Demo.holding [("T", "foo")])
  = Exc (Library ReError) (Demo.holding [("T", "foo")]).
Proof.
  apply (bad_pattern_stops_the_rules Demo.strict_py Demo.dst ["T"]
           {| m_pages := "T"; m_substitutions := [("(", "x")] |}
           [Demo.rule_T] 0 (Demo.holding [("T", "foo")])).
  right. split; [reflexivity|].
  exists "(", "x". split; [constructor|reflexivity].
Defined.

(** ** uploadFiles *)

Section Uploads.
Context (dst : DstSite).

(** One iteration of the loop whose file page was built: nothing happens,
    or the file is uploaded under a title that did not exist. *)
Lemma upload_step_cases pageDst t s :
  let body :=
    try_except
      (let* e := page_exists pageDst t in
       if negb e then
         call (get_file_url dst t) ;;;
         let* x := page_text pageDst t in
         upload dst t x
       else ret tt)
      (fun _ => ret tt) in
  body s = Ret tt s \/
  (pages s !! t = None /\ exists x, body s = Ret tt (record_upload t x s)).
Proof.
  unfold try_except, bind, page_exists, call, ret, raise, page_text, upload.
  destruct (exists_exn pageDst); [by left|].
  destruct (bool_decide (is_Some (pages s !! t))) eqn:Hex; [by left|].
  simpl. destruct (get_file_url dst t); [|by left]. simpl.
  destruct (text_exn pageDst); [by left|].
  destruct (upload_result dst s t) as [[|]|]; [|by left..].
  right. split; [|by eexists].
  apply bool_decide_eq_false in Hex. by apply eq_None_not_Some.
Qed.

Lemma uploadFiles_from_effect files : forall f s,
  exists ups s',
    final_store (uploadFiles_from dst files f s) = Some s' /\
    writes s' = writes s /\ exports s' = exports s /\
    uploads s' = uploads s ++ ups /\
    ups `sublist_of` files /\ NoDup ups /\
    (forall y, y ∈ ups -> pages s !! y = None) /\
    (forall y, y ∈ ups -> is_Some (pages s' !! y)) /\
    (forall y : string, y ∉ ups -> pages s' !! y = pages s !! y).
Proof.
  induction files as [|t files IH]; intros f s.
  - exists [], s. simpl. rewrite app_nil_r. split_and!; try done.
    + constructor.
    + intros y Hy. by apply elem_of_nil in Hy.
    + intros y Hy. by apply elem_of_nil in Hy.
  - cbn [uploadFiles_from].
    destruct (dst_FilePage dst t) as [pageDst|e].
    + unfold bind at 1.
      destruct (upload_step_cases pageDst t s) as [->|(Hnone & x & ->)].
      * destruct (IH (Some pageDst) s)
          as (ups & s' & Hfin & Hw & He & Hu & Hsub & Hnd & Habs & Hin & Hout).
        exists ups, s'. split_and!; try done. by apply sublist_cons.
      * destruct (IH (Some pageDst) (record_upload t x s))
          as (ups & s' & Hfin & Hw & He & Hu & Hsub & Hnd & Habs & Hin & Hout).
        assert (t ∉ ups) as Ht.
        { intros Hin'. apply Habs in Hin'. simpl in Hin'.
          by rewrite lookup_insert_eq in Hin'. }
        exists (t :: ups), s'. split_and!; try done.
        -- rewrite Hu. simpl. by rewrite <- app_assoc.
        -- by apply sublist_skip.
        -- by constructor.
        -- intros y Hy. apply elem_of_cons in Hy as [->|Hy]; [done|].
           specialize (Habs y Hy). simpl in Habs.
           destruct (decide (t = y)) as [->|Hne]; [done|].
           by rewrite lookup_insert_ne in Habs.
        -- intros y Hy. apply elem_of_cons in Hy as [->|Hy]; [|by apply Hin].
           rewrite (Hout t Ht). simpl. rewrite lookup_insert_eq. by eexists.
        -- intros y Hy. apply not_elem_of_cons in Hy as [Hne Hy].
           rewrite (Hout y Hy). simpl. by rewrite lookup_insert_ne.
    + unfold bind at 1. destruct f as [pg|]; simpl.
      * destruct (IH (Some pg) s)
          as (ups & s' & Hfin & Hw & He & Hu & Hsub & Hnd & Habs & Hin & Hout).
        exists ups, s'. split_and!; try done. by apply sublist_cons.
      * exists [], s. rewrite app_nil_r. split_and!; try done.
        -- apply sublist_nil_l.
        -- constructor.
        -- intros y Hy. by apply elem_of_nil in Hy.
        -- intros y Hy. by apply elem_of_nil in Hy.
Qed.

Lemma uploadFiles_from_bound files : forall pg s,
  exists s', uploadFiles_from dst files (Some pg) s = Ret tt s'.
Proof.
  induction files as [|t files IH]; intros pg s; [by exists s|].
  cbn [uploadFiles_from].
  destruct (dst_FilePage dst t) as [pageDst|e].
  - unfold bind at 1.
    destruct (upload_step_cases pageDst t s) as [->|(_ & x & ->)]; apply IH.
  - unfold bind at 1. simpl. apply IH.
Qed.

End Uploads.

(** X7.  [uploadFiles] never overwrites: whatever the files and the failures
    met, it uploads only titles of its list that did not exist on the
    destination, each at most once and in the order of the list; every
    other page keeps its text, and no page is edited.  There is no [force]
    for files. *)
Theorem uploadFiles_only_creates
    (src : SrcSite) (dst : DstSite) (files : list string) (s : Store) :
  exists ups s',
    final_store (uploadFiles src dst files s) = Some s' /\
    writes s' = writes s /\
    uploads s' = uploads s ++ ups /\
    ups `sublist_of` files /\ NoDup ups /\
    (forall y, y ∈ ups -> pages s !! y = None /\ is_Some (pages s' !! y)) /\
    (forall y : string, y ∉ ups -> pages s' !! y = pages s !! y).
Proof.
  unfold uploadFiles.
  destruct (uploadFiles_from_effect dst files None s)
    as (ups & s' & Hfin & Hw & _ & Hu & Hsub & Hnd & Habs & Hin & Hout).
  exists ups, s'. split_and!; try done.
  intros y Hy. split; [by apply Habs|by apply Hin].
Qed.

(** X8.  The handler of [uploadFiles] prints the local [f], which is
    assigned inside the [try]: when the [FilePage] constructor raises for
    the first file of the list, [f] has never been assigned and
    [UnboundLocalError] leaves [uploadFiles] before anything is uploaded;
    when it succeeds for the first file, [uploadFiles] returns whatever
    happens with the other files. *)
Theorem uploadFiles_first_file_decides
    (src : SrcSite) (dst : DstSite) (t : string) (rest : list string)
    (s : Store) :
  (forall e, dst_FilePage dst t = Raise e ->
     uploadFiles src dst (t :: rest) s = Exc (UnboundLocalError "f") s) /\
  (forall pg, dst_FilePage dst t = Ok pg ->
     exists s', uploadFiles src dst (t :: rest) s = Ret tt s').
Proof.
  unfold uploadFiles. cbn [uploadFiles_from]. split.
  - intros e ->. reflexivity.
  - intros pg ->. unfold bind at 1.
    destruct (upload_step_cases dst pg t s) as [->|(_ & x & ->)];
      apply uploadFiles_from_bound.
Qed.

Lemma uploadFiles_first_file_decides_witness :
  uploadFiles Demo.src Demo.picky_dst ["bad"; "File:a.png"] Demo.empty
    = Exc (UnboundLocalError "f") Demo.empty /\
  exists s',
    uploadFiles Demo.src Demo.picky_dst ["File:a.png"; "bad"] Demo.empty
      = Ret tt s'.
Proof.
  split.
  - apply (uploadFiles_first_file_decides Demo.src Demo.picky_dst "bad"
             ["File:a.png"] Demo.empty) with (e := PywikibotError).
    reflexivity.
  - apply (uploadFiles_first_file_decides Demo.src Demo.picky_dst
             "File:a.png" ["bad"] Demo.empty) with (pg := Demo.good_page).
    reflexivity.
Defined.

(** ** Templates and files used by the pages *)

Section Lookups.
Context (py : Python) (src : SrcSite).

Lemma getTemplatesFromPages_from_ok P : forall acc s,
  (forall p, p ∈ P ->
     exists pg tl, src_Page src p = Ok pg /\ templates pg = Ok tl) ->
  exists l,
    getTemplatesFromPages_from src P acc s = Ret l s /\
    forall y, y ∈ l <->
      y ∈ acc \/
      exists p pg tl, p ∈ P /\ src_Page src p = Ok pg /\
                      templates pg = Ok tl /\ y ∈ tl.
Proof.
  induction P as [|p P IH]; intros acc s Hok.
  - exists acc. split; [done|]. intros y. split; [by left|].
    intros [?|(p & _ & _ & Hp & _)]; [done|]. by apply elem_of_nil in Hp.
  - destruct (Hok p ltac:(constructor)) as (pg & tl & Hpg & Htl).
    cbn [getTemplatesFromPages_from]. unfold bind, call, ret.
    rewrite Hpg. simpl. rewrite Htl. simpl.
    destruct (IH (if bool_decide (0 < length tl) then acc ++ tl else acc) s)
      as (l & -> & Hl).
    { intros q Hq. apply Hok. by constructor. }
    exists l. split; [done|]. intros y. rewrite Hl.
    assert (y ∈ (if bool_decide (0 < length tl) then acc ++ tl else acc)
            <-> y ∈ acc \/ y ∈ tl) as ->.
    { case_bool_decide as Hlen; [apply elem_of_app|].
      destruct tl; [|simpl in Hlen; lia].
      split; [by left|]. intros [?|Hy]; [done|]. by apply elem_of_nil in Hy. }
    split.
    + intros [[?|Hy]|(q & pq & tq & Hq & ?)]; [by left| |].
      * right. exists p, pg, tl. split; [constructor|done].
      * right. exists q, pq, tq. split; [by constructor|done].
    + intros [?|(q & pq & tq & Hq & Hpq & Htq & Hy)]; [by left; left|].
      apply elem_of_cons in Hq as [->|Hq].
      * left. right. congruence.
      * right. by exists q, pq, tq.
Qed.

Lemma getFilesFromPages_from_ok P : forall acc s,
  (forall p, p ∈ P ->
     exists pg fl, src_Page src p = Ok pg /\ imagelinks pg = Ok fl) ->
  exists l,
    getFilesFromPages_from src P acc s = Ret l s /\
    forall y, y ∈ l <->
      y ∈ acc \/
      exists p pg fl, p ∈ P /\ src_Page src p = Ok pg /\
                      imagelinks pg = Ok fl /\ y ∈ fl.
Proof.
  induction P as [|p P IH]; intros acc s Hok.
  - exists acc. split; [done|]. intros y. split; [by left|].
    intros [?|(p & _ & _ & Hp & _)]; [done|]. by apply elem_of_nil in Hp.
  - destruct (Hok p ltac:(constructor)) as (pg & fl & Hpg & Hfl).
    cbn [getFilesFromPages_from]. unfold bind, call, ret.
    rewrite Hpg. simpl. rewrite Hfl. simpl.
    destruct (IH (if bool_decide (0 < length fl) then acc ++ fl else acc) s)
      as (l & -> & Hl).
    { intros q Hq. apply Hok. by constructor. }
    exists l. split; [done|]. intros y. rewrite Hl.
    assert (y ∈ (if bool_decide (0 < length fl) then acc ++ fl else acc)
            <-> y ∈ acc \/ y ∈ fl) as ->.
    { case_bool_decide as Hlen; [apply elem_of_app|].
      destruct fl; [|simpl in Hlen; lia].
      split; [by left|]. intros [?|Hy]; [done|]. by apply elem_of_nil in Hy. }
    split.
    + intros [[?|Hy]|(q & pq & tq & Hq & ?)]; [by left| |].
      * right. exists p, pg, fl. split; [constructor|done].
      * right. exists q, pq, tq. split; [by constructor|done].
    + intros [?|(q & pq & tq & Hq & Hpq & Htq & Hy)]; [by left; left|].
      apply elem_of_cons in Hq as [->|Hq].
      * left. right. congruence.
      * right. by exists q, pq, tq.
Qed.

(** A page whose lookup raises makes the whole lookup raise. *)
Lemma getTemplatesFromPages_fails P p s :
  p ∈ P ->
  (exists e, src_Page src p = Raise e) \/
  (exists pg e, src_Page src p = Ok pg /\ templates pg = Raise e) ->
  exists e, getTemplatesFromPages py src P s = Exc (Library e) s.
Proof.
  intros Hp Hfail. unfold getTemplatesFromPages. unfold bind at 1.
  assert (exists e, forall acc,
            getTemplatesFromPages_from src P acc s = Exc (Library e) s)
    as [e He]; [|exists e; by rewrite He].
  induction P as [|q P IH]; [by apply elem_of_nil in Hp|].
  cbn [getTemplatesFromPages_from]. unfold bind, call, ret, raise.
  destruct (src_Page src q) as [pg|e] eqn:Hq; [|by exists e].
  simpl. destruct (templates pg) as [tl|e] eqn:Htl; [|by exists e]. simpl.
  apply elem_of_cons in Hp as [->|Hp].
  - destruct Hfail as [[e He]|(pg' & e & Hpg' & He)]; congruence.
  - destruct (IH Hp) as [e He]. exists e. intros acc. apply He.
Qed.

Lemma getFilesFromPages_fails P p s :
  p ∈ P ->
  (exists e, src_Page src p = Raise e) \/
  (exists pg e, src_Page src p = Ok pg /\ imagelinks pg = Raise e) ->
  exists e, getFilesFromPages py src P s = Exc (Library e) s.
Proof.
  intros Hp Hfail. unfold getFilesFromPages. unfold bind at 1.
  assert (exists e, forall acc,
            getFilesFromPages_from src P acc s = Exc (Library e) s)
    as [e He]; [|exists e; by rewrite He].
  induction P as [|q P IH]; [by apply elem_of_nil in Hp|].
  cbn [getFilesFromPages_from]. unfold bind, call, ret, raise.
  destruct (src_Page src q) as [pg|e] eqn:Hq; [|by exists e].
  simpl. destruct (imagelinks pg) as [tl|e] eqn:Htl; [|by exists e]. simpl.
  apply elem_of_cons in Hp as [->|Hp].
  - destruct Hfail as [[e He]|(pg' & e & Hpg' & He)]; congruence.
  - destruct (IH Hp) as [e He]. exists e. intros acc. apply He.
Qed.

End Lookups.

(** X9.  When every page of the list answers, [getTemplatesFromPages]
    returns, without touching the destination, a list without duplicates
    whose titles are exactly the templates used by at least one page of the
    list; for the empty list it returns the empty list. *)
Theorem getTemplatesFromPages_is_the_union
    (py : Python) (src : SrcSite) (P : list string) (s : Store) :
  (forall p, p ∈ P ->
     exists pg tl, src_Page src p = Ok pg /\ templates pg = Ok tl) ->
  exists l,
    getTemplatesFromPages py src P s = Ret l s /\ NoDup l /\
    (P = [] -> l = []) /\
    forall y, y ∈ l <->
      exists p pg tl, p ∈ P /\ src_Page src p = Ok pg /\
                      templates pg = Ok tl /\ y ∈ tl.
Proof.
  intros Hok. unfold getTemplatesFromPages, bind, ret.
  destruct (getTemplatesFromPages_from_ok src P [] s Hok) as (l & -> & Hl).
  exists (list_of_set py l).
  assert (Hmem : forall y, y ∈ list_of_set py l <->
            exists p pg tl, p ∈ P /\ src_Page src p = Ok pg /\
                            templates pg = Ok tl /\ y ∈ tl).
  { intros y. rewrite (list_of_set_elem py), Hl. split; [|by right].
    intros [Hy|?]; [by apply elem_of_nil in Hy|done]. }
  split_and!; [done|apply list_of_set_NoDup| |done].
  intros ->. destruct (list_of_set py l) as [|y l'] eqn:E; [done|].
  assert (y ∈ y :: l') as Hy by constructor.
  apply Hmem in Hy as (p & _ & _ & Hp & _). by apply elem_of_nil in Hp.
Qed.

Lemma getTemplatesFromPages_is_the_union_witness :
  exists l,
    getTemplatesFromPages Demo.py Demo.src ["P"; "B"] Demo.empty
      = Ret l Demo.empty /\ NoDup l /\
    (["P"; "B"] = [] -> l = []) /\
    forall y, y ∈ l <->
      exists p pg tl, p ∈ ["P"; "B"] /\ src_Page Demo.src p = Ok pg /\
                      templates pg = Ok tl /\ y ∈ tl.
Proof.
  apply (getTemplatesFromPages_is_the_union Demo.py Demo.src ["P"; "B"]
           Demo.empty).
  intros p Hp. apply elem_of_cons in Hp as [->|Hp].
  - by eexists _, _.
  - apply list_elem_of_singleton in Hp as ->. by eexists _, _.
Defined.

(** X10.  The same for [getFilesFromPages] and the files linked from the
    pages. *)
Theorem getFilesFromPages_is_the_union
    (py : Python) (src : SrcSite) (P : list string) (s : Store) :
  (forall p, p ∈ P ->
     exists pg fl, src_Page src p = Ok pg /\ imagelinks pg = Ok fl) ->
  exists l,
    getFilesFromPages py src P s = Ret l s /\ NoDup l /\
    (P = [] -> l = []) /\
    forall y, y ∈ l <->
      exists p pg fl, p ∈ P /\ src_Page src p = Ok pg /\
                      imagelinks pg = Ok fl /\ y ∈ fl.
Proof.
  intros Hok. unfold getFilesFromPages, bind, ret.
  destruct (getFilesFromPages_from_ok src P [] s Hok) as (l & -> & Hl).
  exists (list_of_set py l).
  assert (Hmem : forall y, y ∈ list_of_set py l <->
            exists p pg fl, p ∈ P /\ src_Page src p = Ok pg /\
                            imagelinks pg = Ok fl /\ y ∈ fl).
  { intros y. rewrite (list_of_set_elem py), Hl. split; [|by right].
    intros [Hy|?]; [by apply elem_of_nil in Hy|done]. }
  split_and!; [done|apply list_of_set_NoDup| |done].
  intros ->. destruct (list_of_set py l) as [|y l'] eqn:E; [done|].
  assert (y ∈ y :: l') as Hy by constructor.
  apply Hmem in Hy as (p & _ & _ & Hp & _). by apply elem_of_nil in Hp.
Qed.

Lemma getFilesFromPages_is_the_union_witness :
  exists l,
    getFilesFromPages Demo.py Demo.src ["P"] Demo.empty
      = Ret l Demo.empty /\ NoDup l /\
    (["P"] = [] -> l = []) /\
    forall y, y ∈ l <->
      exists p pg fl, p ∈ ["P"] /\ src_Page Demo.src p = Ok pg /\
                      imagelinks pg = Ok fl /\ y ∈ fl.
Proof.
  apply (getFilesFromPages_is_the_union Demo.py Demo.src ["P"] Demo.empty).
  intros p Hp. apply list_elem_of_singleton in Hp as ->. by eexists _, _.
Defined.

(** ** The phases of syncPagesWithDependances *)

Lemma exportPagesTitle_cases py l fileName directory s :
  exportPagesTitle py l fileName directory s
    = Ret tt (record_export
                (directory +:+ "/mirroring_export_" +:+ fileName +:+ ".json")
                l s) \/
  exists e, exportPagesTitle py l fileName directory s = Exc (Library e) s.
Proof.
  unfold exportPagesTitle, bind, call, ret, raise.
  destruct (open_w py _) as [[]|e]; [by left|right; by exists e].
Qed.

Lemma getTemplatesFromPages_cases py src P s :
  (exists l, forall s0, getTemplatesFromPages py src P s0 = Ret l s0) \/
  exists e, getTemplatesFromPages py src P s = Exc (Library e) s.
Proof.
  unfold getTemplatesFromPages.
  assert (forall acc,
    (exists l, forall s0, getTemplatesFromPages_from src P acc s0 = Ret l s0) \/
    exists e, forall s0,
      getTemplatesFromPages_from src P acc s0 = Exc (Library e) s0) as H.
  { induction P as [|p P IH]; intros acc; [left; by exists acc|].
    cbn [getTemplatesFromPages_from]. unfold bind, call, ret, raise.
    destruct (src_Page src p) as [pg|e]; [|right; by exists e]. simpl.
    destruct (templates pg) as [tl|e]; [|right; by exists e]. simpl.
    apply IH. }
  destruct (H []) as [[l Hl]|[e He]].
  - left. exists (list_of_set py l). intros s0. unfold bind. by rewrite Hl.
  - right. exists e. unfold bind. by rewrite He.
Qed.

Lemma getFilesFromPages_cases py src P s :
  (exists l, forall s0, getFilesFromPages py src P s0 = Ret l s0) \/
  exists e, getFilesFromPages py src P s = Exc (Library e) s.
Proof.
  unfold getFilesFromPages.
  assert (forall acc,
    (exists l, forall s0, getFilesFromPages_from src P acc s0 = Ret l s0) \/
    exists e, forall s0,
      getFilesFromPages_from src P acc s0 = Exc (Library e) s0) as H.
  { induction P as [|p P IH]; intros acc; [left; by exists acc|].
    cbn [getFilesFromPages_from]. unfold bind, call, ret, raise.
    destruct (src_Page src p) as [pg|e]; [|right; by exists e]. simpl.
    destruct (imagelinks pg) as [tl|e]; [|right; by exists e]. simpl.
    apply IH. }
  destruct (H []) as [[l Hl]|[e He]].
  - left. exists (list_of_set py l). intros s0. unfold bind. by rewrite Hl.
  - right. exists e. unfold bind. by rewrite He.
Qed.

(** The phases of a run that returns: what was looked up, what was
    exported, the one batch that was synced and its count, and the uploads
    that ended the run. *)
Lemma syncPagesWithDependances_shape py src dst fuel P options s n s' :
  syncPagesWithDependances py src dst fuel P options s = Ret n s' ->
  exists files tpls deps sa sb,
    (filesUpload options = true ->
       forall s0, getFilesFromPages py src P s0 = Ret files s0) /\
    (templatesSync options = true ->
       forall s0, getTemplatesFromPages py src P s0 = Ret tpls s0) /\
    (templatesDepSync options = true ->
       templatesSync options = true /\
       forall s0, getTemplatesFromPages py src tpls s0 = Ret deps s0) /\
    same_wiki s sa /\
    exports sa = exports s ++
      [export_entry options "pages" P] ++
      (if filesUpload options then [export_entry options "files" files]
       else []) ++
      (if templatesSync options then [export_entry options "templates" tpls]
       else []) ++
      (if templatesDepSync options
       then [export_entry options "dependances" deps] else []) /\
    syncPages src dst fuel
      ((if templatesDepSync options then deps else []) ++
       (if templatesSync options then tpls else []) ++ P)
      (force options) sa = Ret n sb /\
    (if filesUpload options then uploadFiles src dst files sb = Ret tt s'
     else s' = sb).
Proof.
  unfold syncPagesWithDependances. intros H.
  step H as E0 u0 s0.
  destruct (exportPagesTitle_cases py P "pages" (exportDir options) s)
    as [E0'|[e E0']]; [|congruence].
  rewrite E0 in E0'. injection E0' as -> ->.
  step H as E1 filesv s1.
  assert (exists files,
    (filesUpload options = true ->
       filesv = Some files /\
       forall s0, getFilesFromPages py src P s0 = Ret files s0) /\
    same_wiki s s1 /\
    exports s1 = exports s ++ [export_entry options "pages" P] ++
      (if filesUpload options then [export_entry options "files" files]
       else [])) as (files & Hfiles & Hw1 & Hx1).
  { destruct (filesUpload options).
    - step E1 as E l sx.
      destruct (getFilesFromPages_cases py src P
                  (record_export
                     (exportDir options +:+ "/mirroring_export_" +:+ "pages"
                        +:+ ".json") P s))
        as [[l' Hl]|[e He]]; [|congruence].
      rewrite Hl in E. injection E as <- <-.
      step E1 as E u sy.
      destruct (exportPagesTitle_cases py l' "files" (exportDir options)
                  (record_export
                     (exportDir options +:+ "/mirroring_export_" +:+ "pages"
                        +:+ ".json") P s))
        as [E'|[e E']]; [|congruence].
      rewrite E in E'. injection E' as -> ->.
      injection E1 as <- <-. exists l'. split_and!; [by intros _| |].
      + done.
      + simpl. by rewrite <- app_assoc.
    - injection E1 as <- <-. exists []. by split_and!. }
  clear E1.
  step H as E2 tplv s2.
  assert (exists tpls,
    (templatesSync options = true ->
       tplv = Some tpls /\
       forall s0, getTemplatesFromPages py src P s0 = Ret tpls s0) /\
    (templatesSync options = false -> tplv = None) /\
    same_wiki s s2 /\
    exports s2 = exports s1 ++
      (if templatesSync options then [export_entry options "templates" tpls]
       else [])) as (tpls & Htpls & Hnotpl & Hw2 & Hx2).
  { destruct (templatesSync options).
    - step E2 as E l sx.
      destruct (getTemplatesFromPages_cases py src P s1)
        as [[l' Hl]|[e He]]; [|congruence].
      rewrite Hl in E. injection E as <- <-.
      step E2 as E u sy.
      destruct (exportPagesTitle_cases py l' "templates" (exportDir options)
                  s1) as [E'|[e E']]; [|congruence].
      rewrite E in E'. injection E' as -> ->.
      injection E2 as <- <-. exists l'. split_and!; [by intros _|done| |done].
      destruct Hw1 as (? & ? & ?). by split_and!.
    - injection E2 as <- <-. exists []. split_and!; [done..|].
      by rewrite app_nil_r. }
  clear E2.
  step H as E3 depv s3.
  assert (exists deps,
    (templatesDepSync options = true ->
       depv = Some deps /\ templatesSync options = true /\
       forall s0, getTemplatesFromPages py src tpls s0 = Ret deps s0) /\
    same_wiki s s3 /\
    exports s3 = exports s2 ++
      (if templatesDepSync options
       then [export_entry options "dependances" deps] else []))
    as (deps & Hdeps & Hw3 & Hx3).
  { destruct (templatesDepSync options).
    - step E3 as E tl sw. destruct tplv as [tl'|]; [|done].
      injection E as -> <-.
      assert (templatesSync options = true /\ tl = tpls) as [Hts ->].
      { destruct (templatesSync options); [|by specialize (Hnotpl eq_refl)].
        destruct (Htpls eq_refl) as [[= ->] _]. done. }
      step E3 as E l sx.
      destruct (getTemplatesFromPages_cases py src tpls s2)
        as [[l' Hl]|[e He]]; [|congruence].
      rewrite Hl in E. injection E as <- <-.
      step E3 as E u sy.
      destruct (exportPagesTitle_cases py l' "dependances" (exportDir options)
                  s2) as [E'|[e E']]; [|congruence].
      rewrite E in E'. injection E' as -> ->.
      injection E3 as <- <-. exists l'. split_and!; [by intros _| |done].
      destruct Hw2 as (? & ? & ?). by split_and!.
    - injection E3 as <- <-. exists []. split_and!; [done..|].
      by rewrite app_nil_r. }
  clear E3.
  step H as E4 n4 s4. step H as E5 n5 s5. step H as E6 n6 s6.
  step H as E7 u7 s7. injection H as <- <-.
  set (dl := if templatesDepSync options then deps else []).
  set (tl := if templatesSync options then tpls else []).
  assert (syncPages src dst fuel dl (force options) s3 = Ret n4 s4) as H4.
  { subst dl. destruct (templatesDepSync options).
    - destruct (Hdeps eq_refl) as (-> & _). simpl in E4.
      step E4 as E l sx. injection E as -> ->.
      step E4 as E k sy. injection E4 as <- <-. done.
    - by injection E4 as <- <-. }
  assert (exists k5, n5 = n4 + k5 /\
            syncPages src dst fuel tl (force options) s4 = Ret k5 s5)
    as (k5 & -> & H5).
  { subst tl. destruct (templatesSync options).
    - destruct (Htpls eq_refl) as (-> & _). simpl in E5.
      step E5 as E l sx. injection E as -> ->.
      step E5 as E k sy. injection E5 as <- <-. by exists k.
    - injection E5 as <- <-. exists 0. split; [lia|done]. }
  exists files, tpls, deps, s3, s6.
  split_and!.
  - intros Hf. by destruct (Hfiles Hf).
  - intros Ht. by destruct (Htpls Ht).
  - intros Hd. by destruct (Hdeps Hd) as (_ & ? & ?).
  - done.
  - rewrite Hx3, Hx2, Hx1. by rewrite <- !app_assoc.
  - rewrite <- Nat.add_assoc.
    apply (syncPages_then _ _ _ _ _ _ _ _ s4); [done|].
    by apply (syncPages_then _ _ _ _ _ _ _ _ s5).
  - destruct (filesUpload options); [|by injection E7 as _ <-].
    destruct (Hfiles eq_refl) as (-> & _). simpl in E7. by destruct u7.
Qed.

(** X11.  A page of the list whose constructor or whose lookup of files or
    templates raises stops the run while the lists are being gathered, when
    the option that asks for this lookup is set: a library exception leaves
    [syncPagesWithDependances] and nothing has been written or uploaded. *)
Theorem failed_lookup_aborts_the_run
    (py : Python) (src : SrcSite) (dst : DstSite) (fuel : nat)
    (P : list string) (options : Options) (s : Store) (p : string) :
  p ∈ P ->
  (filesUpload options = true /\
   ((exists e, src_Page src p = Raise e) \/
    exists pg e, src_Page src p = Ok pg /\ imagelinks pg = Raise e)) \/
  (templatesSync options = true /\
   ((exists e, src_Page src p = Raise e) \/
    exists pg e, src_Page src p = Ok pg /\ templates pg = Raise e)) ->
  exists e s',
    syncPagesWithDependances py src dst fuel P options s
      = Exc (Library e) s' /\
    same_wiki s s'.
Proof.
  intros Hp Hfail. unfold syncPagesWithDependances. unfold bind at 1.
  destruct (exportPagesTitle_cases py P "pages" (exportDir options) s)
    as [->|[e ->]]; [|by exists e, s].
  set (s1 := record_export _ P s).
  assert (same_wiki s s1) as Hs1 by done.
  cbv beta iota.
  assert (forall (k : option (list string) -> M nat) sx,
            templatesSync options = true ->
            ((exists e, src_Page src p = Raise e) \/
             exists pg e, src_Page src p = Ok pg /\ templates pg = Raise e) ->
            same_wiki s sx ->
            exists e s',
              bind (if templatesSync options then
                      let* l := getTemplatesFromPages py src P in
                      exportPagesTitle py l "templates" (exportDir options) ;;;
                      ret (Some l)
                    else ret None) k sx = Exc (Library e) s' /\
              same_wiki s s') as Htail.
  { intros k sx -> Hf Hsx. unfold bind at 1. unfold bind at 1.
    destruct (getTemplatesFromPages_fails py src P p sx Hp Hf) as [e ->].
    by exists e, sx. }
  destruct Hfail as [[Hfu Hf]|[Hts Hf]].
  - rewrite Hfu. unfold bind at 1. unfold bind at 1.
    destruct (getFilesFromPages_fails py src P p s1 Hp Hf) as [e ->].
    by exists e, s1.
  - destruct (filesUpload options).
    + unfold bind at 1. unfold bind at 1.
      destruct (getFilesFromPages_cases py src P s1) as [[l Hl]|[e ->]];
        [|by exists e, s1].
      rewrite Hl. unfold bind at 1.
      destruct (exportPagesTitle_cases py l "files" (exportDir options) s1)
        as [->|[e ->]]; [|by exists e, s1].
      cbv beta iota. unfold ret at 1. cbv beta iota.
      by apply Htail.
    + unfold bind at 1. unfold ret at 1. cbv beta iota. by apply Htail.
Qed.

Lemma failed_lookup_aborts_the_run_witness :
  exists e s',
    syncPagesWithDependances Demo.py Demo.strict_src Demo.dst 5 ["B"; ""]
      DEFAULT_OPTIONS Demo.empty = Exc (Library e) s' /\
    same_wiki Demo.empty s'.
Proof.
  apply (failed_lookup_aborts_the_run Demo.py Demo.strict_src Demo.dst 5
           ["B"; ""] DEFAULT_OPTIONS Demo.empty "").
  - apply elem_of_cons. right. constructor.
  - left. split; [reflexivity|]. left. by exists PywikibotError.
Defined.

Lemma syncPages_Ret_store src dst fuel P force s n s' :
  syncPages src dst fuel P force s = Ret n s' ->
  exists ws, s' = apply_writes ws s /\ n <= length ws /\ n <= length P.
Proof.
  unfold syncPages. intros H.
  destruct (syncPages_from_effect src dst fuel force P 0 s)
    as [Hd|(ws & Hfin & _ & _ & Hcount)]; [congruence|].
  rewrite H in Hfin. injection Hfin as ->.
  destruct (Hcount n _ H) as (_ & ? & ?). exists ws. split; [done|lia].
Qed.

Lemma uploadFiles_Ret_store src dst files s u s' :
  uploadFiles src dst files s = Ret u s' ->
  writes s' = writes s /\ exports s' = exports s.
Proof.
  unfold uploadFiles. intros H.
  destruct (uploadFiles_from_effect dst files None s)
    as (ups & s1 & Hfin & Hw & He & _).
  rewrite H in Hfin. by injection Hfin as <-.
Qed.

(** X12.  A run that returns has exported, in this order, the list of
    pages it was given and, for each option that is set, the files, the
    templates and the templates of the templates that it looked up; the
    sync and the uploads export nothing more. *)
Theorem run_exports_each_list
    (py : Python) (src : SrcSite) (dst : DstSite) (fuel : nat)
    (P : list string) (options : Options) (s : Store) (n : nat)
    (s' : Store) :
  syncPagesWithDependances py src dst fuel P options s = Ret n s' ->
  exists files tpls deps,
    (filesUpload options = true ->
       getFilesFromPages py src P s = Ret files s) /\
    (templatesSync options = true ->
       getTemplatesFromPages py src P s = Ret tpls s) /\
    (templatesDepSync options = true ->
       getTemplatesFromPages py src tpls s = Ret deps s) /\
    exports s' = exports s ++
      [export_entry options "pages" P] ++
      (if filesUpload options then [export_entry options "files" files]
       else []) ++
      (if templatesSync options then [export_entry options "templates" tpls]
       else []) ++
      (if templatesDepSync options
       then [export_entry options "dependances" deps] else []).
Proof.
  intros H.
  destruct (syncPagesWithDependances_shape _ _ _ _ _ _ _ _ _ H)
    as (files & tpls & deps & sa & sb & Hf & Ht & Hd & _ & Hx & Hsync & Hup).
  exists files, tpls, deps. split_and!.
  - intros Hfu. apply (Hf Hfu).
  - intros Hts. apply (Ht Hts).
  - intros Hds. by destruct (Hd Hds) as [_ ?].
  - rewrite <- Hx.
    apply syncPages_Ret_store in Hsync as (ws & -> & _).
    rewrite <- (exports_apply_writes ws sa).
    destruct (filesUpload options); [|by subst s'].
    by apply uploadFiles_Ret_store in Hup as [_ ?].
Qed.


Lemma run_exports_each_list_witness :
  exists files tpls deps,
    (filesUpload DEFAULT_OPTIONS = true ->
       getFilesFromPages Demo.py Demo.src ["P"] Demo.empty
         = Ret files Demo.empty) /\
    (templatesSync DEFAULT_OPTIONS = true ->
       getTemplatesFromPages Demo.py Demo.src ["P"] Demo.empty
         = Ret tpls Demo.empty) /\
    (templatesDepSync DEFAULT_OPTIONS = true ->
       getTemplatesFromPages Demo.py Demo.src tpls Demo.empty
         = Ret deps Demo.empty) /\
    exports
      (record_export "./mirroring_export_dependances.json" []
       (record_export "./mirroring_export_templates.json" ["T"]
          (record_export "./mirroring_export_files.json" []
             (record_export "./mirroring_export_pages.json" ["P"]
                (apply_writes [("T", "foo"); ("P", "see {{T}}")]
                   Demo.empty)))))
    = exports Demo.empty ++
      [export_entry DEFAULT_OPTIONS "pages" ["P"]] ++
      (if filesUpload DEFAULT_OPTIONS
       then [export_entry DEFAULT_OPTIONS "files" files] else []) ++
      (if templatesSync DEFAULT_OPTIONS
       then [export_entry DEFAULT_OPTIONS "templates" tpls] else []) ++
      (if templatesDepSync DEFAULT_OPTIONS
       then [export_entry DEFAULT_OPTIONS "dependances" deps] else []).
Proof.
  apply (run_exports_each_list Demo.py Demo.src Demo.dst 5 ["P"]
           DEFAULT_OPTIONS Demo.empty 2).
  vm_compute. reflexivity.
Defined.

(** X13.  The count that [syncPagesWithDependances] returns is the count
    of one batch of [syncPages] over the templates of the templates, then
    the templates, then the pages, started on the wiki as it was: it is at
    most the number of writes of the run and at most the number of titles
    of the batch, and the uploads are not counted. *)
Theorem run_count_is_one_batch
    (py : Python) (src : SrcSite) (dst : DstSite) (fuel : nat)
    (P : list string) (options : Options) (s : Store) (n : nat)
    (s' : Store) :
  syncPagesWithDependances py src dst fuel P options s = Ret n s' ->
  exists tpls deps sa sb ws,
    (templatesSync options = true ->
       getTemplatesFromPages py src P s = Ret tpls s) /\
    (templatesDepSync options = true ->
       templatesSync options = true /\
       getTemplatesFromPages py src tpls s = Ret deps s) /\
    same_wiki s sa /\
    syncPages src dst fuel
      ((if templatesDepSync options then deps else []) ++
       (if templatesSync options then tpls else []) ++ P)
      (force options) sa = Ret n sb /\
    writes s' = writes s ++ ws /\
    n <= length ws /\
    n <= length (if templatesDepSync options then deps else []) +
         length (if templatesSync options then tpls else []) + length P.
Proof.
  intros H.
  destruct (syncPagesWithDependances_shape _ _ _ _ _ _ _ _ _ H)
    as (files & tpls & deps & sa & sb & _ & Ht & Hd & Hsa & _ & Hsync & Hup).
  destruct (syncPages_Ret_store _ _ _ _ _ _ _ _ Hsync)
    as (ws & Hsb & Hn & Hlen).
  exists tpls, deps, sa, sb, ws. split_and!.
  - intros Hts. apply (Ht Hts).
  - intros Hds. destruct (Hd Hds) as [? ?]. by split.
  - done.
  - done.
  - assert (writes s' = writes sb) as ->.
    { destruct (filesUpload options); [|by subst s'].
      by apply uploadFiles_Ret_store in Hup as [? _]. }
    rewrite Hsb, writes_apply_writes. destruct Hsa as (_ & -> & _). done.
  - done.
  - rewrite !length_app in Hlen. lia.
Qed.

Lemma run_count_is_one_batch_witness :
  exists tpls deps sa sb ws,
    (templatesSync DEFAULT_OPTIONS = true ->
       getTemplatesFromPages Demo.py Demo.src ["P"] Demo.empty
         = Ret tpls Demo.empty) /\
    (templatesDepSync DEFAULT_OPTIONS = true ->
       templatesSync DEFAULT_OPTIONS = true /\
       getTemplatesFromPages Demo.py Demo.src tpls Demo.empty
         = Ret deps Demo.empty) /\
    same_wiki Demo.empty sa /\
    syncPages Demo.src Demo.dst 5
      ((if templatesDepSync DEFAULT_OPTIONS then deps else []) ++
       (if templatesSync DEFAULT_OPTIONS then tpls else []) ++ ["P"])
      (force DEFAULT_OPTIONS) sa = Ret 2 sb /\
    writes
      (record_export "./mirroring_export_dependances.json" []
       (record_export "./mirroring_export_templates.json" ["T"]
          (record_export "./mirroring_export_files.json" []
             (record_export "./mirroring_export_pages.json" ["P"]
                (apply_writes [("T", "foo"); ("P", "see {{T}}")]
                   Demo.empty)))))
    = writes Demo.empty ++ ws /\
    2 <= length ws /\
    2 <= length (if templatesDepSync DEFAULT_OPTIONS then deps else []) +
         length (if templatesSync DEFAULT_OPTIONS then tpls else []) +
         length ["P"].
Proof.
  apply (run_count_is_one_batch Demo.py Demo.src Demo.dst 5 ["P"]
           DEFAULT_OPTIONS Demo.empty 2).
  vm_compute. reflexivity.
Defined.

(** ** Pages that exist on the destination *)

Section Keeps.
Context {A B : Type}.

Lemma pages_kept_refl s : pages_kept s s.
Proof. by intros y x. Qed.

Lemma keeps_pages_ret (a : A) : keeps_pages (ret a).
Proof. intros s s' [= <-]. apply pages_kept_refl. Qed.

Lemma keeps_pages_call (r : result A) : keeps_pages (call r).
Proof. intros s s' H. destruct r; injection H as <-; apply pages_kept_refl. Qed.

Lemma keeps_pages_read_local name (v : option A) :
  keeps_pages (read_local name v).
Proof. intros s s' H. destruct v; injection H as <-; apply pages_kept_refl. Qed.

Lemma keeps_pages_bind (m : M A) (k : A -> M B) :
  keeps_pages m -> (forall a, keeps_pages (k a)) -> keeps_pages (bind m k).
Proof.
  intros Hm Hk s s' H. unfold bind in H.
  destruct (m s) as [a s1|e s1|] eqn:Hms; [| |done].
  - intros y x Hy. apply (Hk a s1 s' H). apply (Hm s s1); [by rewrite Hms|done].
  - apply (Hm s s'). by rewrite Hms.
Qed.

End Keeps.

Lemma keeps_pages_exportPagesTitle py l fileName directory :
  keeps_pages (exportPagesTitle py l fileName directory).
Proof.
  intros s s' H.
  destruct (exportPagesTitle_cases py l fileName directory s) as [E|[e E]];
    rewrite E in H; injection H as <-; by intros y x.
Qed.

Lemma keeps_pages_getTemplatesFromPages py src P :
  keeps_pages (getTemplatesFromPages py src P).
Proof.
  intros s s' H.
  destruct (getTemplatesFromPages_cases py src P s) as [[l E]|[e E]];
    rewrite E in H; injection H as <-; apply pages_kept_refl.
Qed.

Lemma keeps_pages_getFilesFromPages py src P :
  keeps_pages (getFilesFromPages py src P).
Proof.
  intros s s' H.
  destruct (getFilesFromPages_cases py src P s) as [[l E]|[e E]];
    rewrite E in H; injection H as <-; apply pages_kept_refl.
Qed.

Lemma keeps_pages_syncPages src dst fuel P :
  keeps_pages (syncPages src dst fuel P false).
Proof.
  intros s s' Hfin y x Hy. unfold syncPages in Hfin.
  destruct (syncPages_from_effect src dst fuel false P 0 s)
    as [Hd|(ws & Hfin' & _ & Hfresh & _)]; [by rewrite Hd in Hfin|].
  rewrite Hfin in Hfin'. injection Hfin' as ->.
  destruct (Hfresh eq_refl) as [_ Habs].
  rewrite pages_apply_writes_notin; [done|].
  intros Hin. apply Habs in Hin. congruence.
Qed.

Lemma keeps_pages_uploadFiles src dst files :
  keeps_pages (uploadFiles src dst files).
Proof.
  intros s s' Hfin y x Hy. unfold uploadFiles in Hfin.
  destruct (uploadFiles_from_effect dst files None s)
    as (ups & s1 & Hfin' & _ & _ & _ & _ & _ & Habs & _ & Hout).
  rewrite Hfin in Hfin'. injection Hfin' as <-.
  rewrite Hout; [done|]. intros Hin. apply Habs in Hin. congruence.
Qed.

Ltac keeps_tac :=
  lazymatch goal with
  | |- keeps_pages (ret _) => apply keeps_pages_ret
  | |- keeps_pages (read_local _ _) => apply keeps_pages_read_local
  | |- keeps_pages (bind _ _) =>
    apply keeps_pages_bind; [keeps_tac|intros ?; keeps_tac]
  | |- keeps_pages (if ?b then _ else _) => destruct b; keeps_tac
  | |- keeps_pages (exportPagesTitle _ _ _ _) =>
    apply keeps_pages_exportPagesTitle
  | |- keeps_pages (getFilesFromPages _ _ _) =>
    apply keeps_pages_getFilesFromPages
  | |- keeps_pages (getTemplatesFromPages _ _ _) =>
    apply keeps_pages_getTemplatesFromPages
  | |- keeps_pages (syncPages _ _ _ _ false) => apply keeps_pages_syncPages
  | |- keeps_pages (uploadFiles _ _ _) => apply keeps_pages_uploadFiles
  end.

(** X14.  Without [force], a run of [syncPagesWithDependances] leaves every
    page and every file that exists on the destination with the text it
    had, whether the run returns or is stopped by an exception. *)
Theorem run_without_force_keeps_existing_pages
    (py : Python) (src : SrcSite) (dst : DstSite) (fuel : nat)
    (P : list string) (options : Options) (s s' : Store) :
  force options = false ->
  final_store (syncPagesWithDependances py src dst fuel P options s)
    = Some s' ->
  forall y x, pages s !! y = Some x -> pages s' !! y = Some x.
Proof.
  intros Hforce Hfin.
  assert (keeps_pages (syncPagesWithDependances py src dst fuel P options))
    as Hk; [|by apply (Hk s s')].
  unfold syncPagesWithDependances. rewrite Hforce. keeps_tac.
Qed.


Lemma run_without_force_keeps_existing_pages_witness :
  pages
    (record_export "./mirroring_export_dependances.json" []
       (record_export "./mirroring_export_templates.json" ["T"]
          (record_export "./mirroring_export_files.json" []
             (record_export "./mirroring_export_pages.json" ["P"]
                (apply_writes [("T", "foo")]
                   (Demo.holding [("P", "old")])))))) !! "P"
  = Some "old".
Proof.
  apply (run_without_force_keeps_existing_pages Demo.py Demo.src Demo.dst 5
           ["P"] DEFAULT_OPTIONS (Demo.holding [("P", "old")])).
  - reflexivity.
  - vm_compute. reflexivity.
  - reflexivity.
Defined.

(** ** The command line *)

Lemma has_opt_cons short long opt arg opts :
  has_opt short long ((opt, arg) :: opts)
  = is_opt opt short long || has_opt short long opts.
Proof. reflexivity. Qed.

Lemma export_dir_args_cons opt arg opts :
  export_dir_args ((opt, arg) :: opts)
  = if is_opt opt "-e" "--export-dir" then arg :: export_dir_args opts
    else export_dir_args opts.
Proof.
  unfold export_dir_args. simpl. by destruct (is_opt opt "-e" "--export-dir").
Qed.

Lemma set_option_fields options opt arg :
  set_option options opt arg =
  {| force := force options || is_opt opt "-f" "--force";
     templatesSync :=
       templatesSync options && negb (is_opt opt "-t" "--no-sync-templates");
     templatesDepSync :=
       templatesDepSync options &&
       negb (is_opt opt "-d" "--no-sync-dependances-templates");
     filesUpload :=
       filesUpload options && negb (is_opt opt "-u" "--no-upload-files");
     exportDir :=
       if is_opt opt "-e" "--export-dir" then arg else exportDir options |}.
Proof.
  unfold set_option. destruct options as [f t d u e].
  destruct (is_opt opt "-f" "--force"),
    (is_opt opt "-t" "--no-sync-templates"),
    (is_opt opt "-d" "--no-sync-dependances-templates"),
    (is_opt opt "-u" "--no-upload-files"),
    (is_opt opt "-e" "--export-dir"); simpl;
    by destruct f, t, d, u.
Qed.

Lemma parse_args_fields opts : forall options,
  parse_args opts options =
  if has_opt "-h" "--help" opts then None
  else Some
    {| force := force options || has_opt "-f" "--force" opts;
       templatesSync :=
         templatesSync options &&
         negb (has_opt "-t" "--no-sync-templates" opts);
       templatesDepSync :=
         templatesDepSync options &&
         negb (has_opt "-d" "--no-sync-dependances-templates" opts);
       filesUpload :=
         filesUpload options && negb (has_opt "-u" "--no-upload-files" opts);
       exportDir := default (exportDir options) (last (export_dir_args opts)) |}.
Proof.
  induction opts as [|[opt arg] opts IH]; intros options.
  - simpl. destruct options as [f t d u e]. simpl.
    by rewrite !orb_false_r, !andb_true_r.
  - rewrite !has_opt_cons. cbn [parse_args].
    destruct (is_opt opt "-h" "--help"); [done|]. cbn [orb].
    rewrite IH, set_option_fields.
    destruct (has_opt "-h" "--help" opts); [done|].
    cbn [force templatesSync templatesDepSync filesUpload exportDir].
    rewrite !negb_orb, !orb_assoc, !andb_assoc. do 2 f_equal.
    rewrite export_dir_args_cons.
    destruct (is_opt opt "-e" "--export-dir"); [|done].
    rewrite last_cons. by destruct (last _).
Qed.

(** X15.  The options that [main] passes on depend on which options are
    on the command line, not on their order or number: [--help] anywhere
    ends the script; otherwise [force] is set when [-f] is given, uploads
    are off when [-u] is given, the templates of the templates are off when
    [-d] is given, the templates are off only when both [-t] and [-d] are
    given, and the export directory is the argument of the last [-e], or
    the current directory. *)
Theorem main_options_closed_form (opts : list (string * string)) :
  main_options opts =
  if has_opt "-h" "--help" opts then None
  else Some
    {| force := has_opt "-f" "--force" opts;
       templatesSync :=
         negb (has_opt "-t" "--no-sync-templates" opts) ||
         negb (has_opt "-d" "--no-sync-dependances-templates" opts);
       templatesDepSync :=
         negb (has_opt "-d" "--no-sync-dependances-templates" opts);
       filesUpload := negb (has_opt "-u" "--no-upload-files" opts);
       exportDir := default "." (last (export_dir_args opts)) |}.
Proof.
  unfold main_options. rewrite parse_args_fields.
  destruct (has_opt "-h" "--help" opts); [done|].
  simpl. unfold check_coherence. simpl.
  by destruct (has_opt "-t" "--no-sync-templates" opts),
    (has_opt "-d" "--no-sync-dependances-templates" opts).
Qed.

(** ** Exceptions of a run started by main *)

Lemma uploadFiles_from_raises_f dst files : forall f,
  raises_only (fun e => e = UnboundLocalError "f")
    (uploadFiles_from dst files f).
Proof.
  induction files as [|fileTitle files IH]; intros f;
    [apply raises_only_ret|].
  cbn [uploadFiles_from].
  destruct (dst_FilePage dst fileTitle) as [pageDst|e].
  - apply raises_only_bind; [|intros _; apply IH].
    apply raises_only_try. intros e. apply raises_only_ret.
  - apply raises_only_bind; [|intros _; apply IH].
    destruct f as [pg|]; [apply raises_only_ret|].
    by intros s e' s' [= <- _].
Qed.

Ltac errors_leaf lem :=
  apply ensures_raises_only;
  apply (raises_only_weaken _ is_library_error);
  [intros ? ?; by left|apply lem].

Ltac errors_tac :=
  lazymatch goal with
  | |- ensures _ _ (ret (Some _)) => apply ensures_ret_Some
  | |- ensures _ _ (ret _) => apply ensures_ret
  | |- ensures _ _ (read_local _ (Some _)) => apply ensures_ret
  | |- ensures _ _ (bind _ _) =>
    eapply ensures_bind;
    [errors_tac
    |let a := fresh "a" in
     let Ha := fresh "Ha" in
     intros a Ha;
     lazymatch type of Ha with
     | is_Some _ => destruct Ha as [? ->]
     | _ => idtac
     end;
     errors_tac]
  | |- ensures _ _ (exportPagesTitle _ _ _ _) =>
    errors_leaf exportPagesTitle_raises
  | |- ensures _ _ (getFilesFromPages _ _ _) =>
    errors_leaf getFilesFromPages_raises
  | |- ensures _ _ (getTemplatesFromPages _ _ _) =>
    errors_leaf getTemplatesFromPages_raises
  | |- ensures _ _ (syncPages _ _ _ _ _) =>
    errors_leaf syncPages_from_raises
  | |- ensures _ _ (uploadFiles _ _ _) =>
    apply ensures_raises_only;
    apply (raises_only_weaken _ (fun e => e = UnboundLocalError "f"));
    [intros ? ?; by right|apply uploadFiles_from_raises_f]
  end.

(** X16.  With the options that [main] passes on, whatever the command
    line, an exception that leaves [syncPagesWithDependances] is either the
    exception of a library call or the [UnboundLocalError] on [f] of
    [uploadFiles], and the latter only when uploads are on: the locals
    [files], [templates] and [dependances] are always assigned before they
    are read. *)
Theorem main_options_leave_no_local_unbound
    (opts : list (string * string)) (o : Options)
    (py : Python) (src : SrcSite) (dst : DstSite) (fuel : nat)
    (P : list string) (s : Store) (e : exn) (s' : Store) :
  main_options opts = Some o ->
  syncPagesWithDependances py src dst fuel P o s = Exc e s' ->
  is_library_error e \/ (e = UnboundLocalError "f" /\ filesUpload o = true).
Proof.
  intros Ho Hrun.
  pose proof (main_options_coherent opts o Ho) as Hinv.
  assert (ensures
            (fun e => is_library_error e \/
                      (e = UnboundLocalError "f" /\ filesUpload o = true))
            (fun _ => True)
            (syncPagesWithDependances py src dst fuel P o)) as Hen.
  2: { specialize (Hen s). by rewrite Hrun in Hen. }
  unfold syncPagesWithDependances.
  destruct (templatesDepSync o) eqn:Hdep;
    [rewrite Hinv by done|destruct (templatesSync o)];
    destruct (filesUpload o); errors_tac.
Qed.


Lemma main_options_leave_no_local_unbound_witness :
  is_library_error (Library PywikibotError) \/
  (Library PywikibotError = UnboundLocalError "f" /\
   filesUpload DEFAULT_OPTIONS = true).
Proof.
  apply (main_options_leave_no_local_unbound [("-t", "")] DEFAULT_OPTIONS
           Demo.py Demo.strict_src Demo.dst 5 ["B"; ""] Demo.empty
           (Library PywikibotError)
           (record_export "./mirroring_export_pages.json" ["B"; ""]
              Demo.empty)).
  - reflexivity.
  - vm_compute. reflexivity.
Defined.

(** ** The list of pages *)

Lemma build_cats_cases src categories s :
  (exists cats,
     build_cats src categories s = Ret cats s /\
     Forall2 (fun c x => src_Category src (c_title c) = Ok x.1.1 /\
                         x.1.2 = c_namespace c /\ x.2 = c_recurse c)
             categories cats) \/
  (exists e, build_cats src categories s = Exc (Library e) s) /\
  exists c, c ∈ categories /\ category_block src c = None.
Proof.
  induction categories as [|c categories IH].
  - left. exists []. split; [done|constructor].
  - cbn [build_cats]. unfold bind, call, ret, raise.
    destruct (src_Category src (c_title c)) as [cat|e] eqn:Hc.
    + simpl. destruct IH as [(cats & -> & Hall)|([e ->] & c' & Hin & Hb)].
      * left. exists ((cat, c_namespace c, c_recurse c) :: cats).
        split; [done|]. by constructor.
      * right. split; [by exists e|]. exists c'. split; [by constructor|done].
    + right. split; [by exists e|]. exists c. split; [constructor|].
      unfold category_block. by rewrite Hc.
Qed.

Lemma retrieve_pages_cases src categories : forall cats pages s,
  Forall2 (fun c x => src_Category src (c_title c) = Ok x.1.1 /\
                      x.1.2 = c_namespace c /\ x.2 = c_recurse c)
          categories cats ->
  (exists blocks,
     Forall2 (fun c b => category_block src c = Some b) categories blocks /\
     retrieve_pages cats pages s = Ret (pages ++ concat blocks) s) \/
  (exists e, retrieve_pages cats pages s = Exc (Library e) s) /\
  exists c, c ∈ categories /\ category_block src c = None.
Proof.
  induction categories as [|c categories IH]; intros cats pages s Hall.
  - apply Forall2_nil_inv_l in Hall as ->. left. exists [].
    split; [constructor|]. simpl. by rewrite app_nil_r.
  - apply Forall2_cons_inv_l in Hall
      as ([[cat ns] r] & cats' & (Hc & Hns & Hr) & Hall & ->).
    simpl in Hc, Hns, Hr. subst ns r.
    cbn [retrieve_pages]. unfold bind, call, ret, raise.
    destruct (articles cat (c_namespace c) (c_recurse c)) as [members|e]
      eqn:Hm.
    + simpl.
      destruct (IH cats' ((pages ++ [cat_title cat]) ++ members) s Hall)
        as [(blocks & Hb & ->)|([e ->] & c' & Hin & Hb)].
      * left. exists ((cat_title cat :: members) :: blocks). split.
        -- constructor; [|done]. unfold category_block. by rewrite Hc, Hm.
        -- simpl. by rewrite <- !app_assoc.
      * right. split; [by exists e|]. exists c'. split; [by constructor|done].
    + right. split; [by exists e|]. exists c. split; [constructor|].
      unfold category_block. by rewrite Hc, Hm.
Qed.

Lemma collect_pages_cases src pagesName categories s :
  (exists blocks,
     Forall2 (fun c b => category_block src c = Some b) categories blocks /\
     collect_pages src pagesName categories s
       = Ret (pagesName ++ concat blocks) s) \/
  (exists e, collect_pages src pagesName categories s = Exc (Library e) s) /\
  exists c, c ∈ categories /\ category_block src c = None.
Proof.
  unfold collect_pages. destruct categories as [|c0 categories].
  - left. exists []. split; [constructor|]. simpl. by rewrite app_nil_r.
  - unfold bind.
    destruct (build_cats_cases src (c0 :: categories) s)
      as [(cats & -> & Hall)|([e ->] & Hc)].
    + cbv beta iota. apply (retrieve_pages_cases src _ cats pagesName s Hall).
    + right. split; [by exists e|done].
Qed.

(** X17.  [collect_pages], the part of [syncAndModifyPages] that builds the
    list of pages, returns exactly when every category can be built and
    listed; the list is then the configured pages followed, for each
    category in turn, by the title of the category and its members, and
    nothing has been done on the destination. *)
Theorem collect_pages_appends_category_blocks
    (src : SrcSite) (pagesName : list string)
    (categories : list CategorySelector) (s : Store) (P : list string)
    (s' : Store) :
  collect_pages src pagesName categories s = Ret P s' <->
  s' = s /\
  exists blocks,
    Forall2 (fun c b => category_block src c = Some b) categories blocks /\
    P = pagesName ++ concat blocks.
Proof.
  destruct (collect_pages_cases src pagesName categories s)
    as [(blocks & Hb & Hrun)|([e Hrun] & c & Hin & Hc)]; rewrite Hrun.
  - split.
    + intros [= <- <-]. split; [done|]. by exists blocks.
    + intros (-> & blocks' & Hb' & ->).
      assert (blocks' = blocks) as ->; [|done].
      clear Hrun. revert blocks' Hb'. induction Hb as [|c b cs bs Hcb _ IH];
        intros blocks' Hb'.
      * by apply Forall2_nil_inv_l in Hb' as ->.
      * apply Forall2_cons_inv_l in Hb' as (b' & bs' & Hcb' & Hb' & ->).
        f_equal; [congruence|by apply IH].
  - split; [done|]. intros (_ & blocks & Hb & _). exfalso.
    apply list_elem_of_lookup in Hin as [i Hi].
    destruct (Forall2_lookup_l _ _ _ _ _ Hb Hi) as (b & _ & Hcb). congruence.
Qed.

Lemma collect_pages_appends_category_blocks_witness :
  collect_pages Demo.cat_src ["A"] [Demo.cat_selector "Cat"] Demo.empty
    = Ret ["A"; "Category:Cat"; "B"; "P"] Demo.empty.
Proof.
  apply (collect_pages_appends_category_blocks Demo.cat_src ["A"]
           [Demo.cat_selector "Cat"] Demo.empty
           ["A"; "Category:Cat"; "B"; "P"] Demo.empty).
  split; [reflexivity|].
  exists [["Category:Cat"; "B"; "P"]]. split; [|reflexivity].
  constructor; [reflexivity|constructor].
Defined.

(** X18.  When the login on the destination raises, or when one category
    of the configuration cannot be built or listed, a library exception
    leaves [syncAndModifyPages] before any page is synced, modified or
    exported. *)
Theorem setup_failure_aborts_before_any_page
    (py : Python) (bot : Pywikibot) (fuel : nat)
    (srcFam srcCode dstFam dstCode : string) (pagesName : list string)
    (categories : list CategorySelector) (modifications : list Modification)
    (options : Options) (s : Store)
    (siteSrc : SrcSite) (d0 : DstSite) (s0 : SrcSite) (siteDst : DstSite) :
  Site bot srcFam srcCode = Ok (siteSrc, d0) ->
  Site bot dstFam dstCode = Ok (s0, siteDst) ->
  (exists e, dst_login siteDst = Raise e) \/
  (exists c, c ∈ categories /\ category_block siteSrc c = None) ->
  exists e,
    syncAndModifyPages py bot fuel srcFam srcCode dstFam dstCode pagesName
      categories modifications options s = Exc (Library e) s.
Proof.
  intros Hsrc Hdst Hfail. unfold syncAndModifyPages.
  unfold bind at 1. rewrite Hsrc. cbn [call ret fst].
  unfold bind at 1. rewrite Hdst. cbn [call ret snd].
  unfold bind at 1.
  destruct (dst_login siteDst) as [[]|e] eqn:Hlogin; [|by exists e].
  cbn [call ret]. unfold bind at 1.
  destruct Hfail as [[e He]|(c & Hin & Hc)]; [done|].
  destruct (collect_pages_cases siteSrc pagesName categories s)
    as [(blocks & Hb & _)|([e ->] & _)]; [|by exists e].
  exfalso. apply list_elem_of_lookup in Hin as [i Hi].
  destruct (Forall2_lookup_l _ _ _ _ _ Hb Hi) as (b & _ & Hcb). congruence.
Qed.

Lemma setup_failure_aborts_before_any_page_witness :
  exists e,
    syncAndModifyPages Demo.py Demo.bot 5 "wikipedia" "en" "kiwix" "en" ["B"]
      [Demo.cat_selector "Cat"] [Demo.rule_T] DEFAULT_OPTIONS Demo.empty
    = Exc (Library e) Demo.empty.
Proof.
  apply (setup_failure_aborts_before_any_page Demo.py Demo.bot 5 "wikipedia"
           "en" "kiwix" "en" ["B"] [Demo.cat_selector "Cat"] [Demo.rule_T]
           DEFAULT_OPTIONS Demo.empty Demo.src Demo.dst Demo.src Demo.dst).
  - reflexivity.
  - reflexivity.
  - right. exists (Demo.cat_selector "Cat"). split; [constructor|reflexivity].
Defined.

(** ** Configuration files and main *)

Lemma processFromJSONFile_readable files py bot fuel fileconfig options s :
  readable files fileconfig ->
  processFromJSONFile files py bot fuel fileconfig options s = Diverge \/
  exists s',
    processFromJSONFile files py bot fuel fileconfig options s = Ret tt s'.
Proof.
  intros Hr. unfold processFromJSONFile.
  destruct (files fileconfig) as [e| |cfg] eqn:Hf; [by destruct (Hr e)| |].
  - right. by exists s.
  - destruct (read_keys cfg) as [[[[[[[srcFam srcCode] dstFam] dstCode] pages]
      cats] mods]|]; [|right; by exists s].
    unfold try_except, bind, ret.
    destruct (syncAndModifyPages _ _ _ _ _ _ _ _ _ _ _ s) as [a s1|e s1|];
      [right; by exists s1|right; by exists s1|by left].
Qed.




Lemma process_args_readable files py bot fuel options args : forall s,
  (forall a, a ∈ args -> readable files a) ->
  process_args files py bot fuel options args s = Diverge \/
  exists s', process_args files py bot fuel options args s = Ret tt s'.
Proof.
  induction args as [|a args IH]; intros s Hr; [right; by exists s|].
  cbn [process_args]. unfold bind.
  destruct (processFromJSONFile_readable files py bot fuel a options s)
    as [->|[s1 ->]]; [apply Hr; constructor|by left|].
  apply IH. intros b Hb. apply Hr. by constructor.
Qed.

Lemma process_args_app files py bot fuel options pre rest : forall s,
  process_args files py bot fuel options (pre ++ rest) s =
  match process_args files py bot fuel options pre s with
  | Ret _ s1 => process_args files py bot fuel options rest s1
  | Exc e s1 => Exc e s1
  | Diverge => Diverge
  end.
Proof.
  induction pre as [|a pre IH]; intros s; [done|].
  cbn [app process_args]. unfold bind.
  destruct (processFromJSONFile files py bot fuel a options s)
    as [u s1|e s1|]; [apply IH|done..].
Qed.

Lemma main_options_None opts :
  main_options opts = None <-> has_opt "-h" "--help" opts = true.
Proof.
  unfold main_options. rewrite parse_args_fields.
  by destruct (has_opt "-h" "--help" opts).
Qed.




(** X21.  A file that cannot be opened ends [main] with the exception of
    [open]: the files named before it have been processed, the files named
    after it are not. *)
Theorem main_stops_at_unreadable_file
    (files : string -> config_file) (py : Python) (bot : Pywikibot)
    (fuel : nat) (opts : list (string * string))
    (pre : list string) (bad : string) (rest : list string) (e : lib_error)
    (s : Store) :
  has_opt "-h" "--help" opts = false ->
  (forall a, a ∈ pre -> readable files a) ->
  files bad = Unreadable e ->
  main files py bot fuel opts (pre ++ bad :: rest) s = Diverge \/
  exists s',
    main files py bot fuel opts pre s = Ret tt s' /\
    main files py bot fuel opts (pre ++ bad :: rest) s
      = Exc (Library e) s'.
Proof.
  intros Hh Hr Hbad. unfold main.
  destruct (main_options opts) as [o|] eqn:Ho;
    [|apply main_options_None in Ho; congruence].
  rewrite process_args_app.
  destruct (process_args_readable files py bot fuel o pre s Hr)
    as [->|[s1 ->]]; [by left|].
  right. exists s1. split; [done|].
  cbn [process_args]. unfold bind, processFromJSONFile. by rewrite Hbad.
Qed.


Lemma main_stops_at_unreadable_file_witness :
  main Demo.files Demo.py Demo.bot 5 [("-u", "")]
    (["good.json"] ++ "missing.json" :: ["nokey.json"]) Demo.empty
    = Diverge \/
  exists s',
    main Demo.files Demo.py Demo.bot 5 [("-u", "")] ["good.json"] Demo.empty
      = Ret tt s' /\
    main Demo.files Demo.py Demo.bot 5 [("-u", "")]
      (["good.json"] ++ "missing.json" :: ["nokey.json"]) Demo.empty
      = Exc (Library IOError) s'.
Proof.
  apply (main_stops_at_unreadable_file Demo.files Demo.py Demo.bot 5
           [("-u", "")] ["good.json"] "missing.json" ["nokey.json"] IOError
           Demo.empty).
  - reflexivity.
  - intros a Ha e. apply list_elem_of_singleton in Ha as ->. by vm_compute.
  - reflexivity.
Defined.


